(** * RESOLVE: the temporal index, the derived sets and the constraint rules

    A shallow embedding of the parts of [resolve_code/model_formulation.py]
    and [resolve_code/load_data.py] that fix the structure of the
    optimisation problem: the circular timepoint index, the resource sets
    obtained by filtering on flags, the rules that build constraints and
    expressions, and the binder of flexible parameters.

    Conventions.
    - A Python exception is [None] (for [load_data], [Err e]).
    - Pyomo ordered [Set]s are lists, Python dicts are [gmap]s.
    - Parameter values and variable values are rationals ([Q]) where the
      code only compares them or hands them to the solver as coefficients.
      The values the code computes with while the model is built (the two
      technology fractions that the ramp rules subtract and compare, the
      cumulative planned capacities that are subtracted from each other)
      are Python floats, that is IEEE 754 binary64 numbers with rounded
      arithmetic: the primitive floats.
    - A rule returns a Pyomo expression tree; the tree is kept as data
      ([expr]) and given a meaning by [eval]. *)

From Stdlib Require Import ZArith QArith Qfield Lia Lqa Floats.
From stdpp Require Import gmap strings list sorting.

Open Scope Z_scope.

(** Decimal numerals stand for the nearest float, as in Python. *)
#[local] Set Warnings "-inexact-float".

(** ** Python and Pyomo primitives *)

(** [min(l)] and [max(l)]: ValueError on an empty list. *)
Definition py_min (l : list Z) : option Z :=
  match l with
  | [] => None
  | x :: l' => Some (foldl Z.min x l')
  end.

Definition py_max (l : list Z) : option Z :=
  match l with
  | [] => None
  | x :: l' => Some (foldl Z.max x l')
  end.

(** [sorted(list(set(l)))] *)
Definition sorted_unique (l : list Z) : list Z :=
  merge_sort Z.le (remove_dups l).

(** [range(a, b)] *)
Definition py_range (a b : Z) : list Z :=
  (λ i : nat, a + Z.of_nat i) <$> seq 0 (Z.to_nat (b - a)).

(** [Param(index, initialize=rule)]: the rule is called on every index; an
    exception in any call aborts the construction. *)
Definition pyomo_Param `{Countable K} {V} (index : list K) (rule : K → option V)
  : option (gmap K V) :=
  kvs ← mapM (λ k, v ← rule k; Some (k, v)) index;
  Some (list_to_map kvs).

(** [Set(initialize=init, filter=f, validate=ok)]: the elements of [init]
    that pass the filter are added in order; adding an element that fails
    the validation rule raises ValueError. *)
Definition pyomo_Set {A} (init : list A) (f ok : A → bool) : option (list A) :=
  let members := List.filter f init in
  if forallb ok members then Some members else None.

(** ** Python floats *)

(** The exact value of a finite float.  The domains of the parameters held
    as floats ([PercentFraction], [NonNegativeReals]) reject NaN, and where
    such a parameter is a coefficient of a constraint it is finite; NaN and
    the infinities are given the value 0. *)
Definition float_value (f : float) : Q :=
  match Prim2SF f with
  | S754_finite s m e =>
      let z := if s then Z.neg m else Z.pos m in
      if (0 <=? e)%Z then inject_Z (z * 2 ^ e) else z # (2 ^ Z.to_pos (- e))
  | _ => 0
  end.

Abbreviation Resource := string.
Abbreviation Technology := string.
Abbreviation Zone := string.

(** ** The data bound to the abstract model *)

Record Model := {
  (* temporal resolution *)
  TIMEPOINTS : list Z;
  period : Z → Z;
  day : Z → Z;
  (* technologies *)
  thermal : Technology → bool;
  dispatchable : Technology → bool;
  generate_at_max : Technology → bool;
  variable : Technology → bool;
  storage : Technology → bool;
  firm_capacity : Technology → bool;
  hydrogen_electrolysis : Technology → bool;
  electric_vehicle : Technology → bool;
  energy_efficiency : Technology → bool;
  flexible_load : Technology → bool;
  (* resources *)
  RESOURCES : list Resource;
  technology : Resource → Technology;
  zone : Resource → Zone;
  can_build_new : Resource → bool;
  rps_eligible : Resource → bool;
  can_retire : Resource → bool;
  (* reserves *)
  RESERVE_RESOURCES : list Resource;
  can_provide_reg : Resource → bool;
  can_provide_lf_reserves : Resource → bool;
  (* planning reserve margin and deliverability *)
  include_in_prm : Zone → bool;
  import_on_existing_tx : Resource → bool;
  import_on_new_tx : Resource → bool;
  elcc_solar_bin : Resource → bool;
  elcc_wind_bin : Resource → bool;
  (* technology parameters *)
  min_down_time_hours : Technology → Z;
  min_up_time_hours : Technology → Z;
  ramp_rate_fraction : Technology → float;
  min_stable_level_fraction : Technology → float;
  unit_size_mw : Technology → Q;
  charging_efficiency : Technology → Q;
  discharging_efficiency : Technology → Q;
  reg_dispatch_fraction : Q;
  lf_reserve_dispatch_fraction : Q
}.

(** [resolve_model.timepoints_per_day = Param(initialize=24)] *)
Definition timepoints_per_day : Z := 24.

(** [resolve_model.ramp_relax = Param(initialize=10 ** -4)] *)
Definition ramp_relax : Q := (1 # 10000)%Q.

(** ** Temporal index *)

Definition periods_init (m : Model) : list Z :=
  sorted_unique (period m <$> TIMEPOINTS m).

Definition days_init (m : Model) : list Z :=
  sorted_unique (day m <$> TIMEPOINTS m).

(** The loop shared by [first_timepoint_of_day_init] and
    [last_timepoint_of_day_init]. *)
Definition timepoints_on_day (m : Model) (p d : Z) : list Z :=
  List.filter (λ timepoint, bool_decide (period m timepoint = p) && bool_decide (day m timepoint = d))
              (TIMEPOINTS m).

Definition first_timepoint_of_day_init (m : Model) (p d : Z) : option Z :=
  py_min (timepoints_on_day m p d).

Definition last_timepoint_of_day_init (m : Model) (p d : Z) : option Z :=
  py_max (timepoints_on_day m p d).

(** One step of the loop of [previous_timepoint_init]; a missing key of
    [first_timepoint_of_day] or [last_timepoint_of_day] is a KeyError. *)
Definition previous_timepoint_step (m : Model) (first_tp last_tp : gmap (Z * Z) Z)
    (acc : option (gmap Z Z)) (timepoint : Z) : option (gmap Z Z) :=
  previous_tp ← acc;
  f ← first_tp !! (period m timepoint, day m timepoint);
  if bool_decide (timepoint = f) then
    l ← last_tp !! (period m timepoint, day m timepoint);
    Some (<[timepoint := l]> previous_tp)
  else Some (<[timepoint := timepoint - 1]> previous_tp).

Definition previous_timepoint_init (m : Model) (first_tp last_tp : gmap (Z * Z) Z)
  : option (gmap Z Z) :=
  foldl (previous_timepoint_step m first_tp last_tp) (Some ∅) (TIMEPOINTS m).

Definition next_timepoint_step (m : Model) (first_tp last_tp : gmap (Z * Z) Z)
    (acc : option (gmap Z Z)) (timepoint : Z) : option (gmap Z Z) :=
  next_tp ← acc;
  l ← last_tp !! (period m timepoint, day m timepoint);
  if bool_decide (timepoint = l) then
    f ← first_tp !! (period m timepoint, day m timepoint);
    Some (<[timepoint := f]> next_tp)
  else Some (<[timepoint := timepoint + 1]> next_tp).

Definition next_timepoint_init (m : Model) (first_tp last_tp : gmap (Z * Z) Z)
  : option (gmap Z Z) :=
  foldl (next_timepoint_step m first_tp last_tp) (Some ∅) (TIMEPOINTS m).

(** The temporal components of a constructed instance. *)
Record TemporalIndex := {
  PERIODS : list Z;
  DAYS : list Z;
  first_period : Z;
  first_timepoint_of_day : gmap (Z * Z) Z;
  last_timepoint_of_day : gmap (Z * Z) Z;
  previous_timepoint : gmap Z Z;
  next_timepoint : gmap Z Z
}.

(** Construction, in the order of the declarations of the module. [first_timepoint_of_day]
    and [last_timepoint_of_day] are indexed by PERIODS x DAYS. *)
Definition build_temporal_index (m : Model) : option TemporalIndex :=
  let periods := periods_init m in
  let days := days_init m in
  fp ← py_min periods;
  first_tp ← pyomo_Param (p ← periods; d ← days; [(p, d)])
                         (λ pd, first_timepoint_of_day_init m pd.1 pd.2);
  last_tp ← pyomo_Param (p ← periods; d ← days; [(p, d)])
                        (λ pd, last_timepoint_of_day_init m pd.1 pd.2);
  prev ← previous_timepoint_init m first_tp last_tp;
  next ← next_timepoint_init m first_tp last_tp;
  Some {| PERIODS := periods; DAYS := days; first_period := fp;
          first_timepoint_of_day := first_tp; last_timepoint_of_day := last_tp;
          previous_timepoint := prev; next_timepoint := next |}.

(** ** Pyomo expressions and constraints *)

(** A variable (or a named expression kept abstract) is identified by the
    name of its component and its index (resource, timepoint or period). *)
Definition var : Type := string * Resource * Z.

Inductive expr :=
| EConst (q : Q)
| EVar (x : var)
| EAdd (a b : expr)
| ESub (a b : expr)
| EMul (a b : expr)
| EDiv (a b : expr)
| ENeg (a : expr).

Inductive constraint :=
| CEq (a b : expr)   (* a == b *)
| CLe (a b : expr)   (* a <= b *)
| CGe (a b : expr).  (* a >= b *)

(** The value returned by a constraint rule. *)
Inductive rule_result :=
| Skip                      (* Constraint.Skip *)
| Emit (c : constraint).

Declare Scope expr_scope.
Delimit Scope expr_scope with E.
Bind Scope expr_scope with expr.
Infix "+" := EAdd : expr_scope.
Infix "-" := ESub : expr_scope.
Infix "*" := EMul : expr_scope.
Infix "/" := EDiv : expr_scope.
Notation "- x" := (ENeg x) : expr_scope.

Fixpoint eval (v : var → Q) (e : expr) : Q :=
  match e with
  | EConst q => q
  | EVar x => v x
  | EAdd a b => eval v a + eval v b
  | ESub a b => eval v a - eval v b
  | EMul a b => eval v a * eval v b
  | EDiv a b => eval v a / eval v b
  | ENeg a => - eval v a
  end%Q.

Definition sat (v : var → Q) (c : constraint) : Prop :=
  match c with
  | CEq a b => (eval v a == eval v b)%Q
  | CLe a b => (eval v a <= eval v b)%Q
  | CGe a b => (eval v b <= eval v a)%Q
  end.

(** The variables an expression mentions. *)
Fixpoint expr_vars (e : expr) : list var :=
  match e with
  | EConst _ => []
  | EVar x => [x]
  | EAdd a b | ESub a b | EMul a b | EDiv a b => expr_vars a ++ expr_vars b
  | ENeg a => expr_vars a
  end.

(** [Var(index1, index2)] read at [[r, i]]: KeyError outside the index set. *)
Definition Var (index1 : list Resource) (index2 : list Z) (name : string)
    (r : Resource) (i : Z) : option expr :=
  if bool_decide (r ∈ index1) && bool_decide (i ∈ index2)
  then Some (EVar (name, r, i)) else None.

(** [Expression(index1, index2, rule=rule)] read at [[r, i]]: KeyError
    outside the index set, otherwise the expression built by the rule. *)
Definition Expression (index1 : list Resource) (index2 : list Z)
    (rule : Resource → Z → option expr) (r : Resource) (i : Z) : option expr :=
  if bool_decide (r ∈ index1) && bool_decide (i ∈ index2) then rule r i else None.

(** [Constraint(index1, index2, rule=rule)]: the rule is called on every
    index in order; [Constraint.Skip] adds nothing and an exception aborts. *)
Definition Constraint (index1 : list Resource) (index2 : list Z)
    (rule : Resource → Z → option rule_result) : option (list (Resource * Z * constraint)) :=
  rs ← mapM (λ ri : Resource * Z, res ← rule ri.1 ri.2; Some (ri, res))
            (r ← index1; i ← index2; [(r, i)]);
  Some (omap (λ x : Resource * Z * rule_result,
                match x.2 with Skip => None | Emit c => Some (x.1, c) end) rs).

(** A valuation is feasible for a constraint component when it satisfies
    every constraint of it. *)
Definition feasible (v : var → Q) (cs : list (Resource * Z * constraint)) : Prop :=
  ∀ ri c, (ri, c) ∈ cs → sat v c.

(** Division of an expression by a parameter value: Pyomo raises
    ZeroDivisionError for a zero constant. *)
Definition div_by_param (e : expr) (q : Q) : option expr :=
  if Qeq_bool q 0 then None else Some (e / EConst q)%E.

(** Pyomo set operators on ordered sets *)
Definition set_and (A B : list Resource) : list Resource := list_intersection A B.
Definition set_sub (A B : list Resource) : list Resource := list_difference A B.
Definition set_or (A B : list Resource) : list Resource := A ++ list_difference B A.

(** ** The constructed instance *)

(** What rules read from [model]: the bound data, the temporal index and the
    components that are built with a validation rule. *)
Record Instance := {
  inputs :> Model;
  temporal :> TemporalIndex;
  THERMAL_RESOURCES : list Resource;
  CAN_RETIRE_RESOURCES : list Resource;
  prm_memberships : gmap Resource Z
}.

Section sets.
Context (model : Instance).

Definition THERMAL_RESOURCES_filter (resource : Resource) : bool :=
  thermal model (technology model resource).

Definition THERMAL_RESOURCES_validate (resource : Resource) : bool :=
  bool_decide (Z.b2z (dispatchable model (technology model resource))
               + Z.b2z (generate_at_max model (technology model resource)) = 1).

Definition DISPATCHABLE_RESOURCES : list Resource :=
  List.filter (λ resource, dispatchable model (technology model resource))
              (THERMAL_RESOURCES model).

Definition HYDROGEN_ELECTROLYSIS_RESOURCES : list Resource :=
  List.filter (λ resource, hydrogen_electrolysis model (technology model resource))
              (RESOURCES model).

Definition EV_RESOURCES : list Resource :=
  List.filter (λ resource, electric_vehicle model (technology model resource))
              (RESOURCES model).

Definition LOAD_ONLY_RESOURCES : list Resource :=
  set_or HYDROGEN_ELECTROLYSIS_RESOURCES EV_RESOURCES.

Definition EE_PROGRAMS : list Resource :=
  List.filter (λ resource, energy_efficiency model (technology model resource))
              (RESOURCES model).

Definition FLEXIBLE_LOAD_RESOURCES : list Resource :=
  List.filter (λ resource, flexible_load model (technology model resource))
              (RESOURCES model).

Definition RPS_ELIGIBLE_RESOURCES : list Resource :=
  List.filter (λ resource, rps_eligible model resource) (RESOURCES model).

Definition VARIABLE_RESOURCES : list Resource :=
  List.filter (λ resource, variable model (technology model resource)) (RESOURCES model).

Definition STORAGE_RESOURCES : list Resource :=
  List.filter (λ resource, storage model (technology model resource)) (RESOURCES model).

Definition RESOURCES_WITH_MW_CAPACITY : list Resource :=
  set_sub (set_sub (RESOURCES model) EV_RESOURCES) FLEXIBLE_LOAD_RESOURCES.

Definition NEW_BUILD_RESOURCES : list Resource :=
  List.filter (λ resource, can_build_new model resource) RESOURCES_WITH_MW_CAPACITY.

Definition REGULATION_RESERVE_RESOURCES : list Resource :=
  List.filter (λ resource, can_provide_reg model resource) (RESERVE_RESOURCES model).

Definition LOAD_FOLLOWING_RESERVE_RESOURCES : list Resource :=
  List.filter (λ resource, can_provide_lf_reserves model resource) (RESERVE_RESOURCES model).

Definition PRM_RESOURCES : list Resource :=
  List.filter (λ resource, include_in_prm model (zone model resource))
              (set_sub (set_sub (RESOURCES model) LOAD_ONLY_RESOURCES) FLEXIBLE_LOAD_RESOURCES).

Definition TX_DELIVERABILITY_RESOURCES : list Resource :=
  set_and (set_and NEW_BUILD_RESOURCES RPS_ELIGIBLE_RESOURCES) PRM_RESOURCES.

Definition prm_variable_renewable_resources_init : list Resource :=
  List.filter (λ r,
      if bool_decide (r ∈ VARIABLE_RESOURCES) then
        if negb (bool_decide (r ∈ TX_DELIVERABILITY_RESOURCES)) then true
        else negb (import_on_new_tx model r) && negb (import_on_existing_tx model r)
      else false)
    PRM_RESOURCES.

Definition PRM_VARIABLE_RENEWABLE_RESOURCES : list Resource :=
  prm_variable_renewable_resources_init.

Definition prm_firm_capacity_resources_init : list Resource :=
  List.filter (λ r,
      if firm_capacity model (technology model r) then
        if negb (bool_decide (r ∈ TX_DELIVERABILITY_RESOURCES)) then true
        else negb (import_on_new_tx model r) && negb (import_on_existing_tx model r)
      else false)
    PRM_RESOURCES.

Definition PRM_FIRM_CAPACITY_RESOURCES : list Resource :=
  prm_firm_capacity_resources_init.

(** [PRM_RESOURCES & STORAGE_RESOURCES - PRM_FIRM_CAPACITY_RESOURCES]:
    in Python [-] binds tighter than [&]. *)
Definition PRM_STORAGE_RESOURCES : list Resource :=
  set_and PRM_RESOURCES (set_sub STORAGE_RESOURCES PRM_FIRM_CAPACITY_RESOURCES).

Definition PRM_NQC_RESOURCES : list Resource :=
  set_or PRM_FIRM_CAPACITY_RESOURCES PRM_STORAGE_RESOURCES.

Definition can_retire_resources_validation_rule (resource : Resource) : bool :=
  if bool_decide (resource ∈ set_sub (set_sub (THERMAL_RESOURCES model) STORAGE_RESOURCES)
                                     TX_DELIVERABILITY_RESOURCES)
  then true else false.

Definition DISPATCHABLE_RAMP_LIMITED_RESOURCES : list Resource :=
  List.filter (λ resource, (ramp_rate_fraction model (technology model resource) <? 1)%float)
              DISPATCHABLE_RESOURCES.

Definition planning_reserve_margin_resource_membership_init (resource : Resource) : Z :=
  let memberships := 0 in
  let memberships :=
    if bool_decide (resource ∈ PRM_NQC_RESOURCES) then memberships + 1 else memberships in
  let memberships :=
    if bool_decide (resource ∈ PRM_VARIABLE_RENEWABLE_RESOURCES) then
      let memberships :=
        if elcc_solar_bin model resource then memberships + 1 else memberships in
      if elcc_wind_bin model resource then memberships + 1 else memberships
    else memberships in
  let memberships :=
    if bool_decide (resource ∈ TX_DELIVERABILITY_RESOURCES) then
      let memberships :=
        if import_on_existing_tx model resource then memberships + 1 else memberships in
      if import_on_new_tx model resource then memberships + 1 else memberships
    else memberships in
  let memberships :=
    if bool_decide (resource ∈ EE_PROGRAMS) then memberships + 1 else memberships in
  memberships.
End sets.

Definition planning_reserve_margin_resource_membership_validate (model : Instance)
    (memberships : Z) (resource : Resource) : bool :=
  bool_decide (memberships = 1).

(** [Param(index, initialize=init, validate=ok)]: every initial value is
    checked by the validation rule; a failed check raises ValueError. *)
Definition pyomo_Param_validate `{Countable K} {V} (index : list K) (init : K → V)
    (ok : V → K → bool) : option (gmap K V) :=
  pyomo_Param index (λ k, if ok (init k) k then Some (init k) else None).

(** Construction of the instance, in the order of the declarations of the
    module.  Each rule sees the components constructed before it; the ones
    not yet constructed are empty.  Only the components used below are
    constructed. *)
Definition create_instance (m : Model) : option Instance :=
  ix ← build_temporal_index m;
  let model0 := {| inputs := m; temporal := ix; THERMAL_RESOURCES := [];
                   CAN_RETIRE_RESOURCES := []; prm_memberships := ∅ |} in
  th ← pyomo_Set (RESOURCES m) (THERMAL_RESOURCES_filter model0)
                 (THERMAL_RESOURCES_validate model0);
  let model1 := {| inputs := m; temporal := ix; THERMAL_RESOURCES := th;
                   CAN_RETIRE_RESOURCES := []; prm_memberships := ∅ |} in
  cr ← pyomo_Set (RESOURCES m) (can_retire m) (can_retire_resources_validation_rule model1);
  let model2 := {| inputs := m; temporal := ix; THERMAL_RESOURCES := th;
                   CAN_RETIRE_RESOURCES := cr; prm_memberships := ∅ |} in
  pm ← pyomo_Param_validate (PRM_RESOURCES model2)
          (planning_reserve_margin_resource_membership_init model2)
          (planning_reserve_margin_resource_membership_validate model2);
  Some {| inputs := m; temporal := ix; THERMAL_RESOURCES := th;
          CAN_RETIRE_RESOURCES := cr; prm_memberships := pm |}.

(** ** Variables *)

Section components.
Context (model : Instance).

(** The resources that carry a [Provide_Power_MW] variable:
    [RESOURCES - LOAD_ONLY_RESOURCES - EE_PROGRAMS - FLEXIBLE_LOAD_RESOURCES]. *)
Definition Provide_Power_MW_index : list Resource :=
  set_sub (set_sub (set_sub (RESOURCES model) (LOAD_ONLY_RESOURCES model))
                   (EE_PROGRAMS model))
          (FLEXIBLE_LOAD_RESOURCES model).

Definition Provide_Power_MW : Resource → Z → option expr :=
  Var Provide_Power_MW_index (TIMEPOINTS model) "Provide_Power_MW".

Definition Commit_Units : Resource → Z → option expr :=
  Var (DISPATCHABLE_RESOURCES model) (TIMEPOINTS model) "Commit_Units".

Definition Start_Units : Resource → Z → option expr :=
  Var (DISPATCHABLE_RESOURCES model) (TIMEPOINTS model) "Start_Units".

Definition Shut_Down_Units : Resource → Z → option expr :=
  Var (DISPATCHABLE_RESOURCES model) (TIMEPOINTS model) "Shut_Down_Units".

Definition Charge_Storage_MW : Resource → Z → option expr :=
  Var (STORAGE_RESOURCES model) (TIMEPOINTS model) "Charge_Storage_MW".

Definition Energy_in_Storage_MWh : Resource → Z → option expr :=
  Var (STORAGE_RESOURCES model) (TIMEPOINTS model) "Energy_in_Storage_MWh".

Definition Provide_Upward_Reg_MW : Resource → Z → option expr :=
  Var (REGULATION_RESERVE_RESOURCES model) (TIMEPOINTS model) "Provide_Upward_Reg_MW".

Definition Provide_Downward_Reg_MW : Resource → Z → option expr :=
  Var (REGULATION_RESERVE_RESOURCES model) (TIMEPOINTS model) "Provide_Downward_Reg_MW".

Definition Provide_LF_Upward_Reserve_MW : Resource → Z → option expr :=
  Var (LOAD_FOLLOWING_RESERVE_RESOURCES model) (TIMEPOINTS model)
      "Provide_LF_Upward_Reserve_MW".

Definition Provide_LF_Downward_Reserve_MW : Resource → Z → option expr :=
  Var (LOAD_FOLLOWING_RESERVE_RESOURCES model) (TIMEPOINTS model)
      "Provide_LF_Downward_Reserve_MW".

Definition Fully_Deliverable_Installed_Capacity_MW : Resource → Z → option expr :=
  Var (TX_DELIVERABILITY_RESOURCES model) (PERIODS model)
      "Fully_Deliverable_Installed_Capacity_MW".

Definition Energy_Only_Installed_Capacity_MW : Resource → Z → option expr :=
  Var (TX_DELIVERABILITY_RESOURCES model) (PERIODS model)
      "Energy_Only_Installed_Capacity_MW".

(** [Operational_New_Capacity_MW] is an Expression over NEW_BUILD_RESOURCES
    and PERIODS built from the build and retirement variables; it is kept
    as a named quantity. *)
Definition Operational_New_Capacity_MW : Resource → Z → option expr :=
  Var (NEW_BUILD_RESOURCES model) (PERIODS model) "Operational_New_Capacity_MW".

(** ** Unit commitment expressions *)

Definition prestart_to_start_definition (resource : Resource) (timepoint : Z) : option expr :=
  let min_down_time := min_down_time_hours model (technology model resource) in
  l ← last_timepoint_of_day model !! (period model timepoint, day model timepoint);
  let day_wrap :=
    if bool_decide (timepoint + min_down_time > l) then timepoints_per_day else 0 in
  Start_Units resource (timepoint + min_down_time - day_wrap).

Definition PreStart_Units : Resource → Z → option expr :=
  Expression (DISPATCHABLE_RESOURCES model) (TIMEPOINTS model) prestart_to_start_definition.

Definition preshut_down_to_shut_down_definition (resource : Resource) (timepoint : Z)
  : option expr :=
  let min_up_time := min_up_time_hours model (technology model resource) in
  l ← last_timepoint_of_day model !! (period model timepoint, day model timepoint);
  let day_wrap :=
    if bool_decide (timepoint + min_up_time > l) then timepoints_per_day else 0 in
  Shut_Down_Units resource (timepoint + min_up_time - day_wrap).

Definition PreShut_Down_Units : Resource → Z → option expr :=
  Expression (DISPATCHABLE_RESOURCES model) (TIMEPOINTS model)
             preshut_down_to_shut_down_definition.

(** The list [previous_timepoints] of [define_starting_units] and
    [define_shutting_down_units], for a first timepoint of the day [f] and
    a minimum time [min_time]. *)
Definition previous_timepoints (timepoint f min_time : Z) : list Z :=
  (λ pt, if bool_decide (timepoint - pt >= f) then timepoint - pt
         else timepoint + timepoints_per_day - pt) <$> py_range 1 min_time.

(** [acc += component[resource, t]] over a list of timepoints, from [float()]. *)
Definition sum_over (component : Resource → Z → option expr) (resource : Resource)
    (ts : list Z) : option expr :=
  foldl (λ acc t, a ← acc; e ← component resource t; Some (a + e)%E)
        (Some (EConst 0)) ts.

Definition define_starting_units (resource : Resource) (timepoint : Z) : option expr :=
  let min_down_time := min_down_time_hours model (technology model resource) in
  f ← first_timepoint_of_day model !! (period model timepoint, day model timepoint);
  if bool_decide (timepoint - min_down_time < f) then
    sum_over PreStart_Units resource (previous_timepoints timepoint f min_down_time)
  else
    sum_over PreStart_Units resource ((λ t, timepoint - t) <$> py_range 1 min_down_time).

Definition Starting_Units : Resource → Z → option expr :=
  Expression (DISPATCHABLE_RESOURCES model) (TIMEPOINTS model) define_starting_units.

Definition define_shutting_down_units (resource : Resource) (timepoint : Z) : option expr :=
  let min_up_time := min_up_time_hours model (technology model resource) in
  f ← first_timepoint_of_day model !! (period model timepoint, day model timepoint);
  if bool_decide (timepoint - min_up_time < f) then
    sum_over PreShut_Down_Units resource (previous_timepoints timepoint f min_up_time)
  else
    sum_over PreShut_Down_Units resource ((λ t, timepoint - t) <$> py_range 1 min_up_time).

Definition Shutting_Down_Units : Resource → Z → option expr :=
  Expression (DISPATCHABLE_RESOURCES model) (TIMEPOINTS model) define_shutting_down_units.

Definition fully_operational_units_def_rule (resource : Resource) (timepoint : Z)
  : option expr :=
  c ← Commit_Units resource timepoint;
  s ← Start_Units resource timepoint;
  n ← next_timepoint model !! timepoint;
  sd ← Shut_Down_Units resource n;
  Some (c - s - sd)%E.

Definition Fully_Operational_Units : Resource → Z → option expr :=
  Expression (DISPATCHABLE_RAMP_LIMITED_RESOURCES model) (TIMEPOINTS model)
             fully_operational_units_def_rule.



Definition define_commit_capacity (resource : Resource) (timepoint : Z) : option expr :=
  c ← Commit_Units resource timepoint;
  Some (c * EConst (unit_size_mw model (technology model resource)))%E.

Definition Commit_Capacity_MW : Resource → Z → option expr :=
  Expression (DISPATCHABLE_RESOURCES model) (TIMEPOINTS model) define_commit_capacity.

(** ** Constraint rules *)

Definition dispatchable_resource_commitment_tracking_rule (resource : Resource)
    (timepoint : Z) : option rule_result :=
  c ← Commit_Units resource timepoint;
  prev ← previous_timepoint model !! timepoint;
  cp ← Commit_Units resource prev;
  s ← Start_Units resource timepoint;
  sd ← Shut_Down_Units resource timepoint;
  Some (Emit (CEq c (cp + s - sd))).

Definition Commitment_Tracking_Constraint : option (list (Resource * Z * constraint)) :=
  Constraint (DISPATCHABLE_RESOURCES model) (TIMEPOINTS model)
             dispatchable_resource_commitment_tracking_rule.





(** The charging and discharging terms accumulated by
    [storage_energy_tracking_rule] before the constraint is returned. *)
Definition storage_charging_mwh (storage_resource : Resource) (timepoint : Z) : option expr :=
  let charging_mwh := EConst 0 in
  ch ← Charge_Storage_MW storage_resource timepoint;
  let charging_mwh := (charging_mwh + ch)%E in
  charging_mwh ←
    (if bool_decide (storage_resource ∈ REGULATION_RESERVE_RESOURCES model) then
       dr ← Provide_Downward_Reg_MW storage_resource timepoint;
       Some (charging_mwh + dr * EConst (reg_dispatch_fraction model))%E
     else Some charging_mwh);
  if bool_decide (storage_resource ∈ LOAD_FOLLOWING_RESERVE_RESOURCES model) then
    dl ← Provide_LF_Downward_Reserve_MW storage_resource timepoint;
    Some (charging_mwh + dl * EConst (lf_reserve_dispatch_fraction model))%E
  else Some charging_mwh.

Definition storage_discharging_mwh (storage_resource : Resource) (timepoint : Z)
  : option expr :=
  let discharging_mwh := EConst 0 in
  pp ← Provide_Power_MW storage_resource timepoint;
  let discharging_mwh := (discharging_mwh + pp)%E in
  discharging_mwh ←
    (if bool_decide (storage_resource ∈ REGULATION_RESERVE_RESOURCES model) then
       ur ← Provide_Upward_Reg_MW storage_resource timepoint;
       Some (discharging_mwh + ur * EConst (reg_dispatch_fraction model))%E
     else Some discharging_mwh);
  if bool_decide (storage_resource ∈ LOAD_FOLLOWING_RESERVE_RESOURCES model) then
    ul ← Provide_LF_Upward_Reserve_MW storage_resource timepoint;
    Some (discharging_mwh + ul * EConst (lf_reserve_dispatch_fraction model))%E
  else Some discharging_mwh.

Definition storage_energy_tracking_rule (storage_resource : Resource) (timepoint : Z)
  : option rule_result :=
  charging_mwh ← storage_charging_mwh storage_resource timepoint;
  discharging_mwh ← storage_discharging_mwh storage_resource timepoint;
  n ← next_timepoint model !! timepoint;
  e_next ← Energy_in_Storage_MWh storage_resource n;
  e ← Energy_in_Storage_MWh storage_resource timepoint;
  d ← div_by_param discharging_mwh
         (discharging_efficiency model (technology model storage_resource));
  Some (Emit (CEq e_next
                  (e + charging_mwh
                       * EConst (charging_efficiency model (technology model storage_resource))
                   - d))).

Definition Storage_Energy_Tracking_Constraint : option (list (Resource * Z * constraint)) :=
  Constraint (STORAGE_RESOURCES model) (TIMEPOINTS model) storage_energy_tracking_rule.

(** ** Deliverability *)

(** [find_prev_period]: [None] is the Python value [None]. *)
Definition find_prev_period (p : Z) : option Z :=
  py_max (List.filter (λ q, bool_decide (q < p)) (PERIODS model)).

Definition deliverability_def_rule (resource : Resource) (p : Z) : option rule_result :=
  fd ← Fully_Deliverable_Installed_Capacity_MW resource p;
  eo ← Energy_Only_Installed_Capacity_MW resource p;
  onc ← Operational_New_Capacity_MW resource p;
  Some (Emit (CEq (fd + eo) onc)).

Definition Deliverability_Definition_Constraint : option (list (Resource * Z * constraint)) :=
  Constraint (TX_DELIVERABILITY_RESOURCES model) (PERIODS model) deliverability_def_rule.

(** Indexing a variable by the Python value [None] is a KeyError. *)
Definition fully_deliverable_period_build_rule (resource : Resource) (current_period : Z)
  : option rule_result :=
  if bool_decide (current_period = first_period model) then Some Skip
  else
    a ← Fully_Deliverable_Installed_Capacity_MW resource current_period;
    q ← find_prev_period current_period;
    b ← Fully_Deliverable_Installed_Capacity_MW resource q;
    Some (Emit (CGe a b)).

Definition Fully_Deliverable_Period_Build_Constraint
  : option (list (Resource * Z * constraint)) :=
  Constraint (TX_DELIVERABILITY_RESOURCES model) (PERIODS model)
             fully_deliverable_period_build_rule.

Definition energy_only_period_build_rule (resource : Resource) (current_period : Z)
  : option rule_result :=
  if bool_decide (current_period = first_period model) then Some Skip
  else
    a ← Energy_Only_Installed_Capacity_MW resource current_period;
    q ← find_prev_period current_period;
    b ← Energy_Only_Installed_Capacity_MW resource q;
    Some (Emit (CGe a b)).

Definition Energy_Only_Period_Build_Constraint
  : option (list (Resource * Z * constraint)) :=
  Constraint (TX_DELIVERABILITY_RESOURCES model) (PERIODS model)
             energy_only_period_build_rule.
End components.

(** The abstract model with the data bound and no component constructed
    yet.  The sets that are filters of the data are already determined. *)
Definition unbuilt (m : Model) : Instance :=
  {| inputs := m;
     temporal := {| PERIODS := []; DAYS := []; first_period := 0;
                    first_timepoint_of_day := ∅; last_timepoint_of_day := ∅;
                    previous_timepoint := ∅; next_timepoint := ∅ |};
     THERMAL_RESOURCES := []; CAN_RETIRE_RESOURCES := []; prm_memberships := ∅ |}.

(** Every variable of the expression is indexed by a timepoint of period [p]
    and day [d]. *)
Definition vars_on_day (model : Instance) (p d : Z) (e : expr) : Prop :=
  ∀ x, x ∈ expr_vars e → x.2 ∈ timepoints_on_day model p d.

(** ** The membership count as the specification words it *)

(** The number of planning-reserve-margin representations a resource is
    counted under: net qualifying capacity, the solar and wind bins of the
    ELCC surface (for PRM variable renewables), import on existing and on new
    transmission (for deliverability resources), energy efficiency. *)
Definition spec_prm_count (model : Instance) (r : Resource) : Z :=
  Z.b2z (bool_decide (r ∈ PRM_NQC_RESOURCES model))
  + (if bool_decide (r ∈ PRM_VARIABLE_RENEWABLE_RESOURCES model)
     then Z.b2z (elcc_solar_bin model r) + Z.b2z (elcc_wind_bin model r) else 0)
  + (if bool_decide (r ∈ TX_DELIVERABILITY_RESOURCES model)
     then Z.b2z (import_on_existing_tx model r) + Z.b2z (import_on_new_tx model r) else 0)
  + Z.b2z (bool_decide (r ∈ EE_PROGRAMS model)).

(** ** The storage balance as the specification words it *)

(** Energy charged at a timepoint under a valuation: the charging power plus
    the dispatched share of the downward regulation and downward
    load-following reserves the resource is eligible for. *)
Definition spec_charging (model : Instance) (v : var → Q) (s : Resource) (t : Z) : Q :=
  (v ("Charge_Storage_MW", s, t)%string
   + (if bool_decide (s ∈ REGULATION_RESERVE_RESOURCES model)
      then reg_dispatch_fraction model * v ("Provide_Downward_Reg_MW", s, t)%string else 0)
   + (if bool_decide (s ∈ LOAD_FOLLOWING_RESERVE_RESOURCES model)
      then lf_reserve_dispatch_fraction model * v ("Provide_LF_Downward_Reserve_MW", s, t)%string
      else 0))%Q.

(** Energy discharged: the power provided plus the dispatched share of the
    upward reserves. *)
Definition spec_discharging (model : Instance) (v : var → Q) (s : Resource) (t : Z) : Q :=
  (v ("Provide_Power_MW", s, t)%string
   + (if bool_decide (s ∈ REGULATION_RESERVE_RESOURCES model)
      then reg_dispatch_fraction model * v ("Provide_Upward_Reg_MW", s, t)%string else 0)
   + (if bool_decide (s ∈ LOAD_FOLLOWING_RESERVE_RESOURCES model)
      then lf_reserve_dispatch_fraction model * v ("Provide_LF_Upward_Reserve_MW", s, t)%string
      else 0))%Q.

(** ** A small system used to exercise the definitions *)

(** Two ramp-limited gas units, a fast peaker, a battery providing reserves,
    new solar and existing wind, in one zone.  The timepoints, the wind bin of
    the ELCC surface and the retirement flags vary between the systems
    below. *)
Definition example_technology (r : Resource) : Technology :=
  match r with
  | "gas_ccgt" => "ccgt"
  | "gas_st" => "st"
  | "gas_peaker" => "ct"
  | "battery" => "li_ion"
  | "solar_new" => "pv"
  | _ => "wind"
  end%string.

Definition is_gas (t : Technology) : bool :=
  match t with
  | "ccgt" | "st" | "ct" => true
  | _ => false
  end%string.

Definition example_system (tps : list Z) (period day : Z → Z)
    (wind_bin retire : Resource → bool) (down up : Z) : Model :=
  {| TIMEPOINTS := tps;
     period := period;
     day := day;
     thermal := is_gas;
     dispatchable := is_gas;
     generate_at_max := λ _, false;
     variable := λ t, bool_decide (t = "pv"%string) || bool_decide (t = "wind"%string);
     storage := λ t, bool_decide (t = "li_ion"%string);
     firm_capacity := is_gas;
     hydrogen_electrolysis := λ _, false;
     electric_vehicle := λ _, false;
     energy_efficiency := λ _, false;
     flexible_load := λ _, false;
     RESOURCES :=
       ["gas_ccgt"; "gas_st"; "gas_peaker"; "battery"; "solar_new"; "wind_old"]%string;
     technology := example_technology;
     zone := λ _, "CA"%string;
     can_build_new := λ r, bool_decide (r = "solar_new"%string);
     rps_eligible := λ r, bool_decide (r = "solar_new"%string);
     can_retire := retire;
     RESERVE_RESOURCES := ["gas_ccgt"; "battery"]%string;
     can_provide_reg := λ _, true;
     can_provide_lf_reserves := λ r, bool_decide (r = "battery"%string);
     include_in_prm := λ _, true;
     import_on_existing_tx := λ _, false;
     import_on_new_tx := λ _, false;
     elcc_solar_bin := λ r, bool_decide (r = "solar_new"%string);
     elcc_wind_bin := wind_bin;
     min_down_time_hours := λ _, down;
     min_up_time_hours := λ _, up;
     ramp_rate_fraction := λ t,
       match t with "ccgt" => 0.5 | "st" => 0.7 | _ => 1 end%string%float;
     min_stable_level_fraction := λ _, 0.3%float;
     unit_size_mw := λ _, 100%Q;
     charging_efficiency := λ _, (9 # 10)%Q;
     discharging_efficiency := λ _, (9 # 10)%Q;
     reg_dispatch_fraction := (1 # 5)%Q;
     lf_reserve_dispatch_fraction := (1 # 10)%Q |}.

(** Two periods of one 24-hour day each; only the combined-cycle unit may
    retire. *)
Definition example_model : Model :=
  example_system (py_range 1 49) (λ t, if bool_decide (t ≤ 24) then 2030 else 2040) (λ _, 1)
                 (λ r, bool_decide (r = "wind_old"%string))
                 (λ r, bool_decide (r = "gas_ccgt"%string)) 3 2.

(** One period with a 24-hour day followed by a 12-hour day; minimum down
    and up times of one hour. *)
Definition short_day_model : Model :=
  example_system (py_range 1 37) (λ _, 2030) (λ t, if bool_decide (t ≤ 24) then 1 else 2)
                 (λ r, bool_decide (r = "wind_old"%string))
                 (λ r, bool_decide (r = "gas_ccgt"%string)) 1 1.

(** The new solar resource is entered in both bins of the ELCC surface. *)
Definition double_counted_model : Model :=
  example_system (py_range 1 49) (λ t, if bool_decide (t ≤ 24) then 2030 else 2040) (λ _, 1)
                 (λ _, true)
                 (λ r, bool_decide (r = "gas_ccgt"%string)) 3 2.

(** The existing wind resource, which is neither storage nor a
    deliverability resource, is flagged as able to retire. *)
Definition retiring_wind_model : Model :=
  example_system (py_range 1 49) (λ t, if bool_decide (t ≤ 24) then 2030 else 2040) (λ _, 1)
                 (λ r, bool_decide (r = "wind_old"%string))
                 (λ r, bool_decide (r = "wind_old"%string)) 3 2.

(** * Flexible parameters ([load_data.py]) *)

Module LoadData.

(** ** Python values *)

Inductive error := AttributeError | ValueError | KeyError | IndexError.

(** The outcome of a call: a value, or the exception raised. *)
Inductive result (A : Type) :=
| Ok (a : A)
| Err (e : error).
Arguments Ok {A} a.
Arguments Err {A} e.

#[export] Instance result_ret : MRet result := λ A, Ok.
#[export] Instance result_bind : MBind result :=
  λ A B f x, match x with Ok a => f a | Err e => Err e end.

Definition is_Err {A} (x : result A) : Prop := ∃ e, x = Err e.

(** [for x in l: s = body(s, x)], stopping at the first exception. *)
Fixpoint for_each {S A} (body : S → A → result S) (s : S) (l : list A) : result S :=
  match l with
  | [] => Ok s
  | x :: l' => s' ← body s x; for_each body s' l'
  end.

(** A cell of the index of the flexible-parameter table: the literals
    ['None'] and ['All'], an integer (as a number or a numeral), or any other
    string. *)
Inductive cell :=
| CNone
| CAll
| CInt (z : Z)
| COther (s : string).

#[export] Instance cell_eq_dec : EqDecision cell.
Proof. solve_decision. Defined.

#[export] Instance cell_countable : Countable cell.
Proof.
  refine (inj_countable'
    (λ c, match c with
          | CNone => inl (inl ()) | CAll => inl (inr ())
          | CInt z => inr (inl z) | COther s => inr (inr s) end)
    (λ x, match x with
          | inl (inl ()) => CNone | inl (inr ()) => CAll
          | inr (inl z) => CInt z | inr (inr s) => COther s end) _).
  by intros [].
Defined.

(** [int(c)]: ValueError unless the cell is an integer. *)
Definition py_int (c : cell) : result Z :=
  match c with
  | CInt z => Ok z
  | _ => Err ValueError
  end.

(** [c == 'None'] and [c == 'All'] *)
Definition is_None (c : cell) : bool := bool_decide (c = CNone).
Definition is_All (c : cell) : bool := bool_decide (c = CAll).

(** The [value] column as read: a float, the strings ['True'] and
    ['False'], a string that [float()] parses, or any other string. *)
Inductive raw :=
| RFloat (q : Q)
| RBoolStr (b : bool)
| RNumStr (q : Q)
| ROther (s : string).

Inductive pyval :=
| VFloat (q : Q)
| VBool (b : bool)
| VStr (s : string).

(** The type inference on [value]; [bool] of a non-empty string is [True]. *)
Definition convert_value (value : raw) : pyval :=
  match value with
  | RFloat q => VFloat q
  | RBoolStr _ => VBool true
  | RNumStr q => VFloat q
  | ROther s => VStr s
  end.

(** ** The DataPortal *)

(** Keys of a parameter dict: an object, or a pair of an object and a period
    or timepoint. *)
Inductive pkey :=
| K1 (o : cell)
| K2 (o : cell) (i : Z).

#[export] Instance pkey_eq_dec : EqDecision pkey.
Proof. solve_decision. Defined.

#[export] Instance pkey_countable : Countable pkey.
Proof.
  refine (inj_countable'
    (λ k, match k with K1 o => inl o | K2 o i => inr (o, i) end)
    (λ x, match x with inl o => K1 o | inr (o, i) => K2 o i end) _).
  by intros [].
Defined.

(** The two shapes of dict held by [data._data[namespace]]: the columns of
    the timepoint table (timepoint to integer) and parameter values. *)
Inductive table :=
| TimeTable (t : gmap Z Z)
| ParamTable (t : gmap pkey pyval).

(** [data._data[namespace]] *)
Abbreviation DataPortal := (gmap string table).

(** [data._data[namespace][name]] for a column of the timepoint table *)
Definition time_column (data : DataPortal) (name : string) : result (gmap Z Z) :=
  match data !! name with
  | Some (TimeTable t) => Ok t
  | _ => Err KeyError
  end.

(** [data._data[namespace][param][key] = value] *)
Definition set_param (data : DataPortal) (param : string) (key : pkey) (value : pyval)
  : result DataPortal :=
  match data !! param with
  | Some (ParamTable t) => Ok (<[param := ParamTable (<[key := value]> t)]> data)
  | _ => Err KeyError
  end.

(** One row of the flexible-parameter table: the six index levels and the
    value. *)
Record row := {
  param : string;
  model_object : cell;
  period : cell;
  day : cell;
  hour_of_day_from : cell;
  hour_of_day_to : cell;
  value : raw
}.

(** The timepoint mapping (the columns of the DataFrame) and the unique
    sets.  Python sets are iterated here in increasing order. *)
Record timepoint_mapping := {
  tm_PERIODS : gmap Z Z;
  tm_DAYS : gmap Z Z;
  tm_HOURS_OF_DAY : gmap Z Z
}.

Record unique_sets := {
  sets_PERIODS : list Z;
  sets_MONTHS : list Z;
  sets_DAYS : list Z;
  sets_HOURS : list Z
}.

Definition column_values (t : gmap Z Z) : list Z := sorted_unique ((map_to_list t).*2).

Definition create_timepoint_mapping (data : DataPortal)
  : result (timepoint_mapping * unique_sets) :=
  periods ← time_column data "period";
  months ← time_column data "month";
  days ← time_column data "day";
  hours ← time_column data "hour_of_day";
  Ok ({| tm_PERIODS := periods; tm_DAYS := days; tm_HOURS_OF_DAY := hours |},
      {| sets_PERIODS := column_values periods; sets_MONTHS := column_values months;
         sets_DAYS := column_values days; sets_HOURS := column_values hours |}).

(** The index of the rows of the timepoint mapping matching a period, a day
    and an hour of day. *)
Definition timepoint_to_use (tm : timepoint_mapping) (p d h : Z) : list Z :=
  (List.filter (λ kv : Z * Z,
       bool_decide (kv.2 = p) && bool_decide (tm_DAYS tm !! kv.1 = Some d)
       && bool_decide (tm_HOURS_OF_DAY tm !! kv.1 = Some h))
     (map_to_list (tm_PERIODS tm))).*1.

(** [data._data[namespace][param]], the dict of a parameter *)
Definition param_dict (data : DataPortal) (param : string) : result (gmap pkey pyval) :=
  match data !! param with
  | Some (ParamTable t) => Ok t
  | _ => Err KeyError
  end.

(** In the assignment that ends the body of the loop Python evaluates the
    target [data._data[namespace][param]] before the key
    [(model_object, timepoint_to_use[0])]: a parameter without a dict is a
    KeyError, also when no timepoint matches. *)
Definition parse_timepoint_param (data : DataPortal) (tm : timepoint_mapping)
    (param : string) (model_object p d hour_of_day_from hour_of_day_to : cell) (value : pyval)
  : result DataPortal :=
  hour_of_day_from ← py_int hour_of_day_from;
  hour_of_day_to ← py_int hour_of_day_to;
  d ← py_int d;
  p ← py_int p;
  for_each (λ data hour_of_day,
      let timepoint_to_use := timepoint_to_use tm p d hour_of_day in
      if bool_decide (1 < length timepoint_to_use)%nat then Err ValueError
      else
        _ ← param_dict data param;
        match timepoint_to_use with
        | [] => Err IndexError
        | timepoint :: _ => set_param data param (K2 model_object timepoint) value
        end)
    data (py_range hour_of_day_from (hour_of_day_to + 1)).

Definition parse_period_param (data : DataPortal) (param : string) (model_object p : cell)
    (value : pyval) : result DataPortal :=
  p ← py_int p;
  set_param data param (K2 model_object p) value.

Definition parse_model_object_param (data : DataPortal) (param : string) (model_object : cell)
    (value : pyval) : result DataPortal :=
  set_param data param (K1 model_object) value.

(** [flexible_params.index.unique(level=0)]: the parameter names in order of
    first appearance. *)
Definition params_to_create (flexible_params : list row) : list string :=
  foldl (λ acc r, if bool_decide (param r ∈ acc) then acc else acc ++ [param r])
        [] flexible_params.

(** The first loop of [parse_flexible_params]. *)
Definition create_param (data : DataPortal) (param : string) : result DataPortal :=
  if bool_decide (param ∈ dom data) then Err AttributeError
  else Ok (<[param := ParamTable ∅]> data).

(** The body of the second loop of [parse_flexible_params]; [h_from] and
    [h_to] are the hour bounds after conversion to integers. *)
Definition parse_row (tm : timepoint_mapping) (sets : unique_sets) (data : DataPortal)
    (r : row) : result DataPortal :=
  let value := convert_value (value r) in
  if is_None (period r) && is_None (day r) && is_None (hour_of_day_from r)
     && is_None (hour_of_day_to r) then
    parse_model_object_param data (param r) (model_object r) value
  else if negb (is_None (period r)) && (is_None (day r) && is_None (hour_of_day_from r)
                                        && is_None (hour_of_day_to r)) then
    if is_All (period r) then
      for_each (λ data period_in_set,
                  parse_period_param data (param r) (model_object r) (CInt period_in_set) value)
               data (sets_PERIODS sets)
    else parse_period_param data (param r) (model_object r) (period r) value
  else
    h_from ← py_int (hour_of_day_from r);
    h_to ← py_int (hour_of_day_to r);
    if negb (bool_decide (h_from ∈ sets_HOURS sets))
       || negb (bool_decide (h_to ∈ sets_HOURS sets)) then Err ValueError
    else if is_All (day r) && is_All (period r) then
      for_each (λ data period_in_set,
          for_each (λ data day_in_set,
                      parse_timepoint_param data tm (param r) (model_object r)
                        (CInt period_in_set) (CInt day_in_set)
                        (CInt h_from) (CInt h_to) value)
                   data (sets_DAYS sets))
        data (sets_PERIODS sets)
    else if is_All (day r) && negb (is_All (period r)) then
      for_each (λ data day_in_set,
                  p ← py_int (period r);
                  parse_timepoint_param data tm (param r) (model_object r)
                    (CInt p) (CInt day_in_set)
                    (CInt h_from) (CInt h_to) value)
               data (sets_DAYS sets)
    else if negb (is_All (day r)) && is_All (period r) then
      for_each (λ data period_in_set,
                  d ← py_int (day r);
                  parse_timepoint_param data tm (param r) (model_object r)
                    (CInt period_in_set) (CInt d)
                    (CInt h_from) (CInt h_to) value)
               data (sets_PERIODS sets)
    else
      parse_timepoint_param data tm (param r) (model_object r) (period r) (day r)
        (hour_of_day_from r) (hour_of_day_to r) value.

Definition parse_flexible_params (data : DataPortal) (flexible_params : list row)
  : result DataPortal :=
  '(tm, sets) ← create_timepoint_mapping data;
  data ← for_each create_param data (params_to_create flexible_params);
  for_each (parse_row tm sets) data flexible_params.

(** ** A small table *)

(** Four timepoints: hours 1 and 2 of day 1 in periods 2030 and 2040.  The
    parameter [input_load_mw] has been loaded from its own file. *)
Definition example_data : DataPortal :=
  <["period" := TimeTable (list_to_map [(1, 2030); (2, 2030); (3, 2040); (4, 2040)])]>
  (<["month" := TimeTable (list_to_map [(1, 1); (2, 1); (3, 1); (4, 1)])]>
  (<["day" := TimeTable (list_to_map [(1, 1); (2, 1); (3, 1); (4, 1)])]>
  (<["hour_of_day" := TimeTable (list_to_map [(1, 1); (2, 2); (3, 1); (4, 2)])]>
  (<["input_load_mw" := ParamTable ∅]> ∅)))).

Definition example_row (name : string) (p d h_from h_to : cell) : row :=
  {| param := name; model_object := COther "battery"; period := p; day := d;
     hour_of_day_from := h_from; hour_of_day_to := h_to; value := RNumStr (1 # 2) |}.

End LoadData.

(** * Further components of [model_formulation.py] *)

(** ** Periods and vintages *)

(** [VINTAGES] is initialised by [periods_init], as [PERIODS] is. *)
Definition VINTAGES (model : Instance) : list Z := periods_init model.

Definition period_vintage_init (model : Instance) : list (Z * Z) :=
  p ← PERIODS model; v ← VINTAGES model; if bool_decide (v ≤ p) then [(p, v)] else [].

(** [Set(dimen=2, within=A * B, initialize=init)]: an element outside
    [A * B] raises ValueError. *)
Definition pyomo_Set_within (A B : list Z) (init : list (Z * Z)) : option (list (Z * Z)) :=
  if forallb (λ pv : Z * Z, bool_decide (pv.1 ∈ A) && bool_decide (pv.2 ∈ B)) init
  then Some init else None.

Definition PERIOD_VINTAGES (model : Instance) : option (list (Z * Z)) :=
  pyomo_Set_within (PERIODS model) (VINTAGES model) (period_vintage_init model).

(** The sum of [f] over a list of indices. *)
Definition Qsum (f : Z → Q) (l : list Z) : Q := foldr (λ t acc, f t + acc)%Q 0%Q l.

(** The energy a storage resource gains at a timepoint under a valuation, as
    [storage_energy_tracking_rule] adds it to the energy in storage. *)
Definition storage_net_charge (model : Instance) (v : var → Q) (storage_resource : Resource)
    (timepoint : Z) : option Q :=
  charging_mwh ← storage_charging_mwh model storage_resource timepoint;
  discharging_mwh ← storage_discharging_mwh model storage_resource timepoint;
  Some (eval v charging_mwh * charging_efficiency model (technology model storage_resource)
        - eval v discharging_mwh
          / discharging_efficiency model (technology model storage_resource))%Q.

(** ** Planned capacity *)

Definition NonNegativeReals (q : Q) : bool := Qle_bool 0 q.

(** [Param(index, within=domain, validate=ok)] bound to loaded data.  Every
    loaded entry must have its key in the index set and its value in the
    domain, and must pass the validation rule; otherwise the construction
    raises ValueError.  A key of the index set without data is accepted here
    and raises ValueError when it is read. *)
Definition pyomo_Param_data `{Countable K} (index : list K) (domain : Q → bool)
    (ok : Q → K → option bool) (data : gmap K Q) : option (gmap K Q) :=
  if forallb (λ kv : K * Q, bool_decide (kv.1 ∈ index) && domain kv.2
                            && bool_decide (ok kv.2 kv.1 = Some true))
             (map_to_list data)
  then Some data else None.

Definition capacity_index (model : Instance) : list (Resource * Z) :=
  r ← RESOURCES_WITH_MW_CAPACITY model; p ← PERIODS model; [(r, p)].

Definition planned_installed_capacity_validate (model : Instance)
    (planned_installed_capacity : Q) (resource : Resource) (period : Z) : bool :=
  if negb (bool_decide (resource ∈ TX_DELIVERABILITY_RESOURCES model)) then true
  else Qeq_bool planned_installed_capacity 0.

Definition planned_installed_capacity_mw (model : Instance) (data : gmap (Resource * Z) Q)
  : option (gmap (Resource * Z) Q) :=
  pyomo_Param_data (capacity_index model) NonNegativeReals
    (λ v k, Some (planned_installed_capacity_validate model v k.1 k.2)) data.

Section planned_capacity.
(** The instance and its constructed [planned_installed_capacity_mw]. *)
Context (model : Instance) (planned_capacity : gmap (Resource * Z) Q).

Definition min_operational_planned_capacity_validate (min_operational_planned_capacity : Q)
    (resource : Resource) (period : Z) : option bool :=
  if negb (bool_decide (resource ∈ CAN_RETIRE_RESOURCES model))
  then Some (Qeq_bool min_operational_planned_capacity 0)
  else
    c ← planned_capacity !! (resource, period);
    Some (Qle_bool min_operational_planned_capacity c).

Definition min_operational_planned_capacity_mw (data : gmap (Resource * Z) Q)
  : option (gmap (Resource * Z) Q) :=
  pyomo_Param_data (capacity_index model) NonNegativeReals
    (λ v k, min_operational_planned_capacity_validate v k.1 k.2) data.

End planned_capacity.

(** ** Operational capacity *)

Definition Retire_Planned_Capacity_MW (model : Instance) : Resource → Z → option expr :=
  Var (CAN_RETIRE_RESOURCES model) (PERIODS model) "Retire_Planned_Capacity_MW".

Definition cumulative_retired_planned_capacity_rule (model : Instance) (resource : Resource)
    (period : Z) : option expr :=
  foldl (λ acc p,
           cumulative_retired_planned_capacity ← acc;
           if bool_decide (p ≤ period) then
             x ← Retire_Planned_Capacity_MW model resource p;
             Some (cumulative_retired_planned_capacity + x)%E
           else Some cumulative_retired_planned_capacity)
        (Some (EConst 0)) (PERIODS model).

Definition Retire_Planned_Capacity_Cumulative_MW (model : Instance)
  : Resource → Z → option expr :=
  Expression (CAN_RETIRE_RESOURCES model) (PERIODS model)
             (cumulative_retired_planned_capacity_rule model).

Section operational_capacity.
(** The instance and the values of its parameters
    [cumulative_planned_capacity_additions_mw] and
    [cumulative_planned_capacity_subtractions_mw], which their rules
    accumulate as Python floats. *)
Context (model : Instance)
        (cumulative_additions cumulative_subtractions : gmap (Resource * Z) float).

(** For a resource that can retire the retirements are an expression and
    the difference is an expression; otherwise both operands are floats and
    Python subtracts them, with rounding, when the rule runs. *)
Definition operational_planned_capacity_in_period_rule (resource : Resource) (period : Z)
  : option expr :=
  if bool_decide (resource ∈ CAN_RETIRE_RESOURCES model) then
    cumulative_planned_retirements_mw ←
      Retire_Planned_Capacity_Cumulative_MW model resource period;
    additions ← cumulative_additions !! (resource, period);
    Some (EConst (float_value additions) - cumulative_planned_retirements_mw)%E
  else
    cumulative_planned_retirements_mw ← cumulative_subtractions !! (resource, period);
    additions ← cumulative_additions !! (resource, period);
    Some (EConst (float_value (additions - cumulative_planned_retirements_mw)%float)).

Definition Operational_Planned_Capacity_MW : Resource → Z → option expr :=
  Expression (RESOURCES_WITH_MW_CAPACITY model) (PERIODS model)
             operational_planned_capacity_in_period_rule.

Definition operational_capacity_tracking_rule (resource : Resource) (period : Z)
  : option expr :=
  operational_new_capacity ←
    (if bool_decide (resource ∈ NEW_BUILD_RESOURCES model)
     then Operational_New_Capacity_MW model resource period
     else Some (EConst 0));
  planned ← Operational_Planned_Capacity_MW resource period;
  Some (planned + operational_new_capacity)%E.

Definition Operational_Capacity_MW : Resource → Z → option expr :=
  Expression (RESOURCES_WITH_MW_CAPACITY model) (PERIODS model)
             operational_capacity_tracking_rule.
End operational_capacity.

(** Planned capacities for the example system: the combined-cycle plant
    shrinks, the wind fleet grows, and the new solar resource, which is a
    deliverability resource, has none. *)
Definition example_planned_capacity : gmap (Resource * Z) Q :=
  list_to_map
    [(("gas_ccgt", 2030%Z), 500); (("gas_ccgt", 2040%Z), 300);
     (("gas_st", 2030%Z), 200); (("gas_st", 2040%Z), 200);
     (("gas_peaker", 2030%Z), 50); (("gas_peaker", 2040%Z), 50);
     (("battery", 2030%Z), 0); (("battery", 2040%Z), 40);
     (("solar_new", 2030%Z), 0); (("solar_new", 2040%Z), 0);
     (("wind_old", 2030%Z), 100); (("wind_old", 2040%Z), 150)]%string%Q.

(** Minimum operational planned capacities for the example system: only the
    combined-cycle plant can retire. *)
Definition example_min_operational : gmap (Resource * Z) Q :=
  list_to_map
    [(("gas_ccgt", 2030%Z), 100); (("gas_ccgt", 2040%Z), 100);
     (("gas_st", 2030%Z), 0)]%string%Q.

(** ** Further sets and validated parameters *)

Definition GENERATE_AT_MAX_RESOURCES (model : Instance) : list Resource :=
  List.filter (λ resource, generate_at_max model (technology model resource))
              (RESOURCES model).

(** The transmission data bound to the abstract model. *)
Record Transmission := {
  ZONES : list Zone;
  TRANSMISSION_LINES : list string;
  transmission_from : string → Zone;
  transmission_to : string → Zone;
  SIMULTANEOUS_FLOW_GROUP_LINES : list (string * string);
  direction : gmap (string * string) Z;
  include_in_ghg_target : Zone → bool
}.

(** Reading a parameter without a value at an index is a ValueError. *)
Definition direction_abs_init (model : Transmission) (sfg line : string) : option Z :=
  d ← direction model !! (sfg, line); Some (Z.abs d).

Definition direction_validate (model : Transmission) (a : Z) (sfg line : string) : bool :=
  bool_decide (a = 1).

Definition direction_abs (model : Transmission) : option (gmap (string * string) Z) :=
  pyomo_Param (SIMULTANEOUS_FLOW_GROUP_LINES model)
    (λ k, a ← direction_abs_init model k.1 k.2;
          if direction_validate model a k.1 k.2 then Some a else None).

Definition GHG_TARGET_ZONES (model : Transmission) : list Zone :=
  List.filter (include_in_ghg_target model) (ZONES model).

Definition transmission_lines_ghg_target_init (model : Transmission) : list string :=
  line ← TRANSMISSION_LINES model;
  if negb (bool_decide (transmission_to model line ∈ GHG_TARGET_ZONES model)
           && bool_decide (transmission_from model line ∈ GHG_TARGET_ZONES model))
  then
    if bool_decide (transmission_to model line ∈ GHG_TARGET_ZONES model)
       || bool_decide (transmission_from model line ∈ GHG_TARGET_ZONES model)
    then [line] else []
  else [].

(** The inputs of the banking of renewable credits.  The scalar parameter
    [starting_rps_bank_mwh] is a parameter over the one-element index. *)
Record RpsBanking := {
  optimize_rps_banking : bool;
  starting_rps_bank_mwh_data : gmap () Q;
  rps_bank_planned_spend_mwh_data : gmap Z Q
}.

Definition rps_starting_input_validate (model : RpsBanking) (starting_bank : Q) : bool :=
  if negb (optimize_rps_banking model) then Qeq_bool starting_bank 0
  else Qle_bool 0 starting_bank.

Definition starting_rps_bank_mwh (model : RpsBanking) : option (gmap () Q) :=
  pyomo_Param_data [()] NonNegativeReals
    (λ v _, Some (rps_starting_input_validate model v)) (starting_rps_bank_mwh_data model).

Definition rps_planned_spend_input_validate (model : RpsBanking) (planned_spend : Q)
    (period : Z) : bool :=
  if optimize_rps_banking model then Qeq_bool planned_spend 0
  else Qle_bool 0 planned_spend.

Definition rps_bank_planned_spend_mwh (periods : list Z) (model : RpsBanking)
  : option (gmap Z Q) :=
  pyomo_Param_data periods NonNegativeReals
    (λ v p, Some (rps_planned_spend_input_validate model v p))
    (rps_bank_planned_spend_mwh_data model).

(** ** Variants of the example system *)

(** The data [m] with other flags for generating at maximum output and for
    importing on existing and on new transmission. *)
Definition with_flags (m : Model) (gen : Technology → bool)
    (import_existing import_new : Resource → bool) : Model :=
  {| TIMEPOINTS := TIMEPOINTS m; period := period m; day := day m;
     thermal := thermal m; dispatchable := dispatchable m; generate_at_max := gen;
     variable := variable m; storage := storage m; firm_capacity := firm_capacity m;
     hydrogen_electrolysis := hydrogen_electrolysis m;
     electric_vehicle := electric_vehicle m; energy_efficiency := energy_efficiency m;
     flexible_load := flexible_load m; RESOURCES := RESOURCES m;
     technology := technology m; zone := zone m; can_build_new := can_build_new m;
     rps_eligible := rps_eligible m; can_retire := can_retire m;
     RESERVE_RESOURCES := RESERVE_RESOURCES m; can_provide_reg := can_provide_reg m;
     can_provide_lf_reserves := can_provide_lf_reserves m;
     include_in_prm := include_in_prm m;
     import_on_existing_tx := import_existing; import_on_new_tx := import_new;
     elcc_solar_bin := elcc_solar_bin m; elcc_wind_bin := elcc_wind_bin m;
     min_down_time_hours := min_down_time_hours m;
     min_up_time_hours := min_up_time_hours m;
     ramp_rate_fraction := ramp_rate_fraction m;
     min_stable_level_fraction := min_stable_level_fraction m;
     unit_size_mw := unit_size_mw m; charging_efficiency := charging_efficiency m;
     discharging_efficiency := discharging_efficiency m;
     reg_dispatch_fraction := reg_dispatch_fraction m;
     lf_reserve_dispatch_fraction := lf_reserve_dispatch_fraction m |}.

(** The gas technologies are flagged both as dispatchable and as generating
    at maximum output. *)
Definition must_run_gas_model : Model :=
  with_flags example_model is_gas (λ _, false) (λ _, false).

(** The new solar resource is imported on existing transmission, and in the
    second system on new transmission too. *)
Definition imported_solar_model : Model :=
  with_flags example_model (λ _, false) (λ r, bool_decide (r = "solar_new"%string))
             (λ _, false).

Definition double_import_model : Model :=
  with_flags example_model (λ _, false) (λ r, bool_decide (r = "solar_new"%string))
             (λ r, bool_decide (r = "solar_new"%string)).

(** Two zones under a greenhouse-gas target and one outside; lines inside
    the target area, across its border and outside of it. *)
Definition example_transmission : Transmission :=
  {| ZONES := ["CA"; "NW"; "SW"; "MX"]%string;
     TRANSMISSION_LINES := ["CA_to_NW"; "NW_to_SW"; "SW_to_MX"]%string;
     transmission_from := λ l,
       match l with "CA_to_NW" => "CA" | "NW_to_SW" => "NW" | _ => "SW" end%string;
     transmission_to := λ l,
       match l with "CA_to_NW" => "NW" | "NW_to_SW" => "SW" | _ => "MX" end%string;
     SIMULTANEOUS_FLOW_GROUP_LINES :=
       [("imports", "CA_to_NW"); ("imports", "NW_to_SW")]%string;
     direction :=
       list_to_map [(("imports", "CA_to_NW")%string, -1); (("imports", "NW_to_SW")%string, 1)];
     include_in_ghg_target := λ z, bool_decide (z = "CA"%string) || bool_decide (z = "NW"%string) |}.

Definition example_banking : RpsBanking :=
  {| optimize_rps_banking := true;
     starting_rps_bank_mwh_data := {[ () := 1000%Q ]};
     rps_bank_planned_spend_mwh_data := list_to_map [(2030, 0%Q); (2040, 0%Q)] |}.

(** ** New capacity *)

Definition NEW_BUILD_STORAGE_RESOURCES (model : Instance) : list Resource :=
  List.filter (λ resource, storage model (technology model resource))
              (NEW_BUILD_RESOURCES model).

Definition Build_Capacity_MW (model : Instance) : Resource → Z → option expr :=
  Var (NEW_BUILD_RESOURCES model) (VINTAGES model) "Build_Capacity_MW".

Definition Build_Storage_Energy_Capacity_MWh (model : Instance)
  : Resource → Z → option expr :=
  Var (NEW_BUILD_STORAGE_RESOURCES model) (VINTAGES model)
      "Build_Storage_Energy_Capacity_MWh".

Definition new_installed_capacity_tracking_rule (model : Instance)
    (new_build_resource : Resource) (period : Z) : option expr :=
  foldl (λ acc vintage,
           new_installed_capacity ← acc;
           if bool_decide (vintage ≤ period) then
             x ← Build_Capacity_MW model new_build_resource vintage;
             Some (new_installed_capacity + x)%E
           else Some new_installed_capacity)
        (Some (EConst 0)) (VINTAGES model).

Definition Cumulative_New_Installed_Capacity_MW (model : Instance)
  : Resource → Z → option expr :=
  Expression (NEW_BUILD_RESOURCES model) (PERIODS model)
             (new_installed_capacity_tracking_rule model).

Definition new_storage_installed_energy_capacity_tracking_rule (model : Instance)
    (new_build_storage_resource : Resource) (current_period : Z) : option expr :=
  foldl (λ acc vintage,
           new_storage_installed_energy_capacity ← acc;
           if bool_decide (vintage ≤ current_period) then
             x ← Build_Storage_Energy_Capacity_MWh model new_build_storage_resource vintage;
             Some (new_storage_installed_energy_capacity + x)%E
           else Some new_storage_installed_energy_capacity)
        (Some (EConst 0)) (VINTAGES model).

Definition Cumulative_New_Storage_Energy_Capacity_MWh (model : Instance)
  : Resource → Z → option expr :=
  Expression (NEW_BUILD_STORAGE_RESOURCES model) (PERIODS model)
             (new_storage_installed_energy_capacity_tracking_rule model).

(** The expression [cumulative[r, p]] adds up the variables [name[r, q]] of
    the periods [q] up to [p]: it is their sum under every valuation, it
    grows from the previous period by the variable of [p], and it does not
    decrease over the periods when the variables are non-negative. *)
Definition accumulates (model : Instance) (cumulative : Resource → Z → option expr)
    (name : string) (r : Resource) (p : Z) : Prop :=
  ∃ e, cumulative r p = Some e ∧
    (∀ v, (eval v e == Qsum (λ q, v (name, r, q))
                            (List.filter (λ q, bool_decide (q ≤ p)) (PERIODS model)))%Q) ∧
    (p = first_period model → ∀ v, (eval v e == v (name, r, p))%Q) ∧
    (p ≠ first_period model →
     ∃ q e', find_prev_period model p = Some q ∧ cumulative r q = Some e' ∧
             ∀ v, (eval v e == eval v e' + v (name, r, p))%Q) ∧
    (∀ p', p' ∈ PERIODS model → p' ≤ p →
       ∃ e', cumulative r p' = Some e' ∧
             ∀ v, (∀ q, (0 <= v (name, r, q))%Q) → (eval v e' <= eval v e)%Q).

(** ** Minimum generation of dispatchable resources *)

Definition dispatchable_min_gen_and_down_reserves_rule (model : Instance)
    (resource : Resource) (timepoint : Z) : option rule_result :=
  downward_reg ←
    (if bool_decide (resource ∈ REGULATION_RESERVE_RESOURCES model)
     then Provide_Downward_Reg_MW model resource timepoint else Some (EConst 0));
  downward_lf_reserves ←
    (if bool_decide (resource ∈ LOAD_FOLLOWING_RESERVE_RESOURCES model)
     then Provide_LF_Downward_Reserve_MW model resource timepoint else Some (EConst 0));
  ramp_relax_start_stop ←
    (if bool_decide (resource ∈ DISPATCHABLE_RAMP_LIMITED_RESOURCES model) then
       c ← Commit_Units model resource timepoint;
       fo ← Fully_Operational_Units model resource timepoint;
       Some (EConst ramp_relax * (c - fo))%E
     else Some (EConst 0));
  pp ← Provide_Power_MW model resource timepoint;
  cc ← Commit_Capacity_MW model resource timepoint;
  Some (Emit (CGe (pp - downward_reg - downward_lf_reserves)
                  (cc * EConst (float_value
                                  (min_stable_level_fraction model (technology model resource)))
                   - ramp_relax_start_stop))).

Definition Thermal_Min_Gen_Down_Reserve_Constraint (model : Instance)
  : option (list (Resource * Z * constraint)) :=
  Constraint (DISPATCHABLE_RESOURCES model) (TIMEPOINTS model)
             (dispatchable_min_gen_and_down_reserves_rule model).

(** ** Shut-down sequences *)

Definition dispatchable_units_shut_down_rule (model : Instance)
    (dispatchable_resource : Resource) (timepoint : Z) : option rule_result :=
  ps ← PreShut_Down_Units model dispatchable_resource timepoint;
  c ← Commit_Units model dispatchable_resource timepoint;
  sd ← Shutting_Down_Units model dispatchable_resource timepoint;
  Some (Emit (CLe ps (c - sd))).

Definition Dispatchable_Units_Shut_Down_Constraint (model : Instance)
  : option (list (Resource * Z * constraint)) :=
  Constraint (DISPATCHABLE_RESOURCES model) (TIMEPOINTS model)
             (dispatchable_units_shut_down_rule model).

(** The timepoint [x], at most one day after the day that starts at [a],
    brought back onto that day. *)
Definition wrap_on_day (a x : Z) : Z :=
  x - (if bool_decide (x > a + timepoints_per_day - 1) then timepoints_per_day else 0).

(** ** Rows and tables of the flexible parameters *)

Module LoadDataRows.
Import LoadData.

(** The row [r] with another text in its [value] column. *)
Definition set_value (r : row) (v : raw) : row :=
  {| param := param r; model_object := model_object r; period := period r; day := day r;
     hour_of_day_from := hour_of_day_from r; hour_of_day_to := hour_of_day_to r;
     value := v |}.

(** The row [r] with its flag, if its value is one of the strings ['True']
    and ['False'], written as [b]. *)
Definition with_flag_text (b : bool) (r : row) : row :=
  match value r with
  | RBoolStr _ => set_value r (RBoolStr b)
  | _ => r
  end.

(** [data'] differs from [data] at most in the dict of the parameter
    [name], which is still a dict of parameter values if it was one. *)
Definition changes_only (name : string) (data data' : DataPortal) : Prop :=
  dom data' = dom data ∧
  (∀ k, k ≠ name → data' !! k = data !! k) ∧
  ((∃ t, data !! name = Some (ParamTable t)) → ∃ t', data' !! name = Some (ParamTable t')).

(** The timepoint mapping of [example_data]. *)
Definition example_mapping : timepoint_mapping :=
  {| tm_PERIODS := list_to_map [(1, 2030); (2, 2030); (3, 2040); (4, 2040)];
     tm_DAYS := list_to_map [(1, 1); (2, 1); (3, 1); (4, 1)];
     tm_HOURS_OF_DAY := list_to_map [(1, 1); (2, 2); (3, 1); (4, 2)] |}.

(** A mapping in which two timepoints share period, day and hour. *)
Definition repeated_mapping : timepoint_mapping :=
  {| tm_PERIODS := list_to_map [(1, 2030); (2, 2030)];
     tm_DAYS := list_to_map [(1, 1); (2, 1)];
     tm_HOURS_OF_DAY := list_to_map [(1, 1); (2, 1)] |}.

End LoadDataRows.

(** * Properties *)

(** ** Python primitives *)

Lemma foldl_min_spec (l : list Z) (x : Z) :
  (foldl Z.min x l = x ∨ foldl Z.min x l ∈ l) ∧
  foldl Z.min x l ≤ x ∧ ∀ y, y ∈ l → foldl Z.min x l ≤ y.
Proof.
  revert x. induction l as [|a l IH]; intros x; simpl.
  - split; [by left|]. split; [lia|]. intros y Hy. by apply elem_of_nil in Hy.
  - destruct (IH (Z.min x a)) as (Hin & Hle & Hall).
    split; [|split].
    + destruct Hin as [Heq|Hin].
      * rewrite Heq. destruct (Z.min_spec x a) as [[_ ->]|[_ ->]]; [by left|right; left].
      * right. by right.
    + lia.
    + intros y Hy. apply elem_of_cons in Hy as [->|Hy]; [lia|by apply Hall].
Qed.

Lemma foldl_max_spec (l : list Z) (x : Z) :
  (foldl Z.max x l = x ∨ foldl Z.max x l ∈ l) ∧
  x ≤ foldl Z.max x l ∧ ∀ y, y ∈ l → y ≤ foldl Z.max x l.
Proof.
  revert x. induction l as [|a l IH]; intros x; simpl.
  - split; [by left|]. split; [lia|]. intros y Hy. by apply elem_of_nil in Hy.
  - destruct (IH (Z.max x a)) as (Hin & Hle & Hall).
    split; [|split].
    + destruct Hin as [Heq|Hin].
      * rewrite Heq. destruct (Z.max_spec x a) as [[_ ->]|[_ ->]]; [right; left|by left].
      * right. by right.
    + lia.
    + intros y Hy. apply elem_of_cons in Hy as [->|Hy]; [lia|by apply Hall].
Qed.

Lemma py_min_Some (l : list Z) (x : Z) :
  py_min l = Some x → x ∈ l ∧ ∀ y, y ∈ l → x ≤ y.
Proof.
  destruct l as [|a l]; [done|]. simpl. intros [= <-].
  destruct (foldl_min_spec l a) as (Hin & Hle & Hall). split.
  - destruct Hin as [->|Hin]; [left|by right].
  - intros y Hy. apply elem_of_cons in Hy as [->|Hy]; [done|by apply Hall].
Qed.

Lemma py_max_Some (l : list Z) (x : Z) :
  py_max l = Some x → x ∈ l ∧ ∀ y, y ∈ l → y ≤ x.
Proof.
  destruct l as [|a l]; [done|]. simpl. intros [= <-].
  destruct (foldl_max_spec l a) as (Hin & Hle & Hall). split.
  - destruct Hin as [->|Hin]; [left|by right].
  - intros y Hy. apply elem_of_cons in Hy as [->|Hy]; [done|by apply Hall].
Qed.

Lemma py_min_is_Some (l : list Z) : l ≠ [] → is_Some (py_min l).
Proof. destruct l; [done|]. intros _. by eexists. Qed.

Lemma py_max_is_Some (l : list Z) : l ≠ [] → is_Some (py_max l).
Proof. destruct l; [done|]. intros _. by eexists. Qed.

Lemma elem_of_sorted_unique (l : list Z) (x : Z) : x ∈ sorted_unique l ↔ x ∈ l.
Proof.
  unfold sorted_unique. rewrite merge_sort_Permutation. apply elem_of_remove_dups.
Qed.

Lemma elem_of_py_range (a b x : Z) : x ∈ py_range a b ↔ a ≤ x < b.
Proof.
  unfold py_range. rewrite list_elem_of_fmap. split.
  - intros (i & -> & Hi). apply elem_of_seq in Hi. lia.
  - intros Hx. exists (Z.to_nat (x - a)). split; [lia|]. apply elem_of_seq. lia.
Qed.

(** ** Pyomo primitives *)

Lemma list_to_map_functional `{Countable K} {V} (f : K → V) (kvs : list (K * V)) (k : K) :
  (∀ kv, kv ∈ kvs → kv.2 = f kv.1) →
  k ∈ kvs.*1 → (list_to_map kvs : gmap K V) !! k = Some (f k).
Proof.
  induction kvs as [|[k' v'] kvs IH]; intros Hf Hk; simpl in *.
  - by apply elem_of_nil in Hk.
  - destruct (decide (k' = k)) as [->|Hne].
    + rewrite lookup_insert_eq. f_equal. apply (Hf (k, v')). left.
    + rewrite lookup_insert_ne by done. apply IH.
      * intros kv Hkv. apply Hf. by right.
      * apply elem_of_cons in Hk as [->|Hk]; [done|done].
Qed.

Lemma pyomo_Param_lookup `{Countable K} {V} (index : list K) (rule : K → option V)
    (g : gmap K V) (k : K) :
  pyomo_Param index rule = Some g → k ∈ index →
  ∃ v, rule k = Some v ∧ g !! k = Some v.
Proof.
  unfold pyomo_Param. intros Hg Hk.
  destruct (mapM _ index) as [kvs|] eqn:Hm; simplify_eq/=.
  apply mapM_Some in Hm.
  assert (Hall : ∀ kv, kv ∈ kvs → kv.1 ∈ index ∧ rule kv.1 = Some kv.2).
  { clear Hk. induction Hm as [|a [k' v'] l l' Ha _ IH].
    - intros kv Hkv. by apply elem_of_nil in Hkv.
    - intros kv Hkv. apply elem_of_cons in Hkv as [->|Hkv].
      + destruct (rule a) eqn:Hr; simplify_eq/=. split; [left|done].
      + destruct (IH kv Hkv) as [? ?]. split; [by right|done]. }
  assert (Hdom : k ∈ kvs.*1).
  { clear Hall. induction Hm as [|a [k' v'] l l' Ha _ IH].
    - by apply elem_of_nil in Hk.
    - simpl. destruct (rule a) eqn:Hr; simplify_eq/=.
      apply elem_of_cons in Hk as [->|Hk]; [left|right; by apply IH]. }
  apply list_elem_of_fmap in Hdom as ([k' v] & -> & Hkv).
  destruct (Hall _ Hkv) as [_ Hr]. simpl in *. exists v. split; [done|].
  set (f := λ k, default v (rule k)).
  rewrite (list_to_map_functional f).
  - unfold f. by rewrite Hr.
  - intros kv' Hkv'. destruct (Hall _ Hkv') as [_ Hr']. unfold f. by rewrite Hr'.
  - apply list_elem_of_fmap. by exists (k', v).
Qed.

Lemma pyomo_Param_is_Some `{Countable K} {V} (index : list K) (rule : K → option V) :
  (∀ k, k ∈ index → is_Some (rule k)) → is_Some (pyomo_Param index rule).
Proof.
  intros Hall. unfold pyomo_Param.
  assert (is_Some (mapM (λ k, v ← rule k; Some (k, v)) index)) as [kvs ->]; [|by eexists].
  apply mapM_is_Some. apply Forall_forall. intros k Hk.
  destruct (Hall k Hk) as [v Hv]. simpl. rewrite Hv. by eexists.
Qed.

(** ** Temporal index *)

Lemma elem_of_timepoints_on_day (m : Model) (p d t : Z) :
  t ∈ timepoints_on_day m p d ↔ t ∈ TIMEPOINTS m ∧ period m t = p ∧ day m t = d.
Proof.
  unfold timepoints_on_day. rewrite list_elem_of_In, filter_In, <- list_elem_of_In.
  rewrite andb_true_iff, !bool_decide_eq_true. tauto.
Qed.

Lemma elem_of_period_day_index (m : Model) (t : Z) :
  t ∈ TIMEPOINTS m →
  (period m t, day m t) ∈ (p ← periods_init m; d ← days_init m; [(p, d)]).
Proof.
  intros Ht. apply list_elem_of_bind. exists (period m t). split.
  - apply list_elem_of_bind. exists (day m t). split; [left|].
    apply elem_of_sorted_unique, list_elem_of_fmap. eauto.
  - apply elem_of_sorted_unique, list_elem_of_fmap. eauto.
Qed.

Lemma previous_timepoint_init_lookup (m : Model) (first_tp last_tp : gmap (Z * Z) Z)
    (prev : gmap Z Z) (t : Z) :
  previous_timepoint_init m first_tp last_tp = Some prev → t ∈ TIMEPOINTS m →
  ∃ f, first_tp !! (period m t, day m t) = Some f ∧
       if bool_decide (t = f)
       then ∃ l, last_tp !! (period m t, day m t) = Some l ∧ prev !! t = Some l
       else prev !! t = Some (t - 1).
Proof.
  unfold previous_timepoint_init. generalize (TIMEPOINTS m) as tps.
  intros tps. revert prev. induction tps as [|x tps IH] using rev_ind; intros prev Hfold Ht.
  - by apply elem_of_nil in Ht.
  - rewrite foldl_app in Hfold. simpl in Hfold. unfold previous_timepoint_step at 1 in Hfold.
    destruct (foldl _ _ tps) as [g|] eqn:Hg; [|done]. simpl in Hfold.
    destruct (first_tp !! (period m x, day m x)) as [f|] eqn:Hf; [|done]. simpl in Hfold.
    destruct (decide (t = x)) as [->|Hne].
    + exists f. split; [done|]. destruct (bool_decide (x = f)).
      * destruct (last_tp !! (period m x, day m x)) as [l|] eqn:Hl; [|done].
        simpl in Hfold. injection Hfold as <-. exists l. by rewrite lookup_insert_eq.
      * injection Hfold as <-. by rewrite lookup_insert_eq.
    + apply elem_of_app in Ht as [Ht|Ht]; [|apply list_elem_of_singleton in Ht; done].
      destruct (IH g eq_refl Ht) as (f' & Hf' & Hcase). exists f'. split; [done|].
      assert (prev !! t = g !! t) as ->; [|done].
      destruct (bool_decide (x = f)).
      * destruct (last_tp !! (period m x, day m x)) as [l|]; [|done].
        simpl in Hfold. injection Hfold as <-. by rewrite lookup_insert_ne.
      * injection Hfold as <-. by rewrite lookup_insert_ne.
Qed.

Lemma next_timepoint_init_lookup (m : Model) (first_tp last_tp : gmap (Z * Z) Z)
    (next : gmap Z Z) (t : Z) :
  next_timepoint_init m first_tp last_tp = Some next → t ∈ TIMEPOINTS m →
  ∃ l, last_tp !! (period m t, day m t) = Some l ∧
       if bool_decide (t = l)
       then ∃ f, first_tp !! (period m t, day m t) = Some f ∧ next !! t = Some f
       else next !! t = Some (t + 1).
Proof.
  unfold next_timepoint_init. generalize (TIMEPOINTS m) as tps.
  intros tps. revert next. induction tps as [|x tps IH] using rev_ind; intros next Hfold Ht.
  - by apply elem_of_nil in Ht.
  - rewrite foldl_app in Hfold. simpl in Hfold. unfold next_timepoint_step at 1 in Hfold.
    destruct (foldl _ _ tps) as [g|] eqn:Hg; [|done]. simpl in Hfold.
    destruct (last_tp !! (period m x, day m x)) as [l|] eqn:Hl; [|done]. simpl in Hfold.
    destruct (decide (t = x)) as [->|Hne].
    + exists l. split; [done|]. destruct (bool_decide (x = l)).
      * destruct (first_tp !! (period m x, day m x)) as [f|] eqn:Hf; [|done].
        simpl in Hfold. injection Hfold as <-. exists f. by rewrite lookup_insert_eq.
      * injection Hfold as <-. by rewrite lookup_insert_eq.
    + apply elem_of_app in Ht as [Ht|Ht]; [|apply list_elem_of_singleton in Ht; done].
      destruct (IH g eq_refl Ht) as (l' & Hl' & Hcase). exists l'. split; [done|].
      assert (next !! t = g !! t) as ->; [|done].
      destruct (bool_decide (x = l)).
      * destruct (first_tp !! (period m x, day m x)) as [f|]; [|done].
        simpl in Hfold. injection Hfold as <-. by rewrite lookup_insert_ne.
      * injection Hfold as <-. by rewrite lookup_insert_ne.
Qed.

Lemma build_temporal_index_inv (m : Model) (ix : TemporalIndex) :
  build_temporal_index m = Some ix →
  PERIODS ix = periods_init m ∧ DAYS ix = days_init m ∧
  py_min (periods_init m) = Some (first_period ix) ∧
  pyomo_Param (p ← periods_init m; d ← days_init m; [(p, d)])
              (λ pd, first_timepoint_of_day_init m pd.1 pd.2) = Some (first_timepoint_of_day ix) ∧
  pyomo_Param (p ← periods_init m; d ← days_init m; [(p, d)])
              (λ pd, last_timepoint_of_day_init m pd.1 pd.2) = Some (last_timepoint_of_day ix) ∧
  previous_timepoint_init m (first_timepoint_of_day ix) (last_timepoint_of_day ix)
    = Some (previous_timepoint ix) ∧
  next_timepoint_init m (first_timepoint_of_day ix) (last_timepoint_of_day ix)
    = Some (next_timepoint ix).
Proof.
  unfold build_temporal_index. intros Hb.
  destruct (py_min (periods_init m)) as [fp|]; [|done]. simpl in Hb.
  destruct (pyomo_Param _ (λ pd, first_timepoint_of_day_init m pd.1 pd.2)) as [ftp|]; [|done].
  simpl in Hb.
  destruct (pyomo_Param _ (λ pd, last_timepoint_of_day_init m pd.1 pd.2)) as [ltp|]; [|done].
  simpl in Hb.
  destruct (previous_timepoint_init m ftp ltp) as [prev|] eqn:Hp; [|done]. simpl in Hb.
  destruct (next_timepoint_init m ftp ltp) as [next|] eqn:Hn; [|done]. simpl in Hb.
  injection Hb as <-. simpl. by repeat split.
Qed.

(** What a successful construction fixes for a timepoint [t]: the first and
    last timepoint of its day are the least and greatest timepoint with the
    period and day of [t]. *)
Lemma build_temporal_index_day (m : Model) (ix : TemporalIndex) (t : Z) :
  build_temporal_index m = Some ix → t ∈ TIMEPOINTS m →
  ∃ f l,
    first_timepoint_of_day ix !! (period m t, day m t) = Some f ∧
    last_timepoint_of_day ix !! (period m t, day m t) = Some l ∧
    f ∈ timepoints_on_day m (period m t) (day m t) ∧
    l ∈ timepoints_on_day m (period m t) (day m t) ∧
    (∀ u, u ∈ timepoints_on_day m (period m t) (day m t) → f ≤ u ≤ l).
Proof.
  intros Hb Ht. apply build_temporal_index_inv in Hb as (_ & _ & _ & Hf & Hl & _ & _).
  destruct (pyomo_Param_lookup _ _ _ _ Hf (elem_of_period_day_index m t Ht)) as (f & Hfi & Hfl).
  destruct (pyomo_Param_lookup _ _ _ _ Hl (elem_of_period_day_index m t Ht)) as (l & Hli & Hll).
  simpl in Hfi, Hli. apply py_min_Some in Hfi as [Hfin Hfle]. apply py_max_Some in Hli as [Hlin Hlle].
  exists f, l. repeat split; auto.
Qed.

(** The circular neighbours of a timepoint of a constructed index. *)
Lemma build_temporal_index_neighbours (m : Model) (ix : TemporalIndex) (t f l : Z) :
  build_temporal_index m = Some ix → t ∈ TIMEPOINTS m →
  first_timepoint_of_day ix !! (period m t, day m t) = Some f →
  last_timepoint_of_day ix !! (period m t, day m t) = Some l →
  previous_timepoint ix !! t = Some (if bool_decide (t = f) then l else t - 1) ∧
  next_timepoint ix !! t = Some (if bool_decide (t = l) then f else t + 1).
Proof.
  intros Hb Ht Hf Hl. apply build_temporal_index_inv in Hb as (_ & _ & _ & _ & _ & Hp & Hn).
  destruct (previous_timepoint_init_lookup _ _ _ _ _ Hp Ht) as (f' & Hf' & Hpc).
  destruct (next_timepoint_init_lookup _ _ _ _ _ Hn Ht) as (l' & Hl' & Hnc).
  rewrite Hf in Hf'. injection Hf' as <-. rewrite Hl in Hl'. injection Hl' as <-. split.
  - destruct (bool_decide (t = f)); [|done]. destruct Hpc as (l' & Hl' & ->). congruence.
  - destruct (bool_decide (t = l)); [|done]. destruct Hnc as (f' & Hf' & ->). congruence.
Qed.

Lemma previous_timepoint_init_is_Some (m : Model) (first_tp last_tp : gmap (Z * Z) Z) :
  (∀ t, t ∈ TIMEPOINTS m →
        is_Some (first_tp !! (period m t, day m t)) ∧
        is_Some (last_tp !! (period m t, day m t))) →
  is_Some (previous_timepoint_init m first_tp last_tp).
Proof.
  unfold previous_timepoint_init. generalize (∅ : gmap Z Z). generalize (TIMEPOINTS m) as tps.
  induction tps as [|x tps IH]; intros acc Hall; simpl.
  - by eexists.
  - destruct (Hall x) as [[f Hf] [l Hl]]; [left|]. rewrite Hf, Hl. simpl.
    destruct (bool_decide (x = f)); apply IH; intros t Ht; apply Hall; by right.
Qed.

Lemma next_timepoint_init_is_Some (m : Model) (first_tp last_tp : gmap (Z * Z) Z) :
  (∀ t, t ∈ TIMEPOINTS m →
        is_Some (first_tp !! (period m t, day m t)) ∧
        is_Some (last_tp !! (period m t, day m t))) →
  is_Some (next_timepoint_init m first_tp last_tp).
Proof.
  unfold next_timepoint_init. generalize (∅ : gmap Z Z). generalize (TIMEPOINTS m) as tps.
  induction tps as [|x tps IH]; intros acc Hall; simpl.
  - by eexists.
  - destruct (Hall x) as [[f Hf] [l Hl]]; [left|]. rewrite Hf, Hl. simpl.
    destruct (bool_decide (x = l)); apply IH; intros t Ht; apply Hall; by right.
Qed.

(** The temporal index is built exactly when there is a timepoint and every
    pair of a period and a day has one. *)
Lemma build_temporal_index_is_Some (m : Model) :
  is_Some (build_temporal_index m) ↔
  TIMEPOINTS m ≠ [] ∧
  ∀ p d, p ∈ periods_init m → d ∈ days_init m → timepoints_on_day m p d ≠ [].
Proof.
  split.
  - intros [ix Hb]. apply build_temporal_index_inv in Hb as (_ & _ & Hfp & Hf & _).
    split.
    + intros Hnil. unfold periods_init, sorted_unique in Hfp. rewrite Hnil in Hfp. done.
    + intros p d Hp Hd Hnil.
      assert (Hpd : (p, d) ∈ (p ← periods_init m; d ← days_init m; [(p, d)])).
      { apply list_elem_of_bind. exists p. split; [|done].
        apply list_elem_of_bind. exists d. split; [left|done]. }
      destruct (pyomo_Param_lookup _ _ _ _ Hf Hpd) as (v & Hv & _). simpl in Hv.
      unfold first_timepoint_of_day_init in Hv. by rewrite Hnil in Hv.
  - intros [Hne Hall]. unfold build_temporal_index.
    destruct (py_min_is_Some (periods_init m)) as [fp ->].
    { destruct (TIMEPOINTS m) as [|t tps] eqn:Htps; [done|]. intros Hnil.
      assert (Hin : period m t ∈ periods_init m).
      { apply elem_of_sorted_unique, list_elem_of_fmap. exists t. rewrite Htps.
        split; [done|left]. }
      rewrite Hnil in Hin. by apply elem_of_nil in Hin. }
    simpl.
    assert (Hidx : ∀ pd, pd ∈ (p ← periods_init m; d ← days_init m; [(p, d)]) →
                         timepoints_on_day m pd.1 pd.2 ≠ []).
    { intros [p d] Hpd. apply list_elem_of_bind in Hpd as (p' & Hin & Hp').
      apply list_elem_of_bind in Hin as (d' & Hin & Hd').
      apply list_elem_of_singleton in Hin. simplify_eq. by apply Hall. }
    destruct (pyomo_Param_is_Some (p ← periods_init m; d ← days_init m; [(p, d)])
                (λ pd, first_timepoint_of_day_init m pd.1 pd.2)) as [ftp Hftp].
    { intros pd Hpd. by apply py_min_is_Some, Hidx. }
    destruct (pyomo_Param_is_Some (p ← periods_init m; d ← days_init m; [(p, d)])
                (λ pd, last_timepoint_of_day_init m pd.1 pd.2)) as [ltp Hltp].
    { intros pd Hpd. by apply py_max_is_Some, Hidx. }
    rewrite Hftp, Hltp. simpl.
    assert (Hlook : ∀ t, t ∈ TIMEPOINTS m →
              is_Some (ftp !! (period m t, day m t)) ∧ is_Some (ltp !! (period m t, day m t))).
    { intros t Ht. pose proof (elem_of_period_day_index m t Ht) as Hpd.
      destruct (pyomo_Param_lookup _ _ _ _ Hftp Hpd) as (f & _ & ->).
      destruct (pyomo_Param_lookup _ _ _ _ Hltp Hpd) as (l & _ & ->). by split; eexists. }
    destruct (previous_timepoint_init_is_Some m ftp ltp Hlook) as [prev ->].
    destruct (next_timepoint_init_is_Some m ftp ltp Hlook) as [next ->].
    by eexists.
Qed.

(** C1. In a constructed temporal index, the timepoint before the first
    timepoint of a (period, day) is the last timepoint of that (period, day),
    the timepoint after the last one is the first one, and everywhere else
    the previous and next timepoints are [t - 1] and [t + 1].  The first and
    the last timepoint of the (period, day) of [t] are timepoints of the
    period and of the day of [t], and they are the least and the greatest
    of the timepoints of that period and day. *)
Theorem circular_timepoint_invariant (m : Model) (ix : TemporalIndex) (t : Z) :
  build_temporal_index m = Some ix → t ∈ TIMEPOINTS m →
  ∃ f l,
    first_timepoint_of_day ix !! (period m t, day m t) = Some f ∧
    last_timepoint_of_day ix !! (period m t, day m t) = Some l ∧
    (f ∈ TIMEPOINTS m ∧ period m f = period m t ∧ day m f = day m t) ∧
    (l ∈ TIMEPOINTS m ∧ period m l = period m t ∧ day m l = day m t) ∧
    (∀ u, u ∈ TIMEPOINTS m → period m u = period m t → day m u = day m t → f ≤ u ≤ l) ∧
    (t = f → previous_timepoint ix !! t = Some l) ∧
    (t = l → next_timepoint ix !! t = Some f) ∧
    (t ≠ f → previous_timepoint ix !! t = Some (t - 1)) ∧
    (t ≠ l → next_timepoint ix !! t = Some (t + 1)).
Proof.
  intros Hb Ht.
  destruct (build_temporal_index_day m ix t Hb Ht) as (f & l & Hf & Hl & Hfin & Hlin & Hbnd).
  destruct (build_temporal_index_neighbours m ix t f l Hb Ht Hf Hl) as [Hp Hn].
  apply elem_of_timepoints_on_day in Hfin, Hlin.
  exists f, l. split; [exact Hf|]. split; [exact Hl|]. split; [exact Hfin|].
  split; [exact Hlin|]. split; [|split; [|split; [|split]]].
  - intros u Hu Hup Hud. apply Hbnd, elem_of_timepoints_on_day. done.
  - intros ->. by rewrite bool_decide_eq_true_2 in Hp.
  - intros ->. by rewrite bool_decide_eq_true_2 in Hn.
  - intros Hne. by rewrite bool_decide_eq_false_2 in Hp.
  - intros Hne. by rewrite bool_decide_eq_false_2 in Hn.
Qed.

(** ** Components *)

Lemma Var_Some (index1 : list Resource) (index2 : list Z) (name : string) (r : Resource) (i : Z) :
  r ∈ index1 → i ∈ index2 → Var index1 index2 name r i = Some (EVar (name, r, i)).
Proof. intros Hr Hi. unfold Var. by rewrite !bool_decide_eq_true_2. Qed.

Lemma Var_resource (index1 : list Resource) (index2 : list Z) (name : string)
    (r : Resource) (i : Z) :
  r ∈ index1 →
  Var index1 index2 name r i = if bool_decide (i ∈ index2) then Some (EVar (name, r, i)) else None.
Proof. intros Hr. unfold Var. by rewrite (bool_decide_eq_true_2 _ Hr). Qed.


Lemma Expression_Some (index1 : list Resource) (index2 : list Z)
    (rule : Resource → Z → option expr) (r : Resource) (i : Z) :
  r ∈ index1 → i ∈ index2 → Expression index1 index2 rule r i = rule r i.
Proof. intros Hr Hi. unfold Expression. by rewrite !bool_decide_eq_true_2. Qed.

Lemma Expression_None (index1 : list Resource) (index2 : list Z)
    (rule : Resource → Z → option expr) (r : Resource) (i : Z) :
  r ∉ index1 ∨ i ∉ index2 → Expression index1 index2 rule r i = None.
Proof.
  intros [Hr|Hi]; unfold Expression.
  - by rewrite (bool_decide_eq_false_2 _ Hr).
  - rewrite (bool_decide_eq_false_2 _ Hi). by destruct (bool_decide _).
Qed.

Lemma elem_of_index (index1 : list Resource) (index2 : list Z) (r : Resource) (i : Z) :
  (r, i) ∈ (r ← index1; i ← index2; [(r, i)]) ↔ r ∈ index1 ∧ i ∈ index2.
Proof.
  rewrite list_elem_of_bind. split.
  - intros (r' & Hin & Hr'). apply list_elem_of_bind in Hin as (i' & Hin & Hi').
    apply list_elem_of_singleton in Hin. by simplify_eq.
  - intros [Hr Hi]. exists r. split; [|done]. apply list_elem_of_bind. exists i.
    split; [left|done].
Qed.

(** The constraints of a constructed component are the constraints emitted
    by the rule on the index set. *)
Lemma Constraint_elem_of (index1 : list Resource) (index2 : list Z)
    (rule : Resource → Z → option rule_result) (cs : list (Resource * Z * constraint))
    (r : Resource) (i : Z) (c : constraint) :
  Constraint index1 index2 rule = Some cs →
  (r, i, c) ∈ cs ↔ r ∈ index1 ∧ i ∈ index2 ∧ rule r i = Some (Emit c).
Proof.
  unfold Constraint. intros Hc.
  destruct (mapM _ _) as [rs|] eqn:Hm; simplify_eq/=.
  apply mapM_Some in Hm.
  transitivity ((r, i) ∈ (r' ← index1; i' ← index2; [(r', i')]) ∧ rule r i = Some (Emit c));
    [|rewrite elem_of_index; tauto].
  generalize dependent (r' ← index1; i' ← index2; [(r', i')]).
  intros idx Hm. induction Hm as [|[r0 i0] [[r1 i1] res] l l' Hx _ IH]; simpl.
  - split; [intros H; by apply elem_of_nil in H|intros [H _]; by apply elem_of_nil in H].
  - simpl in Hx. destruct (rule r0 i0) as [res0|] eqn:Hr0; simplify_eq/=.
    destruct res as [|c0]; simpl.
    + rewrite IH. rewrite elem_of_cons. split; [intros [Hin Hrule]; auto|].
      intros [[Heq|Hin] Hrule]; [|done]. injection Heq as -> ->. congruence.
    + rewrite elem_of_cons, IH, elem_of_cons. split.
      * intros [Heq|[Hin Hrule]]; [simplify_eq; auto|auto].
      * intros [[Heq|Hin] Hrule]; [left; simplify_eq; congruence|auto].
Qed.

Lemma Constraint_rule_defined (index1 : list Resource) (index2 : list Z)
    (rule : Resource → Z → option rule_result) (cs : list (Resource * Z * constraint))
    (r : Resource) (i : Z) :
  Constraint index1 index2 rule = Some cs → r ∈ index1 → i ∈ index2 →
  is_Some (rule r i).
Proof.
  unfold Constraint. intros Hc Hr Hi.
  destruct (mapM _ _) as [rs|] eqn:Hm; simplify_eq/=.
  assert (is_Some (mapM (λ ri : Resource * Z, res ← rule ri.1 ri.2; Some (ri, res))
                        (r' ← index1; i' ← index2; [(r', i')]))) as Hs by (by eexists).
  apply mapM_is_Some in Hs. rewrite Forall_forall in Hs.
  specialize (Hs (r, i) (proj2 (elem_of_index _ _ _ _) (conj Hr Hi))). simpl in Hs.
  destruct (rule r i); [by eexists|]. by destruct Hs.
Qed.

Lemma Constraint_is_Some (index1 : list Resource) (index2 : list Z)
    (rule : Resource → Z → option rule_result) :
  (∀ r i, r ∈ index1 → i ∈ index2 → is_Some (rule r i)) →
  is_Some (Constraint index1 index2 rule).
Proof.
  intros Hall. unfold Constraint.
  assert (is_Some (mapM (λ ri : Resource * Z, res ← rule ri.1 ri.2; Some (ri, res))
                        (r' ← index1; i' ← index2; [(r', i')]))) as [rs ->]; [|by eexists].
  apply mapM_is_Some. apply Forall_forall. intros [r i] Hin.
  apply elem_of_index in Hin as [Hr Hi]. destruct (Hall r i Hr Hi) as [res Hres].
  simpl. rewrite Hres. by eexists.
Qed.

(** ** The constructed instance *)

Lemma create_instance_inv (m : Model) (model : Instance) :
  create_instance m = Some model →
  inputs model = m ∧
  build_temporal_index m = Some (temporal model) ∧
  pyomo_Set (RESOURCES m) (THERMAL_RESOURCES_filter model) (THERMAL_RESOURCES_validate model)
    = Some (THERMAL_RESOURCES model) ∧
  pyomo_Set (RESOURCES m) (can_retire m) (can_retire_resources_validation_rule model)
    = Some (CAN_RETIRE_RESOURCES model) ∧
  pyomo_Param_validate (PRM_RESOURCES model)
    (planning_reserve_margin_resource_membership_init model)
    (planning_reserve_margin_resource_membership_validate model)
    = Some (prm_memberships model).
Proof.
  unfold create_instance. intros Hc.
  destruct (build_temporal_index m) as [ix|]; [|done]. simpl in Hc.
  destruct (pyomo_Set _ _ _) as [th|] eqn:Hth; [|done]. simpl in Hc.
  destruct (pyomo_Set _ _ _) as [cr|] eqn:Hcr in Hc; [|done]. simpl in Hc.
  destruct (pyomo_Param_validate _ _ _) as [pm|] eqn:Hpm; [|done]. simpl in Hc.
  injection Hc as <-. simpl. repeat split; done.
Qed.

(** The circular neighbours in a constructed instance, in closed form. *)
Lemma instance_neighbours (m : Model) (model : Instance) (t : Z) :
  create_instance m = Some model → t ∈ TIMEPOINTS model →
  ∃ f l,
    first_timepoint_of_day model !! (period model t, day model t) = Some f ∧
    last_timepoint_of_day model !! (period model t, day model t) = Some l ∧
    f ∈ timepoints_on_day model (period model t) (day model t) ∧
    l ∈ timepoints_on_day model (period model t) (day model t) ∧
    (∀ u, u ∈ timepoints_on_day model (period model t) (day model t) → f ≤ u ≤ l) ∧
    previous_timepoint model !! t = Some (if bool_decide (t = f) then l else t - 1) ∧
    next_timepoint model !! t = Some (if bool_decide (t = l) then f else t + 1).
Proof.
  intros Hc Ht. apply create_instance_inv in Hc as (Hm & Hb & _). rewrite <- Hm in Hb.
  destruct (build_temporal_index_day _ _ t Hb Ht) as (f & l & Hf & Hl & Hfin & Hlin & Hbnd).
  destruct (build_temporal_index_neighbours _ _ t f l Hb Ht Hf Hl) as [Hp Hn].
  exists f, l. repeat split; try done; apply Hbnd; done.
Qed.

(** ** Unit commitment *)

(** C2. The commitment-tracking rule of a dispatchable resource at a
    timepoint reads [previous_timepoint]; when that timepoint exists it emits
    one equality, and the equality holds exactly when
    [Commit_Units[r,t] - Commit_Units[r,previous(t)] == Start_Units[r,t] - Shut_Down_Units[r,t]].
    Every valuation feasible for the constructed component satisfies this
    equation at every index. *)
Theorem commitment_tracking_conservation (m : Model) (model : Instance)
    (r : Resource) (t : Z) :
  create_instance m = Some model →
  r ∈ DISPATCHABLE_RESOURCES model → t ∈ TIMEPOINTS model →
  ∃ prev,
    previous_timepoint model !! t = Some prev ∧
    dispatchable_resource_commitment_tracking_rule model r t =
      (if bool_decide (prev ∈ TIMEPOINTS model)
       then Some (Emit (CEq (EVar ("Commit_Units", r, t)%string)
                            (EVar ("Commit_Units", r, prev)%string
                             + EVar ("Start_Units", r, t)%string
                             - EVar ("Shut_Down_Units", r, t)%string)))
       else None) ∧
    (∀ c, dispatchable_resource_commitment_tracking_rule model r t = Some (Emit c) →
          ∀ v, sat v c ↔
               (v ("Commit_Units", r, t) - v ("Commit_Units", r, prev)
                == v ("Start_Units", r, t) - v ("Shut_Down_Units", r, t))%string%Q) ∧
    dispatchable_resource_commitment_tracking_rule model r t ≠ Some Skip ∧
    (∀ cs v, Commitment_Tracking_Constraint model = Some cs → feasible v cs →
             (v ("Commit_Units", r, t) - v ("Commit_Units", r, prev)
              == v ("Start_Units", r, t) - v ("Shut_Down_Units", r, t))%string%Q).
Proof.
  intros Hc Hr Ht.
  destruct (instance_neighbours m model t Hc Ht) as (f & l & _ & _ & _ & _ & _ & Hp & _).
  set (prev := if bool_decide (t = f) then l else t - 1) in *.
  assert (Hrule : dispatchable_resource_commitment_tracking_rule model r t =
      (if bool_decide (prev ∈ TIMEPOINTS model)
       then Some (Emit (CEq (EVar ("Commit_Units", r, t)%string)
                            (EVar ("Commit_Units", r, prev)%string
                             + EVar ("Start_Units", r, t)%string
                             - EVar ("Shut_Down_Units", r, t)%string)))
       else None)).
  { unfold dispatchable_resource_commitment_tracking_rule, Commit_Units, Start_Units,
      Shut_Down_Units.
    rewrite !(Var_Some _ _ _ r t Hr Ht). simpl. rewrite Hp. simpl.
    rewrite (Var_resource _ _ _ r prev Hr). by destruct (bool_decide (prev ∈ _)). }
  assert (Hsat : ∀ c, dispatchable_resource_commitment_tracking_rule model r t = Some (Emit c) →
          ∀ v, sat v c ↔
               (v ("Commit_Units", r, t) - v ("Commit_Units", r, prev)
                == v ("Start_Units", r, t) - v ("Shut_Down_Units", r, t))%string%Q).
  { intros c Hemit v. rewrite Hrule in Hemit.
    destruct (bool_decide (prev ∈ _)); [|done]. injection Hemit as <-. simpl.
    split; intros H; lra. }
  exists prev. split; [done|]. split; [done|]. split; [done|]. split.
  - rewrite Hrule. destruct (bool_decide (prev ∈ TIMEPOINTS model)); discriminate.
  - intros cs v Hcs Hfeas.
    destruct (Constraint_rule_defined _ _ _ _ r t Hcs Hr Ht) as [res Hres].
    destruct res as [|c].
    + rewrite Hrule in Hres. by case_bool_decide.
    + apply (Hsat c Hres v). apply (Hfeas (r, t)).
      by apply (Constraint_elem_of _ _ _ _ _ _ _ Hcs).
Qed.

(** ** The example system *)

(** Decidable side conditions on a concrete system are settled by evaluation. *)
Ltac by_compute :=
  match goal with |- ?P => apply (bool_decide_unpack P); vm_compute; exact I end.

Lemma example_instance_is_Some : is_Some (create_instance example_model).
Proof. vm_compute. by eexists. Qed.

Lemma example_instance_facts (model : Instance) :
  create_instance example_model = Some model →
  inputs model = example_model ∧
  THERMAL_RESOURCES model = ["gas_ccgt"; "gas_st"; "gas_peaker"]%string ∧
  PERIODS model = [2030; 2040] ∧ first_period model = 2030.
Proof.
  intros Hc. apply create_instance_inv in Hc as (Hi & Hb & Hth & _).
  apply build_temporal_index_inv in Hb as (Hp & _ & Hfp & _).
  destruct model as [inp tmp th cr pm]; simpl in *; subst inp.
  vm_compute in Hth. injection Hth as <-.
  vm_compute in Hfp. injection Hfp as Hfp.
  split; [done|]. split; [done|]. split; [by rewrite Hp|exact (eq_sym Hfp)].
Qed.

(** Side conditions about the sets of the example instance. *)
Ltac example_side Hc :=
  let Hi := fresh in let Hth := fresh in let Hp := fresh in let Hfp := fresh in
  destruct (example_instance_facts _ Hc) as (Hi & Hth & Hp & Hfp);
  match goal with
  | model : Instance |- _ =>
      destruct model as [? [? ? ? ? ? ? ?] ? ? ?]; simpl in Hi, Hth, Hp, Hfp; subst;
      by_compute
  end.

Lemma circular_timepoint_invariant_witness :
  ∃ ix, build_temporal_index example_model = Some ix ∧
    ∃ f l,
      first_timepoint_of_day ix !! (period example_model 25, day example_model 25) = Some f ∧
      last_timepoint_of_day ix !! (period example_model 25, day example_model 25) = Some l ∧
      (f ∈ TIMEPOINTS example_model ∧ period example_model f = period example_model 25 ∧
       day example_model f = day example_model 25) ∧
      (l ∈ TIMEPOINTS example_model ∧ period example_model l = period example_model 25 ∧
       day example_model l = day example_model 25) ∧
      (∀ u, u ∈ TIMEPOINTS example_model → period example_model u = period example_model 25 →
            day example_model u = day example_model 25 → f ≤ u ≤ l) ∧
      (25 = f → previous_timepoint ix !! 25 = Some l) ∧
      (25 = l → next_timepoint ix !! 25 = Some f) ∧
      (25 ≠ f → previous_timepoint ix !! 25 = Some (25 - 1)) ∧
      (25 ≠ l → next_timepoint ix !! 25 = Some (25 + 1)).
Proof.
  destruct example_instance_is_Some as [model Hc].
  apply create_instance_inv in Hc as (_ & Hb & _).
  exists (temporal model). split; [exact Hb|].
  apply (circular_timepoint_invariant example_model (temporal model) 25 Hb). by_compute.
Defined.

Lemma commitment_tracking_conservation_witness :
  ∃ model, create_instance example_model = Some model ∧
    ∃ prev, previous_timepoint model !! 25 = Some prev ∧
      ∀ cs v, Commitment_Tracking_Constraint model = Some cs → feasible v cs →
        (v ("Commit_Units", "gas_ccgt", 25%Z) - v ("Commit_Units", "gas_ccgt", prev)
         == v ("Start_Units", "gas_ccgt", 25%Z) - v ("Shut_Down_Units", "gas_ccgt", 25%Z))%string%Q.
Proof.
  destruct example_instance_is_Some as [model Hc].
  exists model. split; [done|].
  destruct (commitment_tracking_conservation example_model model "gas_ccgt" 25 Hc)
    as (prev & Hprev & _ & _ & _ & Hfeas).
  - example_side Hc.
  - example_side Hc.
  - exists prev. split; [done|]. exact Hfeas.
Defined.

Lemma elem_of_filter_list {A} (f : A → bool) (l : list A) (x : A) :
  x ∈ List.filter f l ↔ x ∈ l ∧ f x = true.
Proof. rewrite list_elem_of_In, filter_In, <- list_elem_of_In. done. Qed.

Lemma DISPATCHABLE_RAMP_LIMITED_subset (model : Instance) (r : Resource) :
  r ∈ DISPATCHABLE_RAMP_LIMITED_RESOURCES model → r ∈ DISPATCHABLE_RESOURCES model.
Proof. unfold DISPATCHABLE_RAMP_LIMITED_RESOURCES. rewrite elem_of_filter_list. tauto. Qed.

Lemma elem_of_DISPATCHABLE_RAMP_LIMITED (model : Instance) (r : Resource) :
  r ∈ DISPATCHABLE_RAMP_LIMITED_RESOURCES model ↔
  r ∈ DISPATCHABLE_RESOURCES model ∧
  (ramp_rate_fraction model (technology model r) <? 1)%float = true.
Proof. unfold DISPATCHABLE_RAMP_LIMITED_RESOURCES. by rewrite elem_of_filter_list. Qed.

(** C5, as the code has it. [Fully_Operational_Units] is indexed by the
    ramp-limited dispatchable resources only.  For such a resource and a
    timepoint whose next timepoint exists, it is
    [Commit_Units[r,t] - Start_Units[r,t] - Shut_Down_Units[r,next_timepoint(t)]];
    for any other resource it is not defined. *)
Theorem fully_operational_units_def (m : Model) (model : Instance) (r : Resource) (t : Z) :
  create_instance m = Some model → t ∈ TIMEPOINTS model →
  (r ∈ DISPATCHABLE_RAMP_LIMITED_RESOURCES model →
   ∃ n, next_timepoint model !! t = Some n ∧
     Fully_Operational_Units model r t =
       (if bool_decide (n ∈ TIMEPOINTS model)
        then Some (EVar ("Commit_Units", r, t)%string - EVar ("Start_Units", r, t)%string
                   - EVar ("Shut_Down_Units", r, n)%string)%E
        else None) ∧
     ∀ e v, Fully_Operational_Units model r t = Some e →
       (eval v e == v ("Commit_Units", r, t) - v ("Start_Units", r, t)
                    - v ("Shut_Down_Units", r, n))%string%Q) ∧
  (r ∉ DISPATCHABLE_RAMP_LIMITED_RESOURCES model → Fully_Operational_Units model r t = None).
Proof.
  intros Hc Ht. split.
  - intros Hr. pose proof (DISPATCHABLE_RAMP_LIMITED_subset _ _ Hr) as Hd.
    destruct (instance_neighbours m model t Hc Ht) as (f & l & _ & _ & _ & _ & _ & _ & Hn).
    set (n := if bool_decide (t = l) then f else t + 1) in *.
    assert (Hrule : Fully_Operational_Units model r t =
       (if bool_decide (n ∈ TIMEPOINTS model)
        then Some (EVar ("Commit_Units", r, t)%string - EVar ("Start_Units", r, t)%string
                   - EVar ("Shut_Down_Units", r, n)%string)%E
        else None)).
    { unfold Fully_Operational_Units. rewrite Expression_Some by done.
      unfold fully_operational_units_def_rule, Commit_Units, Start_Units, Shut_Down_Units.
      rewrite !(Var_Some _ _ _ r t Hd Ht). simpl. rewrite Hn. simpl.
      rewrite (Var_resource _ _ _ r n Hd). by destruct (bool_decide (n ∈ _)). }
    exists n. split; [done|]. split; [done|].
    intros e v. rewrite Hrule. destruct (bool_decide (n ∈ _)); [|done].
    intros [= <-]. simpl. reflexivity.
  - intros Hr. apply Expression_None. by left.
Qed.

Lemma fully_operational_units_def_witness :
  ∃ model, create_instance example_model = Some model ∧
    ∃ n, next_timepoint model !! 48 = Some n ∧
      ∀ e v, Fully_Operational_Units model "gas_ccgt" 48 = Some e →
        (eval v e == v ("Commit_Units", "gas_ccgt", 48%Z) - v ("Start_Units", "gas_ccgt", 48%Z)
                     - v ("Shut_Down_Units", "gas_ccgt", n))%string%Q.
Proof.
  destruct example_instance_is_Some as [model Hc].
  exists model. split; [done|].
  destruct (fully_operational_units_def example_model model "gas_ccgt" 48 Hc) as [Hdef _].
  - example_side Hc.
  - destruct Hdef as (n & Hn & _ & Heval); [example_side Hc|].
    exists n. split; [done|]. exact Heval.
Defined.

(** C5, as stated, fails: the fast peaker of the example system is a
    dispatchable resource, yet [Fully_Operational_Units] has no entry for it. *)
Lemma fully_operational_units_counterexample :
  ∃ model, create_instance example_model = Some model ∧
    "gas_peaker"%string ∈ DISPATCHABLE_RESOURCES model ∧
    25 ∈ TIMEPOINTS model ∧
    Fully_Operational_Units model "gas_peaker" 25 = None ∧
    ¬ (∀ r t, r ∈ DISPATCHABLE_RESOURCES model → t ∈ TIMEPOINTS model →
         is_Some (Fully_Operational_Units model r t)).
Proof.
  destruct example_instance_is_Some as [model Hc].
  exists model. split; [done|].
  assert (Hr : "gas_peaker"%string ∈ DISPATCHABLE_RESOURCES model) by example_side Hc.
  assert (Ht : 25 ∈ TIMEPOINTS model) by example_side Hc.
  assert (Hnone : Fully_Operational_Units model "gas_peaker" 25 = None).
  { apply Expression_None. left. intros Hin.
    apply elem_of_DISPATCHABLE_RAMP_LIMITED in Hin as [_ Hlt].
    destruct (example_instance_facts _ Hc) as (Hi & _).
    rewrite Hi in Hlt. vm_compute in Hlt. discriminate. }
  split; [exact Hr|]. split; [exact Ht|]. split; [exact Hnone|].
  intros Hall. destruct (Hall _ _ Hr Ht) as [e He]. congruence.
Qed.


Lemma Qle_bool_false (a b : Q) : Qle_bool a b = false ↔ ¬ (a <= b)%Q.
Proof. by rewrite <- not_true_iff_false, Qle_bool_iff. Qed.

(** ** Ramp limits *)






(** ** Storage *)

Lemma storage_charging_mwh_spec (model : Instance) (s : Resource) (t : Z) :
  s ∈ STORAGE_RESOURCES model → t ∈ TIMEPOINTS model →
  ∃ e, storage_charging_mwh model s t = Some e ∧
       ∀ v, (eval v e == spec_charging model v s t)%Q.
Proof.
  intros Hs Ht.
  unfold storage_charging_mwh, spec_charging, Charge_Storage_MW, Provide_Downward_Reg_MW,
    Provide_LF_Downward_Reserve_MW.
  rewrite (Var_Some _ _ _ s t Hs Ht). simpl.
  destruct (bool_decide (s ∈ REGULATION_RESERVE_RESOURCES model)) eqn:Hreg;
    destruct (bool_decide (s ∈ LOAD_FOLLOWING_RESERVE_RESOURCES model)) eqn:Hlf;
    try apply bool_decide_eq_true in Hreg; try apply bool_decide_eq_true in Hlf;
    try rewrite (Var_Some _ _ "Provide_Downward_Reg_MW" s t Hreg Ht);
    try rewrite (Var_Some _ _ "Provide_LF_Downward_Reserve_MW" s t Hlf Ht); simpl;
    (eexists; split; [reflexivity|]; intros v; simpl; ring).
Qed.

Lemma storage_discharging_mwh_spec (model : Instance) (s : Resource) (t : Z) :
  s ∈ Provide_Power_MW_index model → t ∈ TIMEPOINTS model →
  ∃ e, storage_discharging_mwh model s t = Some e ∧
       ∀ v, (eval v e == spec_discharging model v s t)%Q.
Proof.
  intros Hs Ht.
  unfold storage_discharging_mwh, spec_discharging, Provide_Power_MW, Provide_Upward_Reg_MW,
    Provide_LF_Upward_Reserve_MW.
  rewrite (Var_Some _ _ _ s t Hs Ht). simpl.
  destruct (bool_decide (s ∈ REGULATION_RESERVE_RESOURCES model)) eqn:Hreg;
    destruct (bool_decide (s ∈ LOAD_FOLLOWING_RESERVE_RESOURCES model)) eqn:Hlf;
    try apply bool_decide_eq_true in Hreg; try apply bool_decide_eq_true in Hlf;
    try rewrite (Var_Some _ _ "Provide_Upward_Reg_MW" s t Hreg Ht);
    try rewrite (Var_Some _ _ "Provide_LF_Upward_Reserve_MW" s t Hlf Ht); simpl;
    (eexists; split; [reflexivity|]; intros v; simpl; ring).
Qed.

Lemma storage_discharging_mwh_None (model : Instance) (s : Resource) (t : Z) :
  s ∉ Provide_Power_MW_index model → storage_discharging_mwh model s t = None.
Proof.
  intros Hs. unfold storage_discharging_mwh, Provide_Power_MW, Var.
  by rewrite (bool_decide_eq_false_2 _ Hs).
Qed.

Lemma div_by_param_Some (e : expr) (q : Q) :
  ¬ (q == 0)%Q → div_by_param e q = Some (e / EConst q)%E.
Proof.
  intros Hq. unfold div_by_param. destruct (Qeq_bool q 0) eqn:Heq; [|done].
  by apply Qeq_bool_iff in Heq.
Qed.

Lemma div_by_param_None (e : expr) (q : Q) : (q == 0)%Q → div_by_param e q = None.
Proof. intros Hq. unfold div_by_param. by rewrite (proj2 (Qeq_bool_iff _ _) Hq). Qed.

(** The storage energy-tracking rule in closed form. *)
Lemma storage_energy_tracking_rule_eq (model : Instance) (s : Resource) (t n : Z) :
  s ∈ STORAGE_RESOURCES model → t ∈ TIMEPOINTS model →
  next_timepoint model !! t = Some n →
  (s ∈ Provide_Power_MW_index model ∧ n ∈ TIMEPOINTS model ∧
   ¬ (discharging_efficiency model (technology model s) == 0)%Q ∧
   ∃ ch dis,
     storage_energy_tracking_rule model s t =
       Some (Emit (CEq (EVar ("Energy_in_Storage_MWh", s, n)%string)
                       (EVar ("Energy_in_Storage_MWh", s, t)%string
                        + ch * EConst (charging_efficiency model (technology model s))
                        - dis / EConst (discharging_efficiency model (technology model s))))) ∧
     ∀ v, (eval v ch == spec_charging model v s t)%Q ∧
          (eval v dis == spec_discharging model v s t)%Q) ∨
  (¬ (s ∈ Provide_Power_MW_index model ∧ n ∈ TIMEPOINTS model ∧
      ¬ (discharging_efficiency model (technology model s) == 0)%Q) ∧
   storage_energy_tracking_rule model s t = None).
Proof.
  intros Hs Ht Hn.
  destruct (storage_charging_mwh_spec model s t Hs Ht) as (ch & Hch & Hchv).
  unfold storage_energy_tracking_rule. rewrite Hch. simpl.
  destruct (decide (s ∈ Provide_Power_MW_index model)) as [Hpp|Hpp];
    [|right; split; [tauto|by rewrite storage_discharging_mwh_None]].
  destruct (storage_discharging_mwh_spec model s t Hpp Ht) as (dis & Hdis & Hdisv).
  rewrite Hdis. simpl. rewrite Hn. simpl. unfold Energy_in_Storage_MWh.
  rewrite (Var_resource _ _ _ s n Hs).
  destruct (decide (n ∈ TIMEPOINTS model)) as [Hnt|Hnt];
    [rewrite (bool_decide_eq_true_2 _ Hnt)
    |rewrite (bool_decide_eq_false_2 _ Hnt); right; split; [tauto|done]].
  simpl. rewrite (Var_Some _ _ _ s t Hs Ht). simpl.
  destruct (Qeq_dec (discharging_efficiency model (technology model s)) 0) as [Hz|Hz].
  - right. split; [tauto|]. by rewrite (div_by_param_None _ _ Hz).
  - left. split; [done|]. split; [done|]. split; [done|].
    rewrite (div_by_param_Some _ _ Hz). simpl. exists ch, dis. split; [done|].
    intros v. split; [apply Hchv|apply Hdisv].
Qed.

(** C4. For a storage resource and a timepoint, the energy-tracking rule
    never skips; it builds a constraint exactly when the resource carries a
    [Provide_Power_MW] variable, the next timepoint is a timepoint and the
    discharging efficiency is not zero; and the constraint it builds holds
    exactly when
    [Energy_in_Storage[s,next(t)] == Energy_in_Storage[s,t]
       + charging * charging_efficiency - discharging / discharging_efficiency],
    with charging and discharging as the specification words them. *)
Theorem storage_energy_tracking (m : Model) (model : Instance) (s : Resource) (t : Z) :
  create_instance m = Some model →
  s ∈ STORAGE_RESOURCES model → t ∈ TIMEPOINTS model →
  ∃ n, next_timepoint model !! t = Some n ∧
    storage_energy_tracking_rule model s t ≠ Some Skip ∧
    (is_Some (storage_energy_tracking_rule model s t) ↔
       s ∈ Provide_Power_MW_index model ∧ n ∈ TIMEPOINTS model ∧
       ¬ (discharging_efficiency model (technology model s) == 0)%Q) ∧
    (∀ c, storage_energy_tracking_rule model s t = Some (Emit c) →
       ∀ v, sat v c ↔
         (v ("Energy_in_Storage_MWh", s, n)%string
          == v ("Energy_in_Storage_MWh", s, t)%string
             + spec_charging model v s t * charging_efficiency model (technology model s)
             - spec_discharging model v s t / discharging_efficiency model (technology model s))%Q) ∧
    (∀ cs v, Storage_Energy_Tracking_Constraint model = Some cs → feasible v cs →
         (v ("Energy_in_Storage_MWh", s, n)%string
          == v ("Energy_in_Storage_MWh", s, t)%string
             + spec_charging model v s t * charging_efficiency model (technology model s)
             - spec_discharging model v s t / discharging_efficiency model (technology model s))%Q).
Proof.
  intros Hc Hs Ht.
  destruct (instance_neighbours m model t Hc Ht) as (f & l & _ & _ & _ & _ & _ & _ & Hn).
  set (n := if bool_decide (t = l) then f else t + 1) in *.
  exists n. split; [exact Hn|].
  assert (Hsat : ∀ c, storage_energy_tracking_rule model s t = Some (Emit c) →
       ∀ v, sat v c ↔
         (v ("Energy_in_Storage_MWh", s, n)%string
          == v ("Energy_in_Storage_MWh", s, t)%string
             + spec_charging model v s t * charging_efficiency model (technology model s)
             - spec_discharging model v s t / discharging_efficiency model (technology model s))%Q).
  { intros c Hrule v.
    destruct (storage_energy_tracking_rule_eq model s t n Hs Ht Hn)
      as [(_ & _ & _ & ch & dis & Heq & Hv)|[_ Hnone]]; [|congruence].
    rewrite Heq in Hrule. injection Hrule as <-. simpl.
    destruct (Hv v) as [-> ->]. reflexivity. }
  destruct (storage_energy_tracking_rule_eq model s t n Hs Ht Hn)
    as [(Hpp & Hnt & Hz & ch & dis & Heq & Hv)|[Hnot Hnone]].
  - split; [rewrite Heq; discriminate|]. split; [|split; [exact Hsat|]].
    + split; [done|]. intros _. rewrite Heq. by eexists.
    + intros cs v Hcs Hfeas. apply (Hsat _ Heq v). apply (Hfeas (s, t)).
      by apply (Constraint_elem_of _ _ _ _ _ _ _ Hcs).
  - split; [rewrite Hnone; discriminate|]. split; [|split; [exact Hsat|]].
    + split; [|done]. rewrite Hnone. intros [? ?]. discriminate.
    + intros cs v Hcs Hfeas.
      destruct (Constraint_rule_defined _ _ _ _ s t Hcs Hs Ht) as [res Hres]. congruence.
Qed.

Lemma storage_energy_tracking_witness :
  ∃ model, create_instance example_model = Some model ∧
    ∃ n, next_timepoint model !! 24 = Some n ∧
      is_Some (storage_energy_tracking_rule model "battery" 24) ∧
      ∀ c, storage_energy_tracking_rule model "battery" 24 = Some (Emit c) →
        ∀ v, sat v c ↔
          (v ("Energy_in_Storage_MWh", "battery", n)%string
           == v ("Energy_in_Storage_MWh", "battery", 24%Z)%string
              + spec_charging model v "battery" 24
                * charging_efficiency model (technology model "battery")
              - spec_discharging model v "battery" 24
                / discharging_efficiency model (technology model "battery"))%Q.
Proof.
  destruct example_instance_is_Some as [model Hc].
  exists model. split; [exact Hc|].
  destruct (storage_energy_tracking example_model model "battery" 24 Hc)
    as (n & Hn & _ & Hsome & Hsat & _); [example_side Hc|example_side Hc|].
  exists n. split; [exact Hn|]. split; [|exact Hsat].
  apply Hsome. split; [example_side Hc|]. split.
  - destruct (instance_neighbours _ _ 24 Hc) as (f & l & _ & _ & Hf & _ & _ & _ & Hn');
      [example_side Hc|].
    rewrite Hn in Hn'. injection Hn' as ->.
    apply elem_of_timepoints_on_day in Hf as [Hf _].
    destruct (bool_decide (24 = l)); [exact Hf|]. example_side Hc.
  - destruct (example_instance_facts _ Hc) as (Hi & _). rewrite Hi. vm_compute. discriminate.
Defined.

(** ** Deliverability *)

Lemma first_period_least (m : Model) (model : Instance) :
  create_instance m = Some model →
  first_period model ∈ PERIODS model ∧ ∀ p, p ∈ PERIODS model → first_period model ≤ p.
Proof.
  intros Hc. apply create_instance_inv in Hc as (_ & Hb & _).
  apply build_temporal_index_inv in Hb as (Hp & _ & Hfp & _).
  rewrite Hp. by apply py_min_Some.
Qed.

Lemma find_prev_period_Some (m : Model) (model : Instance) (p : Z) :
  create_instance m = Some model → p ∈ PERIODS model → p ≠ first_period model →
  ∃ q, find_prev_period model p = Some q ∧ q ∈ PERIODS model ∧ q < p ∧
       ∀ q', q' ∈ PERIODS model → q' < p → q' ≤ q.
Proof.
  intros Hc Hp Hne. destruct (first_period_least m model Hc) as [Hfin Hfle].
  unfold find_prev_period.
  set (previous_periods := List.filter (λ q, bool_decide (q < p)) (PERIODS model)).
  assert (Hmem : ∀ q, q ∈ previous_periods ↔ q ∈ PERIODS model ∧ q < p).
  { intros q. unfold previous_periods.
    rewrite list_elem_of_In, filter_In, <- list_elem_of_In, bool_decide_eq_true. done. }
  destruct (py_max_is_Some previous_periods) as [q Hq].
  { intros Hnil. assert (Hin : first_period model ∈ previous_periods).
    { apply Hmem. split; [done|]. specialize (Hfle p Hp). lia. }
    rewrite Hnil in Hin. by apply elem_of_nil in Hin. }
  exists q. split; [done|]. apply py_max_Some in Hq as [Hqin Hqmax].
  apply Hmem in Hqin as [? ?]. split; [done|]. split; [done|].
  intros q' Hq' Hlt. apply Hqmax, Hmem. done.
Qed.

Lemma elem_of_TX_DELIVERABILITY_RESOURCES (model : Instance) (r : Resource) :
  r ∈ TX_DELIVERABILITY_RESOURCES model ↔
  r ∈ NEW_BUILD_RESOURCES model ∧ r ∈ RPS_ELIGIBLE_RESOURCES model ∧ r ∈ PRM_RESOURCES model.
Proof.
  unfold TX_DELIVERABILITY_RESOURCES, set_and. rewrite !list_elem_of_intersection. tauto.
Qed.

Lemma deliverability_def_rule_eq (model : Instance) (r : Resource) (p : Z) :
  r ∈ TX_DELIVERABILITY_RESOURCES model → p ∈ PERIODS model →
  deliverability_def_rule model r p =
    Some (Emit (CEq (EVar ("Fully_Deliverable_Installed_Capacity_MW", r, p)%string
                     + EVar ("Energy_Only_Installed_Capacity_MW", r, p)%string)
                    (EVar ("Operational_New_Capacity_MW", r, p)%string))).
Proof.
  intros Hr Hp. pose proof (proj1 (elem_of_TX_DELIVERABILITY_RESOURCES _ _) Hr) as (Hnb & _).
  unfold deliverability_def_rule, Fully_Deliverable_Installed_Capacity_MW,
    Energy_Only_Installed_Capacity_MW, Operational_New_Capacity_MW.
  rewrite !(Var_Some _ _ _ r p Hr Hp), (Var_Some _ _ _ r p Hnb Hp). done.
Qed.

Lemma fully_deliverable_period_build_rule_eq (m : Model) (model : Instance)
    (r : Resource) (p : Z) :
  create_instance m = Some model →
  r ∈ TX_DELIVERABILITY_RESOURCES model → p ∈ PERIODS model →
  (p = first_period model ∧ fully_deliverable_period_build_rule model r p = Some Skip) ∨
  (p ≠ first_period model ∧ ∃ q, find_prev_period model p = Some q ∧
     fully_deliverable_period_build_rule model r p =
       Some (Emit (CGe (EVar ("Fully_Deliverable_Installed_Capacity_MW", r, p)%string)
                       (EVar ("Fully_Deliverable_Installed_Capacity_MW", r, q)%string)))).
Proof.
  intros Hc Hr Hp. unfold fully_deliverable_period_build_rule.
  destruct (decide (p = first_period model)) as [Heq|Hne].
  - left. split; [done|]. by rewrite (bool_decide_eq_true_2 _ Heq).
  - right. split; [done|]. rewrite (bool_decide_eq_false_2 _ Hne).
    destruct (find_prev_period_Some m model p Hc Hp Hne) as (q & Hq & Hqin & _).
    exists q. split; [done|]. unfold Fully_Deliverable_Installed_Capacity_MW.
    rewrite (Var_Some _ _ _ r p Hr Hp). simpl. rewrite Hq. simpl.
    by rewrite (Var_Some _ _ _ r q Hr Hqin).
Qed.

Lemma energy_only_period_build_rule_eq (m : Model) (model : Instance)
    (r : Resource) (p : Z) :
  create_instance m = Some model →
  r ∈ TX_DELIVERABILITY_RESOURCES model → p ∈ PERIODS model →
  (p = first_period model ∧ energy_only_period_build_rule model r p = Some Skip) ∨
  (p ≠ first_period model ∧ ∃ q, find_prev_period model p = Some q ∧
     energy_only_period_build_rule model r p =
       Some (Emit (CGe (EVar ("Energy_Only_Installed_Capacity_MW", r, p)%string)
                       (EVar ("Energy_Only_Installed_Capacity_MW", r, q)%string)))).
Proof.
  intros Hc Hr Hp. unfold energy_only_period_build_rule.
  destruct (decide (p = first_period model)) as [Heq|Hne].
  - left. split; [done|]. by rewrite (bool_decide_eq_true_2 _ Heq).
  - right. split; [done|]. rewrite (bool_decide_eq_false_2 _ Hne).
    destruct (find_prev_period_Some m model p Hc Hp Hne) as (q & Hq & Hqin & _).
    exists q. split; [done|]. unfold Energy_Only_Installed_Capacity_MW.
    rewrite (Var_Some _ _ _ r p Hr Hp). simpl. rewrite Hq. simpl.
    by rewrite (Var_Some _ _ _ r q Hr Hqin).
Qed.

(** The three deliverability components are always constructed. *)
Lemma deliverability_constraints_constructed (m : Model) (model : Instance) :
  create_instance m = Some model →
  is_Some (Deliverability_Definition_Constraint model) ∧
  is_Some (Fully_Deliverable_Period_Build_Constraint model) ∧
  is_Some (Energy_Only_Period_Build_Constraint model).
Proof.
  intros Hc. split; [|split]; apply Constraint_is_Some; intros r p Hr Hp.
  - rewrite deliverability_def_rule_eq by done. by eexists.
  - destruct (fully_deliverable_period_build_rule_eq m model r p Hc Hr Hp)
      as [[_ ->]|(_ & q & _ & ->)]; by eexists.
  - destruct (energy_only_period_build_rule_eq m model r p Hc Hr Hp)
      as [[_ ->]|(_ & q & _ & ->)]; by eexists.
Qed.

(** A quantity that does not decrease from each period to the next does not
    decrease between any two periods. *)
Lemma period_monotone (m : Model) (model : Instance) (x : Z → Q) :
  create_instance m = Some model →
  (∀ p q, p ∈ PERIODS model → p ≠ first_period model → find_prev_period model p = Some q →
          (x q <= x p)%Q) →
  ∀ p p', p ∈ PERIODS model → p' ∈ PERIODS model → p' ≤ p → (x p' <= x p)%Q.
Proof.
  intros Hc Hstep. destruct (first_period_least m model Hc) as [Hfin Hfle].
  assert (Hind : ∀ n : nat, ∀ p p', p ∈ PERIODS model → p' ∈ PERIODS model → p' ≤ p →
                   p - first_period model < Z.of_nat n → (x p' <= x p)%Q).
  { induction n as [|n IH]; intros p p' Hp Hp' Hle Hn.
    - specialize (Hfle p Hp). lia.
    - destruct (decide (p' = p)) as [->|Hne]; [apply Qle_refl|].
      assert (Hpne : p ≠ first_period model).
      { intros ->. specialize (Hfle p' Hp'). lia. }
      destruct (find_prev_period_Some m model p Hc Hp Hpne) as (q & Hq & Hqin & Hqlt & Hqmax).
      apply Qle_trans with (x q).
      + apply IH; [done|done|apply Hqmax; [done|lia]|lia].
      + by apply Hstep. }
  intros p p' Hp Hp' Hle. apply (Hind (S (Z.to_nat (p - first_period model))) p p'); try done.
  specialize (Hfle p Hp). lia.
Qed.

(** C7. For a transmission-deliverability resource and a period, the three
    deliverability components are constructed, and every valuation feasible
    for them splits the operational new capacity into its fully deliverable
    and energy-only parts, with neither part lower than in the previous
    period (for a period after the first) nor, hence, than in any earlier
    period. *)
Theorem deliverability_split_conservation (m : Model) (model : Instance)
    (r : Resource) (p : Z) :
  create_instance m = Some model →
  r ∈ TX_DELIVERABILITY_RESOURCES model → p ∈ PERIODS model →
  ∃ ds fs es,
    Deliverability_Definition_Constraint model = Some ds ∧
    Fully_Deliverable_Period_Build_Constraint model = Some fs ∧
    Energy_Only_Period_Build_Constraint model = Some es ∧
    ∀ v, feasible v ds → feasible v fs → feasible v es →
      (v ("Fully_Deliverable_Installed_Capacity_MW", r, p)%string
       + v ("Energy_Only_Installed_Capacity_MW", r, p)%string
       == v ("Operational_New_Capacity_MW", r, p)%string)%Q ∧
      (p ≠ first_period model →
       ∃ q, find_prev_period model p = Some q ∧ q ∈ PERIODS model ∧ q < p ∧
            (∀ q', q' ∈ PERIODS model → q' < p → q' ≤ q) ∧
            (v ("Fully_Deliverable_Installed_Capacity_MW", r, q)%string
             <= v ("Fully_Deliverable_Installed_Capacity_MW", r, p)%string)%Q ∧
            (v ("Energy_Only_Installed_Capacity_MW", r, q)%string
             <= v ("Energy_Only_Installed_Capacity_MW", r, p)%string)%Q) ∧
      (∀ p', p' ∈ PERIODS model → p' ≤ p →
            (v ("Fully_Deliverable_Installed_Capacity_MW", r, p')%string
             <= v ("Fully_Deliverable_Installed_Capacity_MW", r, p)%string)%Q ∧
            (v ("Energy_Only_Installed_Capacity_MW", r, p')%string
             <= v ("Energy_Only_Installed_Capacity_MW", r, p)%string)%Q).
Proof.
  intros Hc Hr Hp.
  destruct (deliverability_constraints_constructed m model Hc) as ([ds Hds] & [fs Hfs] & [es Hes]).
  exists ds, fs, es. split; [done|]. split; [done|]. split; [done|].
  intros v Hfd Hff Hfe.
  assert (Hstep_fd : ∀ p q, p ∈ PERIODS model → p ≠ first_period model →
            find_prev_period model p = Some q →
            (v ("Fully_Deliverable_Installed_Capacity_MW", r, q)%string
             <= v ("Fully_Deliverable_Installed_Capacity_MW", r, p)%string)%Q).
  { intros p0 q Hp0 Hne Hq.
    destruct (fully_deliverable_period_build_rule_eq m model r p0 Hc Hr Hp0)
      as [[Heq _]|(_ & q' & Hq' & Hrule)]; [done|].
    rewrite Hq in Hq'. injection Hq' as <-.
    exact (Hff (r, p0) _ (proj2 (Constraint_elem_of _ _ _ _ _ _ _ Hfs)
                                (conj Hr (conj Hp0 Hrule)))). }
  assert (Hstep_eo : ∀ p q, p ∈ PERIODS model → p ≠ first_period model →
            find_prev_period model p = Some q →
            (v ("Energy_Only_Installed_Capacity_MW", r, q)%string
             <= v ("Energy_Only_Installed_Capacity_MW", r, p)%string)%Q).
  { intros p0 q Hp0 Hne Hq.
    destruct (energy_only_period_build_rule_eq m model r p0 Hc Hr Hp0)
      as [[Heq _]|(_ & q' & Hq' & Hrule)]; [done|].
    rewrite Hq in Hq'. injection Hq' as <-.
    exact (Hfe (r, p0) _ (proj2 (Constraint_elem_of _ _ _ _ _ _ _ Hes)
                                (conj Hr (conj Hp0 Hrule)))). }
  split; [|split].
  - exact (Hfd (r, p) _ (proj2 (Constraint_elem_of _ _ _ _ _ _ _ Hds)
                               (conj Hr (conj Hp (deliverability_def_rule_eq model r p Hr Hp))))).
  - intros Hne. destruct (find_prev_period_Some m model p Hc Hp Hne) as (q & Hq & Hqin & Hlt & Hmax).
    exists q. split; [done|]. split; [done|]. split; [done|]. split; [done|].
    split; [by apply Hstep_fd|by apply Hstep_eo].
  - intros p' Hp' Hle. split.
    + apply (period_monotone m model
               (λ p, v ("Fully_Deliverable_Installed_Capacity_MW", r, p)%string) Hc Hstep_fd);
        done.
    + apply (period_monotone m model
               (λ p, v ("Energy_Only_Installed_Capacity_MW", r, p)%string) Hc Hstep_eo);
        done.
Qed.

Lemma deliverability_split_conservation_witness :
  ∃ model, create_instance example_model = Some model ∧
    ∃ ds fs es,
      Deliverability_Definition_Constraint model = Some ds ∧
      Fully_Deliverable_Period_Build_Constraint model = Some fs ∧
      Energy_Only_Period_Build_Constraint model = Some es ∧
      ∀ v, feasible v ds → feasible v fs → feasible v es →
        (v ("Fully_Deliverable_Installed_Capacity_MW", "solar_new", 2040%Z)%string
         + v ("Energy_Only_Installed_Capacity_MW", "solar_new", 2040%Z)%string
         == v ("Operational_New_Capacity_MW", "solar_new", 2040%Z)%string)%Q ∧
        (v ("Fully_Deliverable_Installed_Capacity_MW", "solar_new", 2030%Z)%string
         <= v ("Fully_Deliverable_Installed_Capacity_MW", "solar_new", 2040%Z)%string)%Q ∧
        (v ("Energy_Only_Installed_Capacity_MW", "solar_new", 2030%Z)%string
         <= v ("Energy_Only_Installed_Capacity_MW", "solar_new", 2040%Z)%string)%Q.
Proof.
  destruct example_instance_is_Some as [model Hc].
  exists model. split; [exact Hc|].
  destruct (deliverability_split_conservation example_model model "solar_new" 2040 Hc)
    as (ds & fs & es & Hds & Hfs & Hes & Hv); [example_side Hc|example_side Hc|].
  exists ds, fs, es. split; [exact Hds|]. split; [exact Hfs|]. split; [exact Hes|].
  intros v Hfd Hff Hfe. destruct (Hv v Hfd Hff Hfe) as (Hsum & _ & Hmono).
  split; [exact Hsum|]. apply Hmono; [example_side Hc|lia].
Defined.

(** ** Validated components *)

Lemma pyomo_Param_validate_Some `{Countable K} {V} (index : list K) (init : K → V)
    (ok : V → K → bool) (g : gmap K V) (k : K) :
  pyomo_Param_validate index init ok = Some g → k ∈ index →
  ok (init k) k = true ∧ g !! k = Some (init k).
Proof.
  unfold pyomo_Param_validate. intros Hg Hk.
  destruct (pyomo_Param_lookup _ _ _ _ Hg Hk) as (v & Hv & Hlook). simpl in Hv.
  destruct (ok (init k) k); [|done]. by simplify_eq.
Qed.


Lemma pyomo_Set_Some {A} (init : list A) (f ok : A → bool) (l : list A) (x : A) :
  pyomo_Set init f ok = Some l →
  x ∈ l ↔ x ∈ init ∧ f x = true ∧ ok x = true.
Proof.
  unfold pyomo_Set. destruct (forallb ok (List.filter f init)) eqn:Hall; [|done].
  intros [= <-]. rewrite forallb_forall in Hall.
  rewrite list_elem_of_In, filter_In, <- list_elem_of_In. split; [|tauto].
  intros [Hin Hf]. split; [done|]. split; [done|]. apply Hall, filter_In.
  by rewrite <- list_elem_of_In.
Qed.

Lemma pyomo_Set_None {A} (init : list A) (f ok : A → bool) (x : A) :
  x ∈ init → f x = true → ok x = false → pyomo_Set init f ok = None.
Proof.
  intros Hin Hf Hok. unfold pyomo_Set.
  destruct (forallb ok (List.filter f init)) eqn:Hall; [|done].
  rewrite forallb_forall in Hall. rewrite Hall in Hok; [done|].
  apply filter_In. by rewrite <- list_elem_of_In.
Qed.

(** The sets that filter the data, and the membership count, are the same in
    every instance of the same data. *)
Lemma same_inputs_sets (model : Instance) (m : Model) (r : Resource) :
  inputs model = m →
  PRM_RESOURCES model = PRM_RESOURCES (unbuilt m) ∧
  STORAGE_RESOURCES model = STORAGE_RESOURCES (unbuilt m) ∧
  TX_DELIVERABILITY_RESOURCES model = TX_DELIVERABILITY_RESOURCES (unbuilt m) ∧
  planning_reserve_margin_resource_membership_init model r
    = planning_reserve_margin_resource_membership_init (unbuilt m) r.
Proof. intros <-. by destruct model. Qed.

(** ** Planning reserve margin *)

Lemma membership_init_spec (model : Instance) (r : Resource) :
  planning_reserve_margin_resource_membership_init model r = spec_prm_count model r.
Proof.
  unfold planning_reserve_margin_resource_membership_init, spec_prm_count.
  destruct (bool_decide (r ∈ PRM_NQC_RESOURCES model));
    destruct (bool_decide (r ∈ PRM_VARIABLE_RENEWABLE_RESOURCES model));
    destruct (bool_decide (r ∈ TX_DELIVERABILITY_RESOURCES model));
    destruct (bool_decide (r ∈ EE_PROGRAMS model));
    destruct (elcc_solar_bin model r); destruct (elcc_wind_bin model r);
    destruct (import_on_existing_tx model r); destruct (import_on_new_tx model r);
    reflexivity.
Qed.

(** C8. In a constructed instance every planning-reserve-margin resource is
    counted under exactly one representation, and [prm_memberships] records
    the count 1 for it; when some planning-reserve-margin resource of the
    data is counted under no representation or under more than one, the
    construction of the instance fails. *)
Theorem prm_membership_exactly_one (m : Model) :
  (∀ model r, create_instance m = Some model → r ∈ PRM_RESOURCES model →
     spec_prm_count model r = 1 ∧
     planning_reserve_margin_resource_membership_init model r = 1 ∧
     prm_memberships model !! r = Some 1) ∧
  (∀ r, r ∈ PRM_RESOURCES (unbuilt m) →
     (spec_prm_count (unbuilt m) r = 0 ∨ spec_prm_count (unbuilt m) r > 1) →
     create_instance m = None).
Proof.
  assert (Hgood : ∀ model r, create_instance m = Some model → r ∈ PRM_RESOURCES model →
     planning_reserve_margin_resource_membership_init model r = 1 ∧
     prm_memberships model !! r = Some 1).
  { intros model r Hc Hr. apply create_instance_inv in Hc as (_ & _ & _ & _ & Hpm).
    destruct (pyomo_Param_validate_Some _ _ _ _ _ Hpm Hr) as [Hok Hlook].
    unfold planning_reserve_margin_resource_membership_validate in Hok.
    apply bool_decide_eq_true in Hok. split; [done|]. by rewrite Hlook, Hok. }
  split.
  - intros model r Hc Hr. destruct (Hgood model r Hc Hr) as [Hone Hlook].
    split; [|done]. by rewrite <- membership_init_spec.
  - intros r Hr Hbad. destruct (create_instance m) as [model|] eqn:Hc; [|done].
    pose proof (create_instance_inv _ _ Hc) as (Hi & _).
    destruct (same_inputs_sets model m r Hi) as (Hprm & _ & _ & Hinit).
    rewrite <- Hprm in Hr. destruct (Hgood model r eq_refl Hr) as [Hone _].
    rewrite Hinit, membership_init_spec in Hone. lia.
Qed.

Lemma prm_membership_exactly_one_witness :
  (∃ model, create_instance example_model = Some model ∧
     spec_prm_count model "battery" = 1 ∧
     prm_memberships model !! ("battery"%string) = Some 1) ∧
  create_instance double_counted_model = None.
Proof.
  split.
  - destruct example_instance_is_Some as [model Hc].
    exists model. split; [exact Hc|].
    destruct (proj1 (prm_membership_exactly_one example_model) model "battery" Hc)
      as (Hcount & _ & Hlook); [example_side Hc|].
    split; [exact Hcount|exact Hlook].
  - apply (proj2 (prm_membership_exactly_one double_counted_model) "solar_new").
    + by_compute.
    + right. vm_compute. reflexivity.
Defined.

(** ** Retirement *)

Lemma elem_of_can_retire_domain (model : Instance) (r : Resource) :
  r ∈ set_sub (set_sub (THERMAL_RESOURCES model) (STORAGE_RESOURCES model))
              (TX_DELIVERABILITY_RESOURCES model) ↔
  r ∈ THERMAL_RESOURCES model ∧ (r ∉ STORAGE_RESOURCES model) ∧
  (r ∉ TX_DELIVERABILITY_RESOURCES model).
Proof. unfold set_sub. rewrite !list_elem_of_difference. tauto. Qed.

Lemma elem_of_THERMAL_RESOURCES (m : Model) (model : Instance) (r : Resource) :
  create_instance m = Some model →
  r ∈ THERMAL_RESOURCES model → r ∈ RESOURCES m ∧ thermal m (technology m r) = true.
Proof.
  intros Hc Hr. apply create_instance_inv in Hc as (Hi & _ & Hth & _).
  apply (pyomo_Set_Some _ _ _ _ r Hth) in Hr as (Hin & Hf & _).
  unfold THERMAL_RESOURCES_filter in Hf. rewrite Hi in Hf. done.
Qed.

(** C10. In a constructed instance the resources that can retire are the
    resources flagged [can_retire], and each of them is a thermal resource
    that is neither a storage resource nor a deliverability resource.  When
    any resource that is not thermal is flagged [can_retire] -- whether or not
    it is a storage or deliverability resource -- the construction of the
    instance fails, as it does when a storage or deliverability resource is
    flagged. *)
Theorem can_retire_only_thermal (m : Model) :
  (∀ model r, create_instance m = Some model →
     (r ∈ CAN_RETIRE_RESOURCES model ↔ r ∈ RESOURCES m ∧ can_retire m r = true) ∧
     (r ∈ CAN_RETIRE_RESOURCES model →
      r ∈ set_sub (set_sub (THERMAL_RESOURCES model) (STORAGE_RESOURCES model))
                  (TX_DELIVERABILITY_RESOURCES model) ∧
      thermal m (technology m r) = true ∧
      (r ∉ STORAGE_RESOURCES model) ∧ (r ∉ TX_DELIVERABILITY_RESOURCES model))) ∧
  (∀ r, r ∈ RESOURCES m → can_retire m r = true → thermal m (technology m r) = false →
     create_instance m = None) ∧
  (∀ r, r ∈ RESOURCES m → can_retire m r = true →
     r ∈ STORAGE_RESOURCES (unbuilt m) ∨ r ∈ TX_DELIVERABILITY_RESOURCES (unbuilt m) →
     create_instance m = None).
Proof.
  assert (Hgood : ∀ model r, create_instance m = Some model →
     r ∈ RESOURCES m → can_retire m r = true →
     r ∈ CAN_RETIRE_RESOURCES model ∧
     r ∈ set_sub (set_sub (THERMAL_RESOURCES model) (STORAGE_RESOURCES model))
                 (TX_DELIVERABILITY_RESOURCES model)).
  { intros model r Hc Hr Hflag.
    pose proof (create_instance_inv _ _ Hc) as (_ & _ & _ & Hcr & _).
    pose proof (pyomo_Set_Some _ _ _ _ r Hcr) as Hmem.
    destruct (can_retire_resources_validation_rule model r) eqn:Hok.
    - split; [by apply Hmem|].
      unfold can_retire_resources_validation_rule in Hok.
      by destruct (decide (r ∈ set_sub (set_sub (THERMAL_RESOURCES model)
                                                (STORAGE_RESOURCES model))
                                       (TX_DELIVERABILITY_RESOURCES model))) as [?|Hn];
        [|rewrite (bool_decide_eq_false_2 _ Hn) in Hok].
    - by rewrite (pyomo_Set_None _ _ _ r Hr Hflag Hok) in Hcr. }
  split; [|split].
  - intros model r Hc.
    pose proof (create_instance_inv _ _ Hc) as (_ & _ & _ & Hcr & _).
    pose proof (pyomo_Set_Some _ _ _ _ r Hcr) as Hmem.
    assert (Hiff : r ∈ CAN_RETIRE_RESOURCES model ↔ r ∈ RESOURCES m ∧ can_retire m r = true).
    { split; [intros Hin; apply Hmem in Hin; tauto|].
      intros [Hr Hflag]. by apply Hgood. }
    split; [exact Hiff|]. intros Hin. apply Hiff in Hin as [Hr Hflag].
    destruct (Hgood model r Hc Hr Hflag) as [_ Hdom]. split; [done|].
    apply elem_of_can_retire_domain in Hdom as (Hth & Hns & Hnt).
    split; [|done]. by apply (elem_of_THERMAL_RESOURCES m model r Hc).
  - intros r Hr Hflag Hnt. destruct (create_instance m) as [model|] eqn:Hc; [|done].
    destruct (Hgood model r eq_refl Hr Hflag) as [_ Hdom].
    apply elem_of_can_retire_domain in Hdom as (Hth & _).
    apply (elem_of_THERMAL_RESOURCES m model r Hc) in Hth as [_ Hth]. congruence.
  - intros r Hr Hflag Hexcl. destruct (create_instance m) as [model|] eqn:Hc; [|done].
    destruct (Hgood model r eq_refl Hr Hflag) as [_ Hdom].
    apply elem_of_can_retire_domain in Hdom as (_ & Hns & Hnt).
    pose proof (create_instance_inv _ _ Hc) as (Hi & _).
    destruct (same_inputs_sets model m r Hi) as (_ & Hst & Htx & _).
    rewrite Hst in Hns. rewrite Htx in Hnt. tauto.
Qed.

Lemma can_retire_only_thermal_witness :
  (∃ model, create_instance example_model = Some model ∧
     "gas_ccgt"%string ∈ CAN_RETIRE_RESOURCES model ∧
     thermal example_model (technology example_model "gas_ccgt") = true) ∧
  ("wind_old"%string ∉ STORAGE_RESOURCES (unbuilt retiring_wind_model)) ∧
  ("wind_old"%string ∉ TX_DELIVERABILITY_RESOURCES (unbuilt retiring_wind_model)) ∧
  create_instance retiring_wind_model = None.
Proof.
  split; [|split; [by_compute|split; [by_compute|]]].
  - destruct example_instance_is_Some as [model Hc].
    exists model. split; [exact Hc|].
    destruct (proj1 (can_retire_only_thermal example_model) model "gas_ccgt" Hc)
      as [Hiff Hdom].
    assert (Hin : "gas_ccgt"%string ∈ CAN_RETIRE_RESOURCES model).
    { apply Hiff. split; [by_compute|reflexivity]. }
    split; [exact Hin|]. by destruct (Hdom Hin) as (_ & Hth & _).
  - apply (proj1 (proj2 (can_retire_only_thermal retiring_wind_model)) "wind_old").
    + by_compute.
    + reflexivity.
    + reflexivity.
Defined.

(** ** Start and stop sequences *)

Lemma vars_on_day_sum_over (model : Instance) (p d : Z)
    (component : Resource → Z → option expr) (r : Resource) (ts : list Z) :
  (∀ t, t ∈ ts → ∃ e, component r t = Some e ∧ vars_on_day model p d e) →
  ∃ e, sum_over component r ts = Some e ∧ vars_on_day model p d e.
Proof.
  unfold sum_over. induction ts as [|x ts IH] using rev_ind; intros Hall.
  - exists (EConst 0). split; [done|]. intros y Hy. by apply elem_of_nil in Hy.
  - rewrite foldl_app. simpl.
    destruct IH as (acc & -> & Hacc).
    { intros t Ht. apply Hall, elem_of_app. by left. }
    destruct (Hall x) as (e & -> & He).
    { apply elem_of_app. right. left. }
    simpl. eexists. split; [done|].
    intros y Hy. simpl in Hy. apply elem_of_app in Hy as [Hy|Hy]; [by apply Hacc|by apply He].
Qed.

(** A day made of [timepoints_per_day] consecutive timepoints starting at
    [a] has [a] as first and [a + timepoints_per_day - 1] as last timepoint. *)
Lemma full_day_bounds (m : Model) (model : Instance) (t a : Z) :
  create_instance m = Some model → t ∈ TIMEPOINTS model →
  (∀ u, u ∈ timepoints_on_day model (period model t) (day model t) ↔
        a ≤ u < a + timepoints_per_day) →
  first_timepoint_of_day model !! (period model t, day model t) = Some a ∧
  last_timepoint_of_day model !! (period model t, day model t)
    = Some (a + timepoints_per_day - 1).
Proof.
  intros Hc Ht Hday.
  destruct (instance_neighbours m model t Hc Ht) as (f & l & Hf & Hl & Hfin & Hlin & Hbnd & _).
  unfold timepoints_per_day in *.
  apply Hday in Hfin, Hlin.
  assert (Ha : f ≤ a ≤ l) by (apply Hbnd, Hday; lia).
  assert (Hb : f ≤ a + 24 - 1 ≤ l) by (apply Hbnd, Hday; lia).
  rewrite Hf, Hl. split; f_equal; lia.
Qed.

(** The look-ahead of [PreStart_Units] and [PreShut_Down_Units] from a
    timepoint of a full day stays on that day. *)
Lemma lookahead_on_day (model : Instance) (name : string) (r : Resource) (p d a t h : Z) :
  r ∈ DISPATCHABLE_RESOURCES model →
  (∀ u, u ∈ timepoints_on_day model p d ↔ a ≤ u < a + timepoints_per_day) →
  0 ≤ h ≤ timepoints_per_day → a ≤ t < a + timepoints_per_day →
  ∃ e, Var (DISPATCHABLE_RESOURCES model) (TIMEPOINTS model) name r
         (t + h - (if bool_decide (t + h > a + timepoints_per_day - 1)
                   then timepoints_per_day else 0)) = Some e ∧
       vars_on_day model p d e.
Proof.
  intros Hr Hday Hh Ht. unfold timepoints_per_day in *.
  set (i := t + h - _).
  assert (Hi : a ≤ i < a + 24) by (unfold i; case_bool_decide; lia).
  apply Hday in Hi. pose proof (proj1 (elem_of_timepoints_on_day _ _ _ _) Hi) as (Hit & _).
  rewrite (Var_Some _ _ _ r i Hr Hit). eexists. split; [done|].
  intros y Hy. simpl in Hy. apply list_elem_of_singleton in Hy as ->. done.
Qed.

(** The look-back list of [Starting_Units] and [Shutting_Down_Units] from a
    timepoint of a full day stays on that day. *)
Lemma lookback_on_day (a t h x : Z) :
  0 ≤ h ≤ timepoints_per_day → a ≤ t < a + timepoints_per_day →
  x ∈ (if bool_decide (t - h < a) then previous_timepoints t a h
       else (λ pt, t - pt) <$> py_range 1 h) →
  a ≤ x < a + timepoints_per_day.
Proof.
  unfold previous_timepoints, timepoints_per_day. intros Hh Ht.
  case_bool_decide as Hwrap; rewrite list_elem_of_fmap; intros (pt & -> & Hpt);
    apply elem_of_py_range in Hpt; [case_bool_decide|]; lia.
Qed.

(** C3, as the code has it.  The boundary test of the look-ahead and of the
    look-back uses the first and last timepoint of the day of [t], and the
    wrap shifts by the global [timepoints_per_day].  When the day of [t] is
    made of [timepoints_per_day] consecutive timepoints and the minimum down
    and up times lie between 0 and [timepoints_per_day], the four start and
    stop expressions are defined at [(r, t)] and mention only variables
    indexed by timepoints of the period and day of [t]. *)
Theorem start_stop_lookback_wrap (m : Model) (model : Instance) (r : Resource) (t : Z) :
  create_instance m = Some model →
  r ∈ DISPATCHABLE_RESOURCES model → t ∈ TIMEPOINTS model →
  (∃ f l,
     first_timepoint_of_day model !! (period model t, day model t) = Some f ∧
     last_timepoint_of_day model !! (period model t, day model t) = Some l ∧
     PreStart_Units model r t =
       Start_Units model r
         (t + min_down_time_hours model (technology model r)
          - (if bool_decide (t + min_down_time_hours model (technology model r) > l)
             then timepoints_per_day else 0)) ∧
     PreShut_Down_Units model r t =
       Shut_Down_Units model r
         (t + min_up_time_hours model (technology model r)
          - (if bool_decide (t + min_up_time_hours model (technology model r) > l)
             then timepoints_per_day else 0)) ∧
     Starting_Units model r t =
       sum_over (PreStart_Units model) r
         (if bool_decide (t - min_down_time_hours model (technology model r) < f)
          then (λ pt, if bool_decide (t - pt >= f) then t - pt
                      else t + timepoints_per_day - pt)
                 <$> py_range 1 (min_down_time_hours model (technology model r))
          else (λ pt, t - pt) <$> py_range 1 (min_down_time_hours model (technology model r))) ∧
     Shutting_Down_Units model r t =
       sum_over (PreShut_Down_Units model) r
         (if bool_decide (t - min_up_time_hours model (technology model r) < f)
          then (λ pt, if bool_decide (t - pt >= f) then t - pt
                      else t + timepoints_per_day - pt)
                 <$> py_range 1 (min_up_time_hours model (technology model r))
          else (λ pt, t - pt) <$> py_range 1 (min_up_time_hours model (technology model r)))) ∧
  (∀ a,
     (∀ u, u ∈ timepoints_on_day model (period model t) (day model t) ↔
           a ≤ u < a + timepoints_per_day) →
     0 ≤ min_down_time_hours model (technology model r) ≤ timepoints_per_day →
     0 ≤ min_up_time_hours model (technology model r) ≤ timepoints_per_day →
     (∃ e, PreStart_Units model r t = Some e ∧
           vars_on_day model (period model t) (day model t) e) ∧
     (∃ e, PreShut_Down_Units model r t = Some e ∧
           vars_on_day model (period model t) (day model t) e) ∧
     (∃ e, Starting_Units model r t = Some e ∧
           vars_on_day model (period model t) (day model t) e) ∧
     (∃ e, Shutting_Down_Units model r t = Some e ∧
           vars_on_day model (period model t) (day model t) e)).
Proof.
  intros Hc Hr Ht. split.
  - destruct (instance_neighbours m model t Hc Ht) as (f & l & Hf & Hl & _).
    exists f, l. split; [done|]. split; [done|].
    unfold PreStart_Units, PreShut_Down_Units, Starting_Units, Shutting_Down_Units.
    rewrite !(Expression_Some _ _ _ r t Hr Ht).
    unfold prestart_to_start_definition, preshut_down_to_shut_down_definition,
      define_starting_units, define_shutting_down_units, previous_timepoints.
    rewrite Hf, Hl. simpl.
    split; [done|]. split; [done|].
    split; by case_bool_decide.
  - intros a Hday Hd Hu.
    destruct (full_day_bounds m model t a Hc Ht Hday) as [Hf Hl].
    (* the look-ahead from any timepoint of the day *)
    assert (Hpre : ∀ t', a ≤ t' < a + timepoints_per_day →
      (∃ e, PreStart_Units model r t' = Some e ∧
            vars_on_day model (period model t) (day model t) e) ∧
      (∃ e, PreShut_Down_Units model r t' = Some e ∧
            vars_on_day model (period model t) (day model t) e)).
    { intros t' Ht'. pose proof (proj2 (Hday t') Ht') as Hin.
      apply elem_of_timepoints_on_day in Hin as (Htp & Hp' & Hd').
      unfold PreStart_Units, PreShut_Down_Units.
      rewrite !(Expression_Some _ _ _ r t' Hr Htp).
      unfold prestart_to_start_definition, preshut_down_to_shut_down_definition,
        Start_Units, Shut_Down_Units.
      rewrite Hp', Hd', Hl. simpl. split.
      - by apply (lookahead_on_day model _ r _ _ a).
      - by apply (lookahead_on_day model _ r _ _ a). }
    assert (Hta : a ≤ t < a + timepoints_per_day).
    { apply Hday, elem_of_timepoints_on_day. done. }
    split; [apply (Hpre t Hta)|]. split; [apply (Hpre t Hta)|].
    unfold Starting_Units, Shutting_Down_Units.
    rewrite !(Expression_Some _ _ _ r t Hr Ht).
    unfold define_starting_units, define_shutting_down_units. rewrite Hf. simpl. split.
    + case_bool_decide; apply vars_on_day_sum_over; intros x Hx.
      * apply Hpre, (lookback_on_day a t _ x Hd Hta). by rewrite bool_decide_eq_true_2.
      * apply Hpre, (lookback_on_day a t _ x Hd Hta). by rewrite bool_decide_eq_false_2.
    + case_bool_decide; apply vars_on_day_sum_over; intros x Hx.
      * apply Hpre, (lookback_on_day a t _ x Hu Hta). by rewrite bool_decide_eq_true_2.
      * apply Hpre, (lookback_on_day a t _ x Hu Hta). by rewrite bool_decide_eq_false_2.
Qed.

Lemma example_model_second_day (model : Instance) (u : Z) :
  inputs model = example_model →
  u ∈ timepoints_on_day model (period model 25) (day model 25) ↔
  25 ≤ u < 25 + timepoints_per_day.
Proof.
  intros Hi. rewrite elem_of_timepoints_on_day, Hi.
  change (TIMEPOINTS example_model) with (py_range 1 49).
  rewrite elem_of_py_range. unfold timepoints_per_day. simpl.
  case_bool_decide; split; intros; lia.
Qed.

Lemma start_stop_lookback_wrap_witness :
  ∃ model, create_instance example_model = Some model ∧
    (∃ e, PreStart_Units model "gas_ccgt" 25 = Some e ∧
          vars_on_day model (period model 25) (day model 25) e) ∧
    (∃ e, PreShut_Down_Units model "gas_ccgt" 25 = Some e ∧
          vars_on_day model (period model 25) (day model 25) e) ∧
    (∃ e, Starting_Units model "gas_ccgt" 25 = Some e ∧
          vars_on_day model (period model 25) (day model 25) e) ∧
    (∃ e, Shutting_Down_Units model "gas_ccgt" 25 = Some e ∧
          vars_on_day model (period model 25) (day model 25) e).
Proof.
  destruct example_instance_is_Some as [model Hc].
  exists model. split; [exact Hc|].
  destruct (start_stop_lookback_wrap example_model model "gas_ccgt" 25 Hc) as [_ Hfull];
    [example_side Hc|example_side Hc|].
  destruct (example_instance_facts _ Hc) as (Hi & _).
  apply (Hfull 25).
  - intros u. by apply example_model_second_day.
  - rewrite Hi. unfold timepoints_per_day. simpl. lia.
  - rewrite Hi. unfold timepoints_per_day. simpl. lia.
Defined.

(** C3, as stated, fails.  In the system whose second day has twelve
    timepoints (25 to 36), the look-ahead of one hour from the last timepoint
    of that day crosses the end of the day; the wrap subtracts
    [timepoints_per_day = 24], not the twelve timepoints of the day, and the
    expressions are built on timepoint 13, which belongs to the first day. *)
Lemma start_stop_lookback_wrap_counterexample :
  create_instance short_day_model ≫= (λ model : Instance,
     Some (bool_decide ("gas_ccgt"%string ∈ DISPATCHABLE_RESOURCES model),
           bool_decide (36 ∈ TIMEPOINTS model))) = Some (true, true) ∧
  timepoints_on_day short_day_model (period short_day_model 36) (day short_day_model 36)
    = py_range 25 37 ∧
  create_instance short_day_model ≫= (λ model : Instance,
     last_timepoint_of_day model !! (period model 36, day model 36)) = Some 36 ∧
  create_instance short_day_model ≫= (λ model : Instance, PreStart_Units model "gas_ccgt" 36)
    = Some (EVar ("Start_Units", "gas_ccgt", 13)%string) ∧
  create_instance short_day_model ≫= (λ model : Instance,
     PreShut_Down_Units model "gas_ccgt" 36)
    = Some (EVar ("Shut_Down_Units", "gas_ccgt", 13)%string) ∧
  (13 ∉ timepoints_on_day short_day_model (period short_day_model 36)
                          (day short_day_model 36)) ∧
  day short_day_model 13 ≠ day short_day_model 36.
Proof.
  split; [vm_compute; reflexivity|]. split; [vm_compute; reflexivity|].
  split; [vm_compute; reflexivity|]. split; [vm_compute; reflexivity|].
  split; [vm_compute; reflexivity|]. split; [|vm_compute; discriminate].
  rewrite elem_of_timepoints_on_day. intros (_ & _ & Hd). vm_compute in Hd. discriminate.
Qed.

(** ** Flexible parameters *)

Module LoadDataFacts.
Import LoadData.

(** The assignment at the end of the loop of [parse_timepoint_param], by
    the number of timepoints found. *)
Lemma timepoint_assignment (data : DataPortal) (param : string) (model_object : cell)
    (value : pyval) (timepoints : list Z) :
  (if bool_decide (1 < length timepoints)%nat then Err ValueError
   else _ ← param_dict data param;
        match timepoints with
        | [] => Err IndexError
        | timepoint :: _ => set_param data param (K2 model_object timepoint) value
        end)
  = match timepoints with
    | [] => _ ← param_dict data param; Err IndexError
    | [timepoint] => set_param data param (K2 model_object timepoint) value
    | _ => Err ValueError
    end.
Proof.
  destruct timepoints as [|t [|t' l]]; cbn [length].
  - rewrite bool_decide_eq_false_2 by lia. reflexivity.
  - rewrite bool_decide_eq_false_2 by lia. unfold param_dict, set_param.
    by destruct (data !! param) as [[]|].
  - rewrite bool_decide_eq_true_2 by lia. reflexivity.
Qed.

Lemma for_each_Err {S A} (body : S → A → result S) (l : list A) (x : A) :
  x ∈ l → (∀ s, is_Err (body s x)) → ∀ s, is_Err (for_each body s l).
Proof.
  intros Hx Hbad. induction l as [|y l IH]; intros s.
  - by apply elem_of_nil in Hx.
  - simpl. apply elem_of_cons in Hx as [<-|Hx].
    + destruct (Hbad s) as [e ->]. by exists e.
    + destruct (body s y) as [s'|e]; simpl; [by apply IH|by exists e].
Qed.

Lemma elem_of_params_to_create (flexible_params : list row) (name : string) :
  name ∈ params_to_create flexible_params ↔ ∃ r, r ∈ flexible_params ∧ param r = name.
Proof.
  unfold params_to_create.
  assert (Hgen : ∀ acc,
    name ∈ foldl (λ acc r, if bool_decide (param r ∈ acc) then acc else acc ++ [param r])
                 acc flexible_params ↔
    name ∈ acc ∨ ∃ r, r ∈ flexible_params ∧ param r = name).
  { induction flexible_params as [|r rs IH]; intros acc; simpl.
    - split; [by left|]. intros [?|(r & Hr & _)]; [done|by apply elem_of_nil in Hr].
    - rewrite IH. case_bool_decide as Hin.
      + split.
        * intros [?|(r' & Hr' & Heq)]; [by left|right; exists r'; split; [by right|done]].
        * intros [?|(r' & Hr' & Heq)]; [by left|].
          apply elem_of_cons in Hr' as [->|Hr']; [left; congruence|right; eauto].
      + rewrite elem_of_app, list_elem_of_singleton. split.
        * intros [[Hacc | ->] | (r' & Hr' & Heq)];
            [by left|right; exists r; split; [left|done]
            |right; exists r'; split; [by right|done]].
        * intros [?|(r' & Hr' & Heq)]; [by left; left|].
          apply elem_of_cons in Hr' as [->|Hr']; [left; by right|right; eauto]. }
  rewrite Hgen. split; [|by right]. intros [Hnil|?]; [|done]. by apply elem_of_nil in Hnil.
Qed.

(** The first loop stops with AttributeError when one of the names to
    create is already a key of the data. *)
Lemma create_params_duplicate (names : list string) (name : string) :
  name ∈ names → ∀ data : DataPortal, name ∈ dom data →
  for_each create_param data names = Err AttributeError.
Proof.
  intros Hname. induction names as [|x names IH]; intros data Hdom.
  - by apply elem_of_nil in Hname.
  - simpl. destruct (create_param data x) as [data'|e] eqn:Hx; unfold create_param in Hx;
      destruct (decide (x ∈ dom data)) as [Hin|Hin].
    + by rewrite (bool_decide_eq_true_2 _ Hin) in Hx.
    + rewrite (bool_decide_eq_false_2 _ Hin) in Hx. injection Hx as <-. simpl.
      apply elem_of_cons in Hname as [->|Hname]; [done|].
      apply IH; [done|]. rewrite dom_insert. set_solver.
    + rewrite (bool_decide_eq_true_2 _ Hin) in Hx. by injection Hx as <-.
    + by rewrite (bool_decide_eq_false_2 _ Hin) in Hx.
Qed.

Lemma elem_of_column_values (t : gmap Z Z) (h : Z) :
  h ∈ column_values t ↔ ∃ k, t !! k = Some h.
Proof.
  unfold column_values. rewrite elem_of_sorted_unique, list_elem_of_fmap. split.
  - intros ([k v] & -> & Hkv). exists k. by apply elem_of_map_to_list in Hkv.
  - intros (k & Hk). exists (k, h). split; [done|]. by apply elem_of_map_to_list.
Qed.

(** A row with an hour bound outside the hours of the timepoint table is
    rejected, whatever the data parsed so far. *)
Lemma parse_row_hour_outside (tm : timepoint_mapping) (sets : unique_sets) (r : row) (h : Z) :
  hour_of_day_from r = CInt h ∨ hour_of_day_to r = CInt h →
  h ∉ sets_HOURS sets →
  ∀ data, is_Err (parse_row tm sets data r).
Proof.
  intros Hcell Hh data. unfold parse_row.
  destruct Hcell as [Hc|Hc]; rewrite Hc;
    destruct (is_None (period r)), (is_None (day r)); simpl.
  all: try (destruct (is_None (hour_of_day_to r)); simpl).
  all: try (destruct (is_None (hour_of_day_from r)); simpl).
  all: try (destruct (py_int (hour_of_day_to r)) as [h_to|e]; simpl; [|by exists e]).
  all: try (destruct (py_int (hour_of_day_from r)) as [h_from|e]; simpl; [|by exists e]).
  all: rewrite (bool_decide_eq_false_2 _ Hh); simpl.
  all: try (by exists ValueError).
  all: destruct (bool_decide (_ ∈ sets_HOURS sets)); simpl; by exists ValueError.
Qed.

(** C9. Binding the flexible parameters raises AttributeError, and returns
    no data, when a parameter named in the table is already a key of the
    loaded data; and it raises an exception when a row gives an hour bound
    that is not the hour of day of any timepoint record. *)
Theorem parse_flexible_params_rejects (data : DataPortal) (flexible_params : list row) :
  (∀ r, r ∈ flexible_params → param r ∈ dom data →
     is_Err (parse_flexible_params data flexible_params) ∧
     (∀ x, create_timepoint_mapping data = Ok x →
           parse_flexible_params data flexible_params = Err AttributeError)) ∧
  (∀ r h hours, r ∈ flexible_params →
     data !! "hour_of_day"%string = Some (TimeTable hours) →
     (∀ t, hours !! t ≠ Some h) →
     hour_of_day_from r = CInt h ∨ hour_of_day_to r = CInt h →
     is_Err (parse_flexible_params data flexible_params)).
Proof.
  split.
  - intros r Hr Hdom.
    assert (Hattr : ∀ x, create_timepoint_mapping data = Ok x →
              parse_flexible_params data flexible_params = Err AttributeError).
    { intros [tm sets] Hx. unfold parse_flexible_params. rewrite Hx. simpl.
      rewrite (create_params_duplicate _ (param r)); [done| |done].
      apply elem_of_params_to_create. eauto. }
    split; [|exact Hattr].
    destruct (create_timepoint_mapping data) as [x|e] eqn:Hx.
    + exists AttributeError. by apply (Hattr x).
    + exists e. unfold parse_flexible_params. by rewrite Hx.
  - intros r h hours Hr Hhours Hout Hcell. unfold parse_flexible_params.
    destruct (create_timepoint_mapping data) as [[tm sets]|e] eqn:Hx; simpl; [|by exists e].
    assert (Hh : h ∉ sets_HOURS sets).
    { unfold create_timepoint_mapping, time_column in Hx. rewrite Hhours in Hx.
      destruct (data !! "period"%string) as [[?|?]|]; simpl in Hx; try done.
      destruct (data !! "month"%string) as [[?|?]|]; simpl in Hx; try done.
      destruct (data !! "day"%string) as [[?|?]|]; simpl in Hx; try done.
      injection Hx as <- <-. simpl. rewrite elem_of_column_values.
      intros (k & Hk). by apply (Hout k). }
    destruct (for_each create_param data _) as [data'|e]; simpl; [|by exists e].
    by apply (for_each_Err _ _ r Hr (parse_row_hour_outside tm sets r h Hcell Hh)).
Qed.

Lemma parse_flexible_params_rejects_witness :
  parse_flexible_params example_data [example_row "input_load_mw" CNone CNone CNone CNone]
    = Err AttributeError ∧
  is_Err (parse_flexible_params example_data
            [example_row "max_charge" (CInt 2030) (CInt 1) (CInt 1) (CInt 7)]).
Proof.
  split.
  - destruct (proj1 (parse_flexible_params_rejects example_data
                       [example_row "input_load_mw" CNone CNone CNone CNone])
                    (example_row "input_load_mw" CNone CNone CNone CNone)) as [_ Hattr].
    + left.
    + by_compute.
    + eapply Hattr. vm_compute. reflexivity.
  - apply (proj2 (parse_flexible_params_rejects example_data
                    [example_row "max_charge" (CInt 2030) (CInt 1) (CInt 1) (CInt 7)])
                 (example_row "max_charge" (CInt 2030) (CInt 1) (CInt 1) (CInt 7)) 7
                 (list_to_map [(1, 1); (2, 2); (3, 1); (4, 2)])).
    + left.
    + vm_compute. reflexivity.
    + intros t Ht.
      assert (Hin : 7 ∈ column_values (list_to_map [(1, 1); (2, 2); (3, 1); (4, 2)]))
        by (apply elem_of_column_values; eauto).
      revert Hin. by_compute.
    + by right.
Defined.

(** Rows within the hours of the table are bound: the function does
    return data. *)
Lemma parse_flexible_params_accepts :
  parse_flexible_params example_data
      [example_row "max_charge" (CInt 2030) (CInt 1) (CInt 1) (CInt 2);
       example_row "max_charge" CAll CNone CNone CNone]
    ≫= (λ data : DataPortal, Ok (data !! "max_charge"%string))
  = Ok (Some (ParamTable (list_to_map
      [(K2 (COther "battery") 1, VFloat (1 # 2)); (K2 (COther "battery") 2, VFloat (1 # 2));
       (K2 (COther "battery") 2030, VFloat (1 # 2));
       (K2 (COther "battery") 2040, VFloat (1 # 2))]))).
Proof. vm_compute. reflexivity. Qed.

End LoadDataFacts.

(** * Further properties *)

(** ** Periods, days and vintages *)

Lemma sorted_unique_StronglySorted (l : list Z) : StronglySorted Z.lt (sorted_unique l).
Proof.
  unfold sorted_unique.
  assert (Hs : StronglySorted Z.le (merge_sort Z.le (remove_dups l)))
    by apply (StronglySorted_merge_sort Z.le).
  assert (Hn : NoDup (merge_sort Z.le (remove_dups l))).
  { rewrite merge_sort_Permutation. apply NoDup_remove_dups. }
  induction Hs as [|x xs Hs IH Hall]; [constructor|].
  apply NoDup_cons in Hn as [Hx Hn]. constructor; [by apply IH|].
  rewrite Forall_forall in Hall |- *. intros y Hy.
  specialize (Hall y Hy). assert (x ≠ y) by (intros ->; done). lia.
Qed.

Lemma py_min_sorted (l : list Z) : StronglySorted Z.lt l → py_min l = head l.
Proof.
  destruct l as [|x l]; [done|]. intros Hs. apply StronglySorted_inv in Hs as [_ Hall].
  simpl. f_equal. induction l as [|y l IH]; [done|].
  apply Forall_cons in Hall as [Hy Hall]. simpl. rewrite Z.min_l by lia. by apply IH.
Qed.

(** X1. In a constructed temporal index PERIODS and DAYS are strictly
    increasing, they hold exactly the periods and the days of the timepoints,
    and the first period is the head of PERIODS. *)
Theorem periods_days_increasing (m : Model) (ix : TemporalIndex) :
  build_temporal_index m = Some ix →
  StronglySorted Z.lt (PERIODS ix) ∧ StronglySorted Z.lt (DAYS ix) ∧
  (∀ p, p ∈ PERIODS ix ↔ ∃ t, t ∈ TIMEPOINTS m ∧ period m t = p) ∧
  (∀ d, d ∈ DAYS ix ↔ ∃ t, t ∈ TIMEPOINTS m ∧ day m t = d) ∧
  head (PERIODS ix) = Some (first_period ix).
Proof.
  intros Hb. apply build_temporal_index_inv in Hb as (-> & -> & Hfp & _).
  split; [apply sorted_unique_StronglySorted|].
  split; [apply sorted_unique_StronglySorted|].
  split; [|split].
  - intros p. unfold periods_init. rewrite elem_of_sorted_unique, list_elem_of_fmap.
    split; intros (t & H1 & H2); exists t; done.
  - intros d. unfold days_init. rewrite elem_of_sorted_unique, list_elem_of_fmap.
    split; intros (t & H1 & H2); exists t; done.
  - rewrite <- Hfp. symmetry. apply py_min_sorted, sorted_unique_StronglySorted.
Qed.

Lemma periods_days_increasing_witness :
  ∃ ix, build_temporal_index example_model = Some ix ∧
        StronglySorted Z.lt (PERIODS ix) ∧ head (PERIODS ix) = Some (first_period ix).
Proof.
  destruct example_instance_is_Some as [model Hc].
  apply create_instance_inv in Hc as (_ & Hb & _).
  exists (temporal model). split; [exact Hb|].
  destruct (periods_days_increasing example_model (temporal model) Hb) as (H1 & _ & _ & _ & H5).
  split; [exact H1|exact H5].
Defined.

(** X2. The temporal index is built exactly when there is a timepoint and
    every pair of a period and a day of the timepoints has a timepoint: a day
    that occurs in one period only makes the construction fail for the
    other periods. *)
Theorem temporal_index_constructed (m : Model) :
  is_Some (build_temporal_index m) ↔
  TIMEPOINTS m ≠ [] ∧
  ∀ p d, p ∈ periods_init m → d ∈ days_init m → timepoints_on_day m p d ≠ [].
Proof. apply build_temporal_index_is_Some. Qed.

(** ** The circle of a day *)

(** A day made of [n] consecutive timepoints starting at [a]. *)
Lemma consecutive_day_neighbours (m : Model) (model : Instance) (p d a n t : Z) :
  create_instance m = Some model →
  (∀ u, u ∈ timepoints_on_day model p d ↔ a ≤ u < a + n) →
  a ≤ t < a + n →
  t ∈ TIMEPOINTS model ∧
  previous_timepoint model !! t = Some (if bool_decide (t = a) then a + n - 1 else t - 1) ∧
  next_timepoint model !! t = Some (if bool_decide (t = a + n - 1) then a else t + 1).
Proof.
  intros Hc Hday Ht.
  pose proof (proj2 (Hday t) Ht) as Hin.
  apply elem_of_timepoints_on_day in Hin as (Htp & Hp & Hd). subst p d.
  destruct (instance_neighbours m model t Hc Htp)
    as (f & l & _ & _ & Hfin & Hlin & Hbnd & Hprev & Hnext).
  apply Hday in Hfin, Hlin.
  assert (Ha : f ≤ a ≤ l) by (apply Hbnd, Hday; lia).
  assert (Hb : f ≤ a + n - 1 ≤ l) by (apply Hbnd, Hday; lia).
  assert (f = a) as -> by lia. assert (l = a + n - 1) as -> by lia. done.
Qed.

(** X3. On a day made of consecutive timepoints the previous and the next
    timepoint of a timepoint lie on the same day, and the two maps are
    inverse to each other. *)
Theorem previous_next_inverse (m : Model) (model : Instance) (t a n : Z) :
  create_instance m = Some model → t ∈ TIMEPOINTS model →
  (∀ u, u ∈ timepoints_on_day model (period model t) (day model t) ↔ a ≤ u < a + n) →
  ∃ pv nx,
    previous_timepoint model !! t = Some pv ∧ next_timepoint model !! t = Some nx ∧
    pv ∈ timepoints_on_day model (period model t) (day model t) ∧
    nx ∈ timepoints_on_day model (period model t) (day model t) ∧
    next_timepoint model !! pv = Some t ∧ previous_timepoint model !! nx = Some t.
Proof.
  intros Hc Ht Hday.
  assert (Hta : a ≤ t < a + n) by (apply Hday, elem_of_timepoints_on_day; done).
  destruct (consecutive_day_neighbours m model _ _ a n t Hc Hday Hta) as (_ & Hp & Hn).
  set (pv := if bool_decide (t = a) then a + n - 1 else t - 1) in *.
  set (nx := if bool_decide (t = a + n - 1) then a else t + 1) in *.
  assert (Hpv : a ≤ pv < a + n) by (unfold pv; case_bool_decide; lia).
  assert (Hnx : a ≤ nx < a + n) by (unfold nx; case_bool_decide; lia).
  destruct (consecutive_day_neighbours m model _ _ a n pv Hc Hday Hpv) as (_ & _ & Hpn).
  destruct (consecutive_day_neighbours m model _ _ a n nx Hc Hday Hnx) as (_ & Hnp & _).
  exists pv, nx. split; [exact Hp|]. split; [exact Hn|].
  split; [by apply Hday|]. split; [by apply Hday|]. split.
  - rewrite Hpn. f_equal. unfold pv. repeat case_bool_decide; lia.
  - rewrite Hnp. f_equal. unfold nx. repeat case_bool_decide; lia.
Qed.

Lemma previous_next_inverse_witness :
  ∃ model, create_instance example_model = Some model ∧
    ∃ pv nx,
      previous_timepoint model !! 25 = Some pv ∧ next_timepoint model !! 25 = Some nx ∧
      next_timepoint model !! pv = Some 25 ∧ previous_timepoint model !! nx = Some 25.
Proof.
  destruct example_instance_is_Some as [model Hc].
  exists model. split; [exact Hc|].
  destruct (previous_next_inverse example_model model 25 25 24 Hc)
    as (pv & nx & H1 & H2 & _ & _ & H3 & H4).
  - example_side Hc.
  - intros u. destruct (example_instance_facts _ Hc) as (Hi & _).
    rewrite Hi. rewrite elem_of_timepoints_on_day. simpl.
    rewrite elem_of_py_range. repeat case_bool_decide; lia.
  - exists pv, nx. split; [exact H1|]. split; [exact H2|]. split; [exact H3|exact H4].
Defined.

(** X4. [find_prev_period] returns the Python value [None] exactly when no
    period lies before the given one; otherwise it returns the greatest
    earlier period.  For a period of PERIODS in a constructed instance,
    [None] is returned exactly at the first period. *)
Theorem find_prev_period_spec (m : Model) (model : Instance) (p : Z) :
  create_instance m = Some model →
  (find_prev_period model p = None ↔ ∀ q, q ∈ PERIODS model → p ≤ q) ∧
  (∀ q, find_prev_period model p = Some q ↔
        q ∈ PERIODS model ∧ q < p ∧ ∀ q', q' ∈ PERIODS model → q' < p → q' ≤ q) ∧
  (p ∈ PERIODS model → (find_prev_period model p = None ↔ p = first_period model)).
Proof.
  intros Hc. unfold find_prev_period.
  set (previous_periods := List.filter (λ q, bool_decide (q < p)) (PERIODS model)).
  assert (Hmem : ∀ q, q ∈ previous_periods ↔ q ∈ PERIODS model ∧ q < p).
  { intros q. unfold previous_periods.
    rewrite list_elem_of_In, filter_In, <- list_elem_of_In, bool_decide_eq_true. done. }
  assert (Hnone : py_max previous_periods = None ↔ ∀ q, q ∈ PERIODS model → p ≤ q).
  { split.
    - intros Hn q Hq. destruct (decide (p ≤ q)) as [|Hlt]; [done|].
      assert (Hin : q ∈ previous_periods) by (apply Hmem; split; [done|lia]).
      destruct previous_periods; [by apply elem_of_nil in Hin|done].
    - intros Hall. destruct previous_periods as [|q l] eqn:Heq; [done|].
      assert (Hin : q ∈ q :: l) by left. apply Hmem in Hin as [Hq Hlt].
      specialize (Hall q Hq). lia. }
  split; [exact Hnone|]. split.
  - intros q. split.
    + intros Hq. apply py_max_Some in Hq as [Hq Hmax]. apply Hmem in Hq as [Hq Hlt].
      split; [done|]. split; [done|]. intros q' Hq' Hlt'. apply Hmax, Hmem. done.
    + intros (Hq & Hlt & Hmax).
      destruct (py_max_is_Some previous_periods) as [q0 Hq0].
      { intros Hnil. assert (Hin : q ∈ previous_periods) by (by apply Hmem).
        rewrite Hnil in Hin. by apply elem_of_nil in Hin. }
      rewrite Hq0. f_equal. apply py_max_Some in Hq0 as [Hin0 Hmax0].
      apply Hmem in Hin0 as [Hq0 Hlt0].
      assert (q ≤ q0) by (apply Hmax0, Hmem; done).
      assert (q0 ≤ q) by (by apply Hmax). lia.
  - intros Hp. rewrite Hnone. destruct (first_period_least m model Hc) as [Hfin Hfle]. split.
    + intros Hall. specialize (Hall _ Hfin). specialize (Hfle _ Hp). lia.
    + intros -> q Hq. by apply Hfle.
Qed.

Lemma find_prev_period_spec_witness :
  ∃ model, create_instance example_model = Some model ∧
    find_prev_period model 2030 = None ∧ find_prev_period model 2040 = Some 2030.
Proof.
  destruct example_instance_is_Some as [model Hc].
  exists model. split; [exact Hc|].
  destruct (find_prev_period_spec example_model model 2030 Hc) as (_ & _ & H1).
  destruct (find_prev_period_spec example_model model 2040 Hc) as (_ & H2 & _).
  destruct (example_instance_facts _ Hc) as (_ & _ & Hp & Hfp).
  split.
  - apply H1; [rewrite Hp; by_compute|rewrite Hfp; reflexivity].
  - apply H2. rewrite Hp. split; [by_compute|]. split; [lia|].
    intros q' Hq' Hlt. apply elem_of_cons in Hq' as [->|Hq']; [lia|].
    apply list_elem_of_singleton in Hq' as ->. lia.
Defined.

(** ** Sums over a range of timepoints *)

Lemma py_range_nil (a b : Z) : b ≤ a → py_range a b = [].
Proof. intros H. unfold py_range. by replace (Z.to_nat (b - a)) with 0%nat by lia. Qed.

Lemma py_range_cons (a b : Z) : a < b → py_range a b = a :: py_range (a + 1) b.
Proof.
  intros H. unfold py_range.
  replace (Z.to_nat (b - a)) with (S (Z.to_nat (b - (a + 1)))) by lia.
  simpl. f_equal; [lia|]. rewrite <- fmap_S_seq, <- list_fmap_compose.
  apply list_fmap_ext. intros _ i _. simpl. lia.
Qed.

Lemma py_range_snoc (a b : Z) : a < b → py_range a b = py_range a (b - 1) ++ [b - 1].
Proof.
  intros H. unfold py_range.
  replace (Z.to_nat (b - a)) with (S (Z.to_nat (b - 1 - a))) by lia.
  rewrite seq_S, fmap_app. simpl. do 2 f_equal. lia.
Qed.

Lemma Qsum_app (f : Z → Q) (l1 l2 : list Z) :
  (Qsum f (l1 ++ l2) == Qsum f l1 + Qsum f l2)%Q.
Proof. induction l1 as [|x l1 IH]; simpl; [ring|]. rewrite IH. ring. Qed.

Lemma Qsum_ext (f g : Z → Q) (l : list Z) :
  (∀ t, t ∈ l → (f t == g t)%Q) → (Qsum f l == Qsum g l)%Q.
Proof.
  induction l as [|x l IH]; intros Hfg; simpl; [reflexivity|].
  rewrite (Hfg x), IH; [reflexivity| |left]. intros t Ht. apply Hfg. by right.
Qed.

Lemma Qsum_minus (f g : Z → Q) (l : list Z) :
  (Qsum (λ t, f t - g t) l == Qsum f l - Qsum g l)%Q.
Proof. induction l as [|x l IH]; simpl; [ring|]. rewrite IH. ring. Qed.

Lemma Qsum_telescope (g : Z → Q) (k : nat) (a : Z) :
  (Qsum (λ t, g (t + 1)%Z - g t) (py_range a (a + Z.of_nat k)) == g (a + Z.of_nat k)%Z - g a)%Q.
Proof.
  revert a. induction k as [|k IH]; intros a.
  - rewrite py_range_nil by lia. simpl. rewrite Z.add_0_r. ring.
  - rewrite py_range_cons by lia. simpl Qsum.
    replace (a + Z.of_nat (S k)) with (a + 1 + Z.of_nat k) by lia. rewrite IH. ring.
Qed.

(** Around a circle of [n] consecutive timepoints starting at [a] the
    differences to the previous timepoint sum to zero, and so do the
    differences to the next timepoint. *)
Lemma Qsum_circular_previous (g : Z → Q) (a n : Z) :
  (Qsum (λ t, g t - g (if bool_decide (t = a) then a + n - 1 else t - 1)%Z)
        (py_range a (a + n)) == 0)%Q.
Proof.
  destruct (decide (n ≤ 0)) as [Hn|Hn]; [by rewrite py_range_nil by lia|].
  rewrite py_range_cons by lia. simpl Qsum. rewrite bool_decide_eq_true_2 by done.
  rewrite (Qsum_ext _ (λ t, (λ u, g (u - 1)%Z) (t + 1)%Z - (λ u, g (u - 1)%Z) t)%Q).
  - replace (a + n) with (a + 1 + Z.of_nat (Z.to_nat (n - 1))) at 2 by lia.
    rewrite (Qsum_telescope (λ u, g (u - 1)%Z)). simpl.
    replace (a + 1 + Z.of_nat (Z.to_nat (n - 1)) - 1) with (a + n - 1) by lia.
    replace (a + 1 - 1) with a by lia. ring.
  - intros t Ht. apply elem_of_py_range in Ht. simpl.
    rewrite bool_decide_eq_false_2 by lia. replace (t + 1 - 1) with t by lia. reflexivity.
Qed.

Lemma Qsum_circular_next (g : Z → Q) (a n : Z) :
  (Qsum (λ t, g (if bool_decide (t = a + n - 1) then a else t + 1)%Z - g t)
        (py_range a (a + n)) == 0)%Q.
Proof.
  destruct (decide (n ≤ 0)) as [Hn|Hn]; [by rewrite py_range_nil by lia|].
  rewrite py_range_snoc by lia. rewrite Qsum_app. simpl Qsum.
  rewrite bool_decide_eq_true_2 by lia.
  rewrite (Qsum_ext _ (λ t, g (t + 1)%Z - g t)%Q).
  - replace (a + n - 1) with (a + Z.of_nat (Z.to_nat (n - 1))) at 1 by lia.
    rewrite Qsum_telescope.
    replace (a + Z.of_nat (Z.to_nat (n - 1))) with (a + n - 1) by lia. ring.
  - intros t Ht. apply elem_of_py_range in Ht.
    rewrite bool_decide_eq_false_2 by lia. reflexivity.
Qed.

(** ** Balances over a day *)

Lemma commitment_tracking_step (model : Instance) (r : Resource) (t prev : Z)
    (cs : list (Resource * Z * constraint)) (v : var → Q) :
  r ∈ DISPATCHABLE_RESOURCES model → t ∈ TIMEPOINTS model →
  previous_timepoint model !! t = Some prev →
  Commitment_Tracking_Constraint model = Some cs → feasible v cs →
  (v ("Commit_Units", r, t) - v ("Commit_Units", r, prev)
   == v ("Start_Units", r, t) - v ("Shut_Down_Units", r, t))%string%Q.
Proof.
  intros Hr Ht Hp Hcs Hfeas.
  destruct (Constraint_rule_defined _ _ _ _ r t Hcs Hr Ht) as [res Hres].
  unfold dispatchable_resource_commitment_tracking_rule, Commit_Units, Start_Units,
    Shut_Down_Units in Hres.
  rewrite !(Var_Some _ _ _ r t Hr Ht) in Hres. simpl in Hres. rewrite Hp in Hres.
  simpl in Hres. rewrite (Var_resource _ _ _ r prev Hr) in Hres.
  destruct (bool_decide (prev ∈ TIMEPOINTS model)); [|done]. simpl in Hres.
  injection Hres as <-.
  assert (Hin : (r, t, CEq (EVar ("Commit_Units", r, t)%string)
                           (EVar ("Commit_Units", r, prev)%string
                            + EVar ("Start_Units", r, t)%string
                            - EVar ("Shut_Down_Units", r, t)%string)) ∈ cs).
  { apply (Constraint_elem_of _ _ _ _ _ _ _ Hcs). split; [done|]. split; [done|].
    unfold dispatchable_resource_commitment_tracking_rule, Commit_Units, Start_Units,
      Shut_Down_Units.
    rewrite !(Var_Some _ _ _ r t Hr Ht). simpl. rewrite Hp. simpl.
    rewrite (Var_resource _ _ _ r prev Hr).
    destruct (decide (prev ∈ TIMEPOINTS model)) as [Hin|Hout].
    - by rewrite (bool_decide_eq_true_2 _ Hin).
    - exfalso.
      destruct (Constraint_rule_defined _ _ _ _ r t Hcs Hr Ht) as [res Hres].
      unfold dispatchable_resource_commitment_tracking_rule, Commit_Units, Start_Units,
        Shut_Down_Units in Hres.
      rewrite !(Var_Some _ _ _ r t Hr Ht) in Hres. simpl in Hres. rewrite Hp in Hres.
      simpl in Hres. rewrite (Var_resource _ _ _ r prev Hr) in Hres.
      by rewrite (bool_decide_eq_false_2 _ Hout) in Hres. }
  apply Hfeas in Hin. simpl in Hin. lra.
Qed.

(** X5. Over a day made of consecutive timepoints, every valuation feasible
    for the commitment-tracking constraints starts as many units of a
    dispatchable resource as it shuts down: the committed units return to
    their value around the circle of the day. *)
Theorem daily_start_shutdown_balance (m : Model) (model : Instance) (r : Resource)
    (p d a n : Z) (cs : list (Resource * Z * constraint)) (v : var → Q) :
  create_instance m = Some model → r ∈ DISPATCHABLE_RESOURCES model →
  (∀ u, u ∈ timepoints_on_day model p d ↔ a ≤ u < a + n) →
  Commitment_Tracking_Constraint model = Some cs → feasible v cs →
  (Qsum (λ t, v ("Start_Units", r, t)%string) (py_range a (a + n))
   == Qsum (λ t, v ("Shut_Down_Units", r, t)%string) (py_range a (a + n)))%Q.
Proof.
  intros Hc Hr Hday Hcs Hfeas.
  assert (Hzero : (Qsum (λ t, v ("Start_Units", r, t)%string
                              - v ("Shut_Down_Units", r, t)%string) (py_range a (a + n))
                   == 0)%Q).
  { rewrite <- (Qsum_circular_previous (λ t, v ("Commit_Units", r, t)%string) a n).
    apply Qsum_ext. intros t Ht. apply elem_of_py_range in Ht.
    destruct (consecutive_day_neighbours m model p d a n t Hc Hday Ht) as (Htp & Hp & _).
    symmetry. exact (commitment_tracking_step model r t _ cs v Hr Htp Hp Hcs Hfeas). }
  rewrite Qsum_minus in Hzero. lra.
Qed.

Lemma Var_inv (index1 : list Resource) (index2 : list Z) (name : string)
    (r : Resource) (i : Z) (e : expr) :
  Var index1 index2 name r i = Some e →
  r ∈ index1 ∧ i ∈ index2 ∧ e = EVar (name, r, i).
Proof.
  unfold Var. destruct (decide (r ∈ index1)) as [Hr|Hr].
  - rewrite (bool_decide_eq_true_2 _ Hr). destruct (decide (i ∈ index2)) as [Hi|Hi].
    + rewrite (bool_decide_eq_true_2 _ Hi). simpl. intros [= <-]. done.
    + by rewrite (bool_decide_eq_false_2 _ Hi).
  - by rewrite (bool_decide_eq_false_2 _ Hr).
Qed.

Lemma commitment_tracking_rule_inv (model : Instance) (r : Resource) (t : Z)
    (res : rule_result) :
  dispatchable_resource_commitment_tracking_rule model r t = Some res →
  ∃ prev, previous_timepoint model !! t = Some prev ∧ prev ∈ TIMEPOINTS model ∧
    res = Emit (CEq (EVar ("Commit_Units", r, t)%string)
                    (EVar ("Commit_Units", r, prev)%string
                     + EVar ("Start_Units", r, t)%string
                     - EVar ("Shut_Down_Units", r, t)%string)).
Proof.
  unfold dispatchable_resource_commitment_tracking_rule, Commit_Units, Start_Units,
    Shut_Down_Units. intros Hres.
  destruct (Var _ _ "Commit_Units" r t) as [c|] eqn:Hc; [|done]. simpl in Hres.
  destruct (previous_timepoint model !! t) as [prev|]; [|done]. simpl in Hres.
  destruct (Var _ _ "Commit_Units" r prev) as [cp|] eqn:Hcp; [|done]. simpl in Hres.
  destruct (Var _ _ "Start_Units" r t) as [s|] eqn:Hs; [|done]. simpl in Hres.
  destruct (Var _ _ "Shut_Down_Units" r t) as [sd|] eqn:Hsd; [|done]. simpl in Hres.
  apply Var_inv in Hc as (_ & _ & ->). apply Var_inv in Hcp as (_ & Hprev & ->).
  apply Var_inv in Hs as (_ & _ & ->). apply Var_inv in Hsd as (_ & _ & ->).
  injection Hres as <-. exists prev. done.
Qed.

(** X6. In a constructed instance with a dispatchable resource the
    commitment-tracking constraints can be built exactly when every
    timepoint that is not the first of its day has its predecessor [t - 1]
    among the timepoints; with a gap inside a day the rule reads
    [Commit_Units] at a missing index and the construction fails. *)
Theorem commitment_tracking_constructed (m : Model) (model : Instance) :
  create_instance m = Some model → DISPATCHABLE_RESOURCES model ≠ [] →
  (is_Some (Commitment_Tracking_Constraint model) ↔
   ∀ t, t ∈ TIMEPOINTS model →
        first_timepoint_of_day model !! (period model t, day model t) ≠ Some t →
        t - 1 ∈ TIMEPOINTS model).
Proof.
  intros Hc Hne. split.
  - intros [cs Hcs] t Ht Hfirst.
    destruct (DISPATCHABLE_RESOURCES model) as [|r rs] eqn:Hd; [done|].
    assert (Hr : r ∈ DISPATCHABLE_RESOURCES model) by (rewrite Hd; left).
    unfold Commitment_Tracking_Constraint in Hcs.
    destruct (Constraint_rule_defined _ _ _ _ r t Hcs Hr Ht) as [res Hres].
    apply commitment_tracking_rule_inv in Hres as (prev & Hp & Hin & _).
    destruct (instance_neighbours m model t Hc Ht) as (f & l & Hf & _ & _ & _ & _ & Hp' & _).
    rewrite Hp in Hp'. injection Hp' as ->.
    rewrite bool_decide_eq_false_2 in Hin; [done|]. intros ->. done.
  - intros Hall. apply Constraint_is_Some. intros r t Hr Ht.
    destruct (instance_neighbours m model t Hc Ht)
      as (f & l & Hf & _ & _ & Hlin & _ & Hp & _).
    unfold dispatchable_resource_commitment_tracking_rule, Commit_Units, Start_Units,
      Shut_Down_Units.
    rewrite !(Var_Some _ _ _ r t Hr Ht). simpl. rewrite Hp. simpl.
    rewrite Var_Some; [by eexists|done|].
    case_bool_decide as Htf.
    + by apply elem_of_timepoints_on_day in Hlin as [? _].
    + apply Hall; [done|]. rewrite Hf. intros [= ->]. done.
Qed.

(** When the timepoints are the integers of an interval, the predecessor of
    a timepoint that is not the first of its day is a timepoint. *)
Lemma interval_predecessor (m : Model) (model : Instance) (lo hi t : Z) :
  create_instance m = Some model →
  (∀ u, u ∈ TIMEPOINTS model ↔ lo ≤ u < hi) → t ∈ TIMEPOINTS model →
  first_timepoint_of_day model !! (period model t, day model t) ≠ Some t →
  t - 1 ∈ TIMEPOINTS model.
Proof.
  intros Hc Hint Ht Hfirst.
  destruct (instance_neighbours m model t Hc Ht) as (f & l & Hf & _ & Hfin & _ & Hbnd & _).
  assert (f ≤ t ≤ l) by (apply Hbnd, elem_of_timepoints_on_day; done).
  assert (f ≠ t) by (intros ->; done).
  apply elem_of_timepoints_on_day in Hfin as [Hfin _].
  apply Hint in Hfin, Ht. apply Hint. lia.
Qed.

Lemma interval_commitment_constructed (m : Model) (model : Instance) (lo hi : Z) :
  create_instance m = Some model →
  (∀ u, u ∈ TIMEPOINTS model ↔ lo ≤ u < hi) →
  is_Some (Commitment_Tracking_Constraint model).
Proof.
  intros Hc Hint. apply Constraint_is_Some. intros r t Hr Ht.
  destruct (instance_neighbours m model t Hc Ht)
    as (f & l & Hf & _ & _ & Hlin & _ & Hp & _).
  unfold dispatchable_resource_commitment_tracking_rule, Commit_Units, Start_Units,
    Shut_Down_Units.
  rewrite !(Var_Some _ _ _ r t Hr Ht). simpl. rewrite Hp. simpl.
  rewrite Var_Some; [by eexists|done|].
  case_bool_decide as Htf.
  - by apply elem_of_timepoints_on_day in Hlin as [? _].
  - apply (interval_predecessor m model lo hi t Hc Hint Ht). rewrite Hf. intros [= ->]. done.
Qed.

(** The valuation that is zero everywhere satisfies the commitment-tracking
    constraints. *)
Lemma commitment_tracking_zero_feasible (model : Instance)
    (cs : list (Resource * Z * constraint)) :
  Commitment_Tracking_Constraint model = Some cs → feasible (λ _, 0%Q) cs.
Proof.
  intros Hcs [r t] c Hin. apply (Constraint_elem_of _ _ _ _ _ _ _ Hcs) in Hin as (_ & _ & Hrule).
  apply commitment_tracking_rule_inv in Hrule as (prev & _ & _ & Hres).
  injection Hres as ->. simpl. lra.
Qed.

Lemma example_timepoints (model : Instance) (u : Z) :
  create_instance example_model = Some model → u ∈ TIMEPOINTS model ↔ 1 ≤ u < 49.
Proof.
  intros Hc. destruct (example_instance_facts _ Hc) as (Hi & _).
  rewrite Hi. apply elem_of_py_range.
Qed.

Lemma example_first_day (model : Instance) (u : Z) :
  create_instance example_model = Some model →
  u ∈ timepoints_on_day model 2030 1 ↔ 1 ≤ u < 1 + 24.
Proof.
  intros Hc. destruct (example_instance_facts _ Hc) as (Hi & _).
  rewrite Hi, elem_of_timepoints_on_day. simpl. rewrite elem_of_py_range.
  case_bool_decide; lia.
Qed.

Lemma daily_start_shutdown_balance_witness :
  ∃ model cs, create_instance example_model = Some model ∧
    Commitment_Tracking_Constraint model = Some cs ∧ feasible (λ _, 0%Q) cs ∧
    (Qsum (λ t, (λ _ : var, 0%Q) ("Start_Units", "gas_ccgt", t)%string) (py_range 1 (1 + 24))
     == Qsum (λ t, (λ _ : var, 0%Q) ("Shut_Down_Units", "gas_ccgt", t)%string)
             (py_range 1 (1 + 24)))%Q.
Proof.
  destruct example_instance_is_Some as [model Hc].
  destruct (interval_commitment_constructed example_model model 1 49 Hc) as [cs Hcs].
  { intros u. exact (example_timepoints model u Hc). }
  exists model, cs. split; [exact Hc|]. split; [exact Hcs|].
  split; [exact (commitment_tracking_zero_feasible model cs Hcs)|].
  apply (daily_start_shutdown_balance example_model model "gas_ccgt" 2030 1 1 24 cs
           (λ _, 0%Q) Hc).
  - example_side Hc.
  - intros u. exact (example_first_day model u Hc).
  - exact Hcs.
  - exact (commitment_tracking_zero_feasible model cs Hcs).
Defined.

Lemma commitment_tracking_constructed_witness :
  ∃ model, create_instance example_model = Some model ∧
    is_Some (Commitment_Tracking_Constraint model).
Proof.
  destruct example_instance_is_Some as [model Hc].
  exists model. split; [exact Hc|].
  apply (commitment_tracking_constructed example_model model Hc).
  - example_side Hc.
  - intros t Ht. apply (interval_predecessor example_model model 1 49 t Hc); [|exact Ht].
    intros u. exact (example_timepoints model u Hc).
Defined.

Lemma storage_energy_tracking_rule_inv (model : Instance) (s : Resource) (t n : Z)
    (res : rule_result) :
  s ∈ STORAGE_RESOURCES model → t ∈ TIMEPOINTS model →
  next_timepoint model !! t = Some n →
  storage_energy_tracking_rule model s t = Some res →
  ∃ ch dis,
    storage_charging_mwh model s t = Some ch ∧
    storage_discharging_mwh model s t = Some dis ∧
    res = Emit (CEq (EVar ("Energy_in_Storage_MWh", s, n)%string)
                    (EVar ("Energy_in_Storage_MWh", s, t)%string
                     + ch * EConst (charging_efficiency model (technology model s))
                     - dis / EConst (discharging_efficiency model (technology model s)))) ∧
    ∀ v, (eval v ch == spec_charging model v s t)%Q ∧
         (eval v dis == spec_discharging model v s t)%Q.
Proof.
  intros Hs Ht Hn Hres.
  destruct (storage_charging_mwh_spec model s t Hs Ht) as (ch & Hch & Hchv).
  destruct (decide (s ∈ Provide_Power_MW_index model)) as [Hpp|Hpp].
  - destruct (storage_discharging_mwh_spec model s t Hpp Ht) as (dis & Hdis & Hdisv).
    exists ch, dis. split; [done|]. split; [done|]. split; [|by split].
    unfold storage_energy_tracking_rule in Hres. rewrite Hch, Hdis in Hres. simpl in Hres.
    rewrite Hn in Hres. simpl in Hres. unfold Energy_in_Storage_MWh in Hres.
    destruct (Var _ _ _ s n) as [en|] eqn:Hen; [|done]. simpl in Hres.
    destruct (Var _ _ _ s t) as [et|] eqn:Het; [|done]. simpl in Hres.
    apply Var_inv in Hen as (_ & _ & ->). apply Var_inv in Het as (_ & _ & ->).
    unfold div_by_param in Hres. destruct (Qeq_bool _ 0); [done|]. simpl in Hres.
    by injection Hres as <-.
  - unfold storage_energy_tracking_rule in Hres.
    rewrite Hch, (storage_discharging_mwh_None model s t Hpp) in Hres. done.
Qed.

(** X7. Over a day made of consecutive timepoints, under every valuation
    feasible for the storage energy-tracking constraints the net energy
    charged into a storage resource (charging times the charging efficiency
    minus discharging over the discharging efficiency) sums to zero: the
    energy in storage returns to its value around the circle of the day. *)
Theorem daily_storage_energy_neutral (m : Model) (model : Instance) (s : Resource)
    (p d a n : Z) (cs : list (Resource * Z * constraint)) (v : var → Q) :
  create_instance m = Some model → s ∈ STORAGE_RESOURCES model →
  (∀ u, u ∈ timepoints_on_day model p d ↔ a ≤ u < a + n) →
  Storage_Energy_Tracking_Constraint model = Some cs → feasible v cs →
  ∃ net : Z → Q,
    (∀ t, a ≤ t < a + n → storage_net_charge model v s t = Some (net t)) ∧
    (Qsum net (py_range a (a + n)) == 0)%Q.
Proof.
  intros Hc Hs Hday Hcs Hfeas.
  assert (Hstep : ∀ t, a ≤ t < a + n →
            ∃ q, storage_net_charge model v s t = Some q ∧
                 (v ("Energy_in_Storage_MWh", s,
                     if bool_decide (t = a + n - 1) then a else t + 1)%Z%string
                  - v ("Energy_in_Storage_MWh", s, t)%string == q)%Q).
  { intros t Ht.
    destruct (consecutive_day_neighbours m model p d a n t Hc Hday Ht) as (Htp & _ & Hn).
    destruct (Constraint_rule_defined _ _ _ _ s t Hcs Hs Htp) as [res Hres].
    destruct (storage_energy_tracking_rule_inv model s t _ res Hs Htp Hn Hres)
      as (ch & dis & Hch & Hdis & -> & _).
    unfold storage_net_charge. rewrite Hch, Hdis. simpl. eexists. split; [done|].
    assert (Hsat : sat v (CEq (EVar ("Energy_in_Storage_MWh", s,
                                     if bool_decide (t = a + n - 1) then a else t + 1)%string)
                    (EVar ("Energy_in_Storage_MWh", s, t)%string
                     + ch * EConst (charging_efficiency model (technology model s))
                     - dis / EConst (discharging_efficiency model (technology model s))))).
    { apply (Hfeas (s, t)). by apply (Constraint_elem_of _ _ _ _ _ _ _ Hcs). }
    simpl in Hsat. rewrite Hsat. ring. }
  exists (λ t, default 0%Q (storage_net_charge model v s t)). split.
  - intros t Ht. destruct (Hstep t Ht) as (q & -> & _). done.
  - rewrite <- (Qsum_circular_next (λ t, v ("Energy_in_Storage_MWh", s, t)%string) a n).
    apply Qsum_ext. intros t Ht. apply elem_of_py_range in Ht.
    destruct (Hstep t Ht) as (q & -> & Hq). simpl. symmetry. exact Hq.
Qed.

Lemma interval_successor (m : Model) (model : Instance) (lo hi t : Z) :
  create_instance m = Some model →
  (∀ u, u ∈ TIMEPOINTS model ↔ lo ≤ u < hi) → t ∈ TIMEPOINTS model →
  last_timepoint_of_day model !! (period model t, day model t) ≠ Some t →
  t + 1 ∈ TIMEPOINTS model.
Proof.
  intros Hc Hint Ht Hlast.
  destruct (instance_neighbours m model t Hc Ht) as (f & l & _ & Hl & _ & Hlin & Hbnd & _).
  assert (f ≤ t ≤ l) by (apply Hbnd, elem_of_timepoints_on_day; done).
  assert (l ≠ t) by (intros ->; done).
  apply elem_of_timepoints_on_day in Hlin as [Hlin _].
  apply Hint in Hlin, Ht. apply Hint. lia.
Qed.

Lemma interval_storage_constructed (m : Model) (model : Instance) (lo hi : Z) :
  create_instance m = Some model →
  (∀ u, u ∈ TIMEPOINTS model ↔ lo ≤ u < hi) →
  Forall (λ s, s ∈ Provide_Power_MW_index model ∧
               Qeq_bool (discharging_efficiency model (technology model s)) 0 = false)
         (STORAGE_RESOURCES model) →
  is_Some (Storage_Energy_Tracking_Constraint model).
Proof.
  intros Hc Hint Hall. apply Constraint_is_Some. intros s t Hs Ht.
  rewrite Forall_forall in Hall. destruct (Hall s Hs) as [Hpp Heff].
  destruct (instance_neighbours m model t Hc Ht)
    as (f & l & Hf & Hl & Hfin & _ & _ & _ & Hn).
  destruct (storage_energy_tracking_rule_eq model s t _ Hs Ht Hn)
    as [(_ & _ & _ & ch & dis & -> & _)|[Hnot _]]; [by eexists|].
  exfalso. apply Hnot. split; [done|]. split.
  - case_bool_decide as Htl.
    + by apply elem_of_timepoints_on_day in Hfin as [? _].
    + apply (interval_successor m model lo hi t Hc Hint Ht). rewrite Hl. intros [= ->]. done.
  - intros Hz. apply Qeq_bool_iff in Hz. congruence.
Qed.

Lemma storage_energy_tracking_zero_feasible (m : Model) (model : Instance)
    (cs : list (Resource * Z * constraint)) :
  create_instance m = Some model →
  Storage_Energy_Tracking_Constraint model = Some cs → feasible (λ _, 0%Q) cs.
Proof.
  intros Hc Hcs [s t] c Hin.
  apply (Constraint_elem_of _ _ _ _ _ _ _ Hcs) in Hin as (Hs & Ht & Hrule).
  destruct (instance_neighbours m model t Hc Ht) as (f & l & _ & _ & _ & _ & _ & _ & Hn).
  destruct (storage_energy_tracking_rule_inv model s t _ _ Hs Ht Hn Hrule)
    as (ch & dis & _ & _ & Hres & Hv).
  injection Hres as ->. destruct (Hv (λ _, 0%Q)) as [Hch Hdis]. simpl.
  assert (Hc0 : (spec_charging model (λ _, 0) s t == 0)%Q)
    by (unfold spec_charging; repeat case_bool_decide; ring).
  assert (Hd0 : (spec_discharging model (λ _, 0) s t == 0)%Q)
    by (unfold spec_discharging; repeat case_bool_decide; ring).
  rewrite Hch, Hdis, Hc0, Hd0. unfold Qdiv. ring.
Qed.

Lemma daily_storage_energy_neutral_witness :
  ∃ model cs, create_instance example_model = Some model ∧
    Storage_Energy_Tracking_Constraint model = Some cs ∧ feasible (λ _, 0%Q) cs ∧
    ∃ net : Z → Q,
      (∀ t, 1 ≤ t < 1 + 24 → storage_net_charge model (λ _, 0%Q) "battery" t = Some (net t)) ∧
      (Qsum net (py_range 1 (1 + 24)) == 0)%Q.
Proof.
  destruct example_instance_is_Some as [model Hc].
  destruct (interval_storage_constructed example_model model 1 49 Hc) as [cs Hcs].
  { intros u. exact (example_timepoints model u Hc). }
  { example_side Hc. }
  exists model, cs. split; [exact Hc|]. split; [exact Hcs|].
  split; [exact (storage_energy_tracking_zero_feasible example_model model cs Hc Hcs)|].
  apply (daily_storage_energy_neutral example_model model "battery" 2030 1 1 24 cs
           (λ _, 0%Q) Hc).
  - example_side Hc.
  - intros u. exact (example_first_day model u Hc).
  - exact Hcs.
  - exact (storage_energy_tracking_zero_feasible example_model model cs Hc Hcs).
Defined.

(** ** Planned capacity *)

Lemma pyomo_Param_data_inv `{Countable K} (index : list K) (domain : Q → bool)
    (ok : Q → K → option bool) (data cap : gmap K Q) :
  pyomo_Param_data index domain ok data = Some cap →
  cap = data ∧
  ∀ k v, data !! k = Some v → k ∈ index ∧ domain v = true ∧ ok v k = Some true.
Proof.
  unfold pyomo_Param_data. destruct (forallb _ _) eqn:Hall; [|done]. intros [= <-].
  split; [done|]. intros k v Hkv. rewrite forallb_forall in Hall.
  specialize (Hall (k, v)). rewrite <- list_elem_of_In, elem_of_map_to_list in Hall.
  specialize (Hall Hkv). simpl in Hall.
  apply andb_true_iff in Hall as [Hall Hok]. apply andb_true_iff in Hall as [Hin Hdom].
  apply bool_decide_eq_true in Hin, Hok. done.
Qed.

Lemma pyomo_Param_data_Some `{Countable K} (index : list K) (domain : Q → bool)
    (ok : Q → K → option bool) (data : gmap K Q) :
  (∀ k v, data !! k = Some v → k ∈ index ∧ domain v = true ∧ ok v k = Some true) →
  pyomo_Param_data index domain ok data = Some data.
Proof.
  intros Hall. unfold pyomo_Param_data.
  rewrite (proj2 (forallb_forall _ _)); [done|].
  intros [k v] Hkv. rewrite <- list_elem_of_In, elem_of_map_to_list in Hkv.
  destruct (Hall k v Hkv) as (Hin & Hdom & Hok). simpl.
  rewrite Hdom, !bool_decide_eq_true_2; done.
Qed.

Lemma elem_of_capacity_index (model : Instance) (r : Resource) (p : Z) :
  (r, p) ∈ capacity_index model ↔ r ∈ RESOURCES_WITH_MW_CAPACITY model ∧ p ∈ PERIODS model.
Proof. apply elem_of_index. Qed.

Lemma filter_none {A} (f : A → bool) (l : list A) :
  (∀ x, x ∈ l → f x = false) → List.filter f l = [].
Proof.
  induction l as [|x l IH]; intros Hf; simpl; [done|].
  rewrite (Hf x) by left. apply IH. intros y Hy. apply Hf. by right.
Qed.

Lemma periods_sorted (m : Model) (model : Instance) :
  create_instance m = Some model → StronglySorted Z.lt (PERIODS model).
Proof.
  intros Hc. apply create_instance_inv in Hc as (_ & Hb & _).
  apply build_temporal_index_inv in Hb as (-> & _). apply sorted_unique_StronglySorted.
Qed.

Ltac example_eval Hc :=
  let Hi := fresh in let Hth := fresh in let Hp := fresh in let Hfp := fresh in
  destruct (example_instance_facts _ Hc) as (Hi & Hth & Hp & Hfp);
  match goal with
  | model : Instance |- _ =>
      destruct model as [? [? ? ? ? ? ? ?] ? ? ?]; simpl in Hi, Hth, Hp, Hfp; subst;
      vm_compute; reflexivity
  end.

Lemma example_planned_capacity_valid (model : Instance) :
  create_instance example_model = Some model →
  planned_installed_capacity_mw model example_planned_capacity
  = Some example_planned_capacity.
Proof.
  intros Hc. unfold planned_installed_capacity_mw, pyomo_Param_data.
  match goal with
  | |- (if ?b then _ else _) = _ => assert (b = true) as -> by example_eval Hc
  end.
  reflexivity.
Qed.

Lemma can_retire_not_deliverability (m : Model) (model : Instance) (r : Resource) :
  create_instance m = Some model → r ∈ TX_DELIVERABILITY_RESOURCES model →
  r ∉ CAN_RETIRE_RESOURCES model.
Proof.
  intros Hc Htx Hcr. apply create_instance_inv in Hc as (_ & _ & _ & Hset & _).
  apply (pyomo_Set_Some _ _ _ _ r Hset) in Hcr as (_ & _ & Hok).
  unfold can_retire_resources_validation_rule in Hok.
  case_bool_decide as Hdom; [|done].
  apply elem_of_can_retire_domain in Hdom as (_ & _ & Hntx). done.
Qed.

(** X9. When the planned capacities and the minimum operational planned
    capacities pass their validation, every bound minimum is non-negative
    and not above the planned capacity of the same resource and period; it
    is zero for a resource that cannot retire and for a deliverability
    resource, whose planned capacity is zero as well; and for a resource
    that can retire the planned capacity of the period is bound. *)
Theorem planned_capacity_inputs_validated (m : Model) (model : Instance)
    (data data' cap minop : gmap (Resource * Z) Q) :
  create_instance m = Some model →
  planned_installed_capacity_mw model data = Some cap →
  min_operational_planned_capacity_mw model cap data' = Some minop →
  ∀ r p mo, minop !! (r, p) = Some mo →
    r ∈ RESOURCES_WITH_MW_CAPACITY model ∧ p ∈ PERIODS model ∧ (0 <= mo)%Q ∧
    (r ∉ CAN_RETIRE_RESOURCES model → (mo == 0)%Q) ∧
    (r ∈ TX_DELIVERABILITY_RESOURCES model → (mo == 0)%Q) ∧
    (r ∈ CAN_RETIRE_RESOURCES model → is_Some (cap !! (r, p))) ∧
    (∀ c, cap !! (r, p) = Some c →
          (mo <= c)%Q ∧ (r ∈ TX_DELIVERABILITY_RESOURCES model → (c == 0)%Q)).
Proof.
  intros Hc Hcap Hmin r p mo Hmo.
  apply pyomo_Param_data_inv in Hcap as [-> Hvc].
  apply pyomo_Param_data_inv in Hmin as [-> Hvm].
  destruct (Hvm _ _ Hmo) as (Hk & Hdom & Hok). simpl in Hok.
  apply elem_of_capacity_index in Hk as [Hr Hp]. apply Qle_bool_iff in Hdom.
  unfold min_operational_planned_capacity_validate in Hok.
  assert (Hnot : r ∉ CAN_RETIRE_RESOURCES model → (mo == 0)%Q).
  { intros Hn. rewrite (bool_decide_eq_false_2 _ Hn) in Hok. simpl in Hok.
    injection Hok as Hok. by apply Qeq_bool_iff in Hok. }
  split; [done|]. split; [done|]. split; [done|]. split; [done|]. split; [|split].
  - intros Htx. apply Hnot. by apply (can_retire_not_deliverability m).
  - intros Hcr. rewrite (bool_decide_eq_true_2 _ Hcr) in Hok. simpl in Hok.
    destruct (data !! (r, p)); [by eexists|done].
  - intros c Hcp. destruct (Hvc _ _ Hcp) as (_ & Hcdom & Hcok).
    apply Qle_bool_iff in Hcdom. split.
    + destruct (decide (r ∈ CAN_RETIRE_RESOURCES model)) as [Hcr|Hcr].
      * rewrite (bool_decide_eq_true_2 _ Hcr), Hcp in Hok. simpl in Hok.
        injection Hok as Hok. by apply Qle_bool_iff in Hok.
      * rewrite (Hnot Hcr). done.
    + intros Htx. simpl in Hcok. unfold planned_installed_capacity_validate in Hcok.
      rewrite (bool_decide_eq_true_2 _ Htx) in Hcok. simpl in Hcok.
      injection Hcok as Hcok. by apply Qeq_bool_iff in Hcok.
Qed.

Lemma pyomo_Set_filter {A} (init : list A) (f ok : A → bool) (l : list A) :
  pyomo_Set init f ok = Some l → l = List.filter f init.
Proof. unfold pyomo_Set. destruct (forallb _ _); [|done]. by intros [= <-]. Qed.

Lemma example_can_retire (model : Instance) :
  create_instance example_model = Some model →
  CAN_RETIRE_RESOURCES model = ["gas_ccgt"%string].
Proof.
  intros Hc. apply create_instance_inv in Hc as (_ & _ & _ & Hcr & _).
  apply pyomo_Set_filter in Hcr. rewrite Hcr. reflexivity.
Qed.

Lemma example_min_operational_valid (model : Instance) :
  create_instance example_model = Some model →
  min_operational_planned_capacity_mw model example_planned_capacity example_min_operational
  = Some example_min_operational.
Proof.
  intros Hc. pose proof (example_can_retire model Hc) as Hcr.
  destruct (example_instance_facts _ Hc) as (Hi & Hth & Hp & Hfp).
  unfold min_operational_planned_capacity_mw, pyomo_Param_data.
  match goal with
  | |- (if ?b then _ else _) = _ => assert (b = true) as ->; [|reflexivity]
  end.
  unfold min_operational_planned_capacity_validate.
  destruct model as [? [? ? ? ? ? ? ?] ? ? ?]. simpl in Hi, Hth, Hp, Hfp, Hcr. subst.
  vm_compute. reflexivity.
Qed.

Lemma planned_capacity_inputs_validated_witness :
  ∃ model, create_instance example_model = Some model ∧
    planned_installed_capacity_mw model example_planned_capacity
      = Some example_planned_capacity ∧
    min_operational_planned_capacity_mw model example_planned_capacity
      example_min_operational = Some example_min_operational ∧
    (100 <= 300)%Q.
Proof.
  destruct example_instance_is_Some as [model Hc].
  pose proof (example_planned_capacity_valid model Hc) as Hcap.
  pose proof (example_min_operational_valid model Hc) as Hmin.
  exists model. split; [exact Hc|]. split; [exact Hcap|]. split; [exact Hmin|].
  assert (Hm : example_min_operational !! ("gas_ccgt"%string, 2040) = Some 100%Q)
    by (vm_compute; reflexivity).
  assert (Hl : example_planned_capacity !! ("gas_ccgt"%string, 2040) = Some 300%Q)
    by (vm_compute; reflexivity).
  destruct (planned_capacity_inputs_validated example_model model example_planned_capacity
              example_min_operational example_planned_capacity example_min_operational
              Hc Hcap Hmin "gas_ccgt"%string 2040 100%Q Hm)
    as (_ & _ & _ & _ & _ & _ & Hle).
  exact (proj1 (Hle 300%Q Hl)).
Defined.

(** ** Thermal resources *)

(** X10. In a constructed instance every thermal resource is either
    dispatchable or generating at maximum output, never both and never
    neither, and no dispatchable resource generates at maximum output.  When
    a thermal resource of the data carries both flags or none, the
    construction of the instance fails. *)
Theorem thermal_resources_partition (m : Model) :
  (∀ model r, create_instance m = Some model →
     (r ∈ THERMAL_RESOURCES model →
      (r ∈ DISPATCHABLE_RESOURCES model ↔ r ∉ GENERATE_AT_MAX_RESOURCES model)) ∧
     (r ∈ DISPATCHABLE_RESOURCES model → r ∉ GENERATE_AT_MAX_RESOURCES model)) ∧
  (∀ r, r ∈ RESOURCES m → thermal m (technology m r) = true →
     dispatchable m (technology m r) = generate_at_max m (technology m r) →
     create_instance m = None).
Proof.
  assert (Hgood : ∀ model r, create_instance m = Some model → r ∈ THERMAL_RESOURCES model →
            r ∈ RESOURCES m ∧
            dispatchable m (technology m r) ≠ generate_at_max m (technology m r)).
  { intros model r Hc Hr. apply create_instance_inv in Hc as (Hi & _ & Hth & _).
    apply (pyomo_Set_Some _ _ _ _ r Hth) in Hr as (Hin & _ & Hok). split; [done|].
    unfold THERMAL_RESOURCES_validate in Hok. rewrite Hi in Hok.
    apply bool_decide_eq_true in Hok.
    destruct (dispatchable m _), (generate_at_max m _); simpl in Hok; lia || done. }
  assert (Hsets : ∀ model r, create_instance m = Some model → r ∈ THERMAL_RESOURCES model →
            (r ∈ DISPATCHABLE_RESOURCES model ↔ dispatchable m (technology m r) = true) ∧
            (r ∈ GENERATE_AT_MAX_RESOURCES model ↔ generate_at_max m (technology m r) = true)).
  { intros model r Hc Hr. destruct (Hgood model r Hc Hr) as [Hin _].
    apply create_instance_inv in Hc as (Hi & _).
    unfold DISPATCHABLE_RESOURCES, GENERATE_AT_MAX_RESOURCES.
    rewrite !elem_of_filter_list, Hi. tauto. }
  split.
  - intros model r Hc.
    assert (Hpart : r ∈ THERMAL_RESOURCES model →
              (r ∈ DISPATCHABLE_RESOURCES model ↔ r ∉ GENERATE_AT_MAX_RESOURCES model)).
    { intros Hr. destruct (Hsets model r Hc Hr) as [-> ->].
      destruct (Hgood model r Hc Hr) as [_ Hne].
      destruct (dispatchable m _), (generate_at_max m _); split; congruence. }
    split; [exact Hpart|]. intros Hd. apply Hpart; [|done].
    unfold DISPATCHABLE_RESOURCES in Hd. apply elem_of_filter_list in Hd. tauto.
  - intros r Hr Hth Heq. destruct (create_instance m) as [model|] eqn:Hc; [|done].
    exfalso. pose proof (create_instance_inv _ _ Hc) as (Hi & _ & Hset & _).
    assert (Hin : r ∈ THERMAL_RESOURCES model).
    { destruct (THERMAL_RESOURCES_validate model r) eqn:Hok.
      - apply (pyomo_Set_Some _ _ _ _ r Hset). unfold THERMAL_RESOURCES_filter.
        rewrite Hi. done.
      - rewrite (pyomo_Set_None _ _ _ r Hr) in Hset; [done| |done].
        unfold THERMAL_RESOURCES_filter. by rewrite Hi. }
    destruct (Hgood model r eq_refl Hin) as [_ Hne]. done.
Qed.

Lemma thermal_resources_partition_witness :
  (∃ model, create_instance example_model = Some model ∧
            ("gas_peaker"%string ∉ GENERATE_AT_MAX_RESOURCES model)) ∧
  create_instance must_run_gas_model = None.
Proof.
  split.
  - destruct example_instance_is_Some as [model Hc].
    exists model. split; [exact Hc|].
    destruct (thermal_resources_partition example_model) as [Hgood _].
    apply (Hgood model "gas_peaker"%string Hc). example_side Hc.
  - destruct (thermal_resources_partition must_run_gas_model) as [_ Hbad].
    apply (Hbad "gas_st"%string); [by_compute|reflexivity|reflexivity].
Defined.

(** ** Imports on transmission *)

Lemma elem_of_PRM_NQC_RESOURCES (model : Instance) (r : Resource) :
  r ∈ PRM_NQC_RESOURCES model ↔
  r ∈ PRM_FIRM_CAPACITY_RESOURCES model ∨
  (r ∈ PRM_RESOURCES model ∧ r ∈ STORAGE_RESOURCES model ∧
   (r ∉ PRM_FIRM_CAPACITY_RESOURCES model)).
Proof.
  unfold PRM_NQC_RESOURCES, PRM_STORAGE_RESOURCES, set_or, set_and, set_sub.
  rewrite elem_of_app, list_elem_of_difference, list_elem_of_intersection,
    list_elem_of_difference. tauto.
Qed.

(** X11. In a constructed instance a deliverability resource is imported on
    existing or on new transmission but never on both; a resource that is
    imported is counted under no other representation of the planning
    reserve margin: it is no PRM variable renewable, has no net qualifying
    capacity, is no storage resource and no efficiency program.  When a
    deliverability resource of the data carries both import flags, the
    construction of the instance fails. *)
Theorem imported_resources_exclusive (m : Model) :
  (∀ model r, create_instance m = Some model →
     r ∈ TX_DELIVERABILITY_RESOURCES model →
     import_on_existing_tx m r = true ∨ import_on_new_tx m r = true →
     import_on_existing_tx m r ≠ import_on_new_tx m r ∧
     (r ∉ PRM_VARIABLE_RENEWABLE_RESOURCES model) ∧ (r ∉ PRM_NQC_RESOURCES model) ∧
     (r ∉ STORAGE_RESOURCES model) ∧ (r ∉ EE_PROGRAMS model)) ∧
  (∀ r, r ∈ TX_DELIVERABILITY_RESOURCES (unbuilt m) →
     import_on_existing_tx m r = true → import_on_new_tx m r = true →
     create_instance m = None).
Proof.
  assert (Hcount : ∀ model r, create_instance m = Some model →
            r ∈ TX_DELIVERABILITY_RESOURCES model →
            planning_reserve_margin_resource_membership_init model r = 1).
  { intros model r Hc Hr. apply create_instance_inv in Hc as (_ & _ & _ & _ & Hpm).
    apply elem_of_TX_DELIVERABILITY_RESOURCES in Hr as (_ & _ & Hprm).
    destruct (pyomo_Param_validate_Some _ _ _ _ _ Hpm Hprm) as [Hok _].
    unfold planning_reserve_margin_resource_membership_validate in Hok.
    by apply bool_decide_eq_true in Hok. }
  split.
  - intros model r Hc Hr Himp. pose proof (Hcount model r Hc Hr) as Hone.
    pose proof (create_instance_inv _ _ Hc) as (Hi & _).
    unfold planning_reserve_margin_resource_membership_init in Hone.
    rewrite (bool_decide_eq_true_2 _ Hr), Hi in Hone.
    assert (Hvar : r ∉ PRM_VARIABLE_RENEWABLE_RESOURCES model).
    { unfold PRM_VARIABLE_RENEWABLE_RESOURCES, prm_variable_renewable_resources_init.
      rewrite elem_of_filter_list, (bool_decide_eq_true_2 _ Hr), Hi. simpl.
      intros [_ Hf]. destruct (bool_decide (r ∈ VARIABLE_RESOURCES model)); [|done].
      destruct Himp as [He|Hn]; rewrite ?He, ?Hn in Hf; simpl in Hf;
        [by rewrite andb_false_r in Hf|done]. }
    rewrite (bool_decide_eq_false_2 _ Hvar) in Hone.
    assert (Hfirm : r ∉ PRM_FIRM_CAPACITY_RESOURCES model).
    { unfold PRM_FIRM_CAPACITY_RESOURCES, prm_firm_capacity_resources_init.
      rewrite elem_of_filter_list, (bool_decide_eq_true_2 _ Hr), Hi. simpl.
      intros [_ Hf]. destruct (firm_capacity m (technology m r)); [|done].
      destruct Himp as [He|Hn]; rewrite ?He, ?Hn in Hf; simpl in Hf;
        [by rewrite andb_false_r in Hf|done]. }
    assert (Hnqc : r ∉ PRM_NQC_RESOURCES model).
    { intros Hin. rewrite (bool_decide_eq_true_2 _ Hin) in Hone.
      destruct (bool_decide (r ∈ EE_PROGRAMS model));
        destruct (import_on_existing_tx m r), (import_on_new_tx m r);
        destruct Himp; try done; lia. }
    rewrite (bool_decide_eq_false_2 _ Hnqc) in Hone.
    split; [|split; [done|split; [done|split]]].
    + destruct (bool_decide (r ∈ EE_PROGRAMS model));
        destruct (import_on_existing_tx m r), (import_on_new_tx m r);
        destruct Himp; try done; lia.
    + intros Hst. apply Hnqc, elem_of_PRM_NQC_RESOURCES. right.
      apply elem_of_TX_DELIVERABILITY_RESOURCES in Hr as (_ & _ & Hprm). done.
    + intros Hee. rewrite (bool_decide_eq_true_2 _ Hee) in Hone.
      destruct (import_on_existing_tx m r), (import_on_new_tx m r);
        destruct Himp; try done; lia.
  - intros r Hr He Hn. destruct (create_instance m) as [model|] eqn:Hc; [|done].
    exfalso. pose proof (create_instance_inv _ _ Hc) as (Hi & _).
    destruct (same_inputs_sets model m r Hi) as (_ & _ & Htx & _).
    rewrite <- Htx in Hr. pose proof (Hcount model r eq_refl Hr) as Hone.
    unfold planning_reserve_margin_resource_membership_init in Hone.
    rewrite (bool_decide_eq_true_2 _ Hr), Hi, He, Hn in Hone.
    destruct (bool_decide (r ∈ PRM_NQC_RESOURCES model));
      destruct (bool_decide (r ∈ PRM_VARIABLE_RENEWABLE_RESOURCES model));
      destruct (bool_decide (r ∈ EE_PROGRAMS model));
      destruct (elcc_solar_bin m r), (elcc_wind_bin m r); lia.
Qed.

Lemma imported_resources_exclusive_witness :
  (∃ model, create_instance imported_solar_model = Some model ∧
            ("solar_new"%string ∉ PRM_VARIABLE_RENEWABLE_RESOURCES model)) ∧
  create_instance double_import_model = None.
Proof.
  split.
  - assert (Hs : is_Some (create_instance imported_solar_model))
      by (vm_compute; eexists; reflexivity).
    destruct Hs as [model Hc]. exists model. split; [exact Hc|].
    pose proof (create_instance_inv _ _ Hc) as (Hi & _).
    destruct (imported_resources_exclusive imported_solar_model) as [Hgood _].
    destruct (Hgood model "solar_new"%string Hc) as (_ & Hvar & _).
    + destruct model as [inp ? ? ? ?]. simpl in Hi. subst inp. by_compute.
    + left. reflexivity.
    + exact Hvar.
  - destruct (imported_resources_exclusive double_import_model) as [_ Hbad].
    apply (Hbad "solar_new"%string); [by_compute|reflexivity|reflexivity].
Defined.

(** ** Transmission *)

(** X12. The absolute directions of the lines of the simultaneous flow
    groups can be constructed exactly when every such line has a direction
    and that direction is 1 or -1; every constructed value is 1. *)
Theorem direction_plus_or_minus_one (model : Transmission) :
  (is_Some (direction_abs model) ↔
   ∀ k, k ∈ SIMULTANEOUS_FLOW_GROUP_LINES model →
        direction model !! k = Some 1 ∨ direction model !! k = Some (-1)) ∧
  (∀ g k, direction_abs model = Some g → k ∈ SIMULTANEOUS_FLOW_GROUP_LINES model →
          g !! k = Some 1).
Proof.
  assert (Hrule : ∀ k a,
            (a' ← direction_abs_init model k.1 k.2;
             if direction_validate model a' k.1 k.2 then Some a' else None) = Some a ↔
            a = 1 ∧ (direction model !! k = Some 1 ∨ direction model !! k = Some (-1))).
  { intros [sfg line] a. unfold direction_abs_init, direction_validate. simpl.
    destruct (direction model !! (sfg, line)) as [d|]; simpl.
    - case_bool_decide as Habs.
      + split.
        * intros [= <-]. split; [done|]. destruct (Z.abs_spec d) as [[_ Hd]|[_ Hd]].
          -- left. f_equal. lia.
          -- right. f_equal. lia.
        * intros [-> _]. by rewrite Habs.
      + split; [done|]. intros [_ [[= ->]|[= ->]]]; done.
    - split; [done|]. intros [_ [?|?]]; done. }
  split.
  - split.
    + intros [g Hg] k Hk. destruct (pyomo_Param_lookup _ _ _ _ Hg Hk) as (a & Ha & _).
      by apply Hrule in Ha as [_ ?].
    + intros Hall. apply pyomo_Param_is_Some. intros k Hk. exists 1.
      apply Hrule. split; [done|]. by apply Hall.
  - intros g k Hg Hk. destruct (pyomo_Param_lookup _ _ _ _ Hg Hk) as (a & Ha & Hl).
    apply Hrule in Ha as [-> _]. done.
Qed.

Lemma direction_plus_or_minus_one_witness :
  ∃ g, direction_abs example_transmission = Some g ∧
       g !! ("imports", "CA_to_NW")%string = Some 1.
Proof.
  destruct (direction_plus_or_minus_one example_transmission) as [Hiff Hval].
  destruct (proj2 Hiff) as [g Hg].
  - intros k Hk. repeat (apply elem_of_cons in Hk as [->|Hk]).
    + right. vm_compute. reflexivity.
    + left. vm_compute. reflexivity.
    + by apply elem_of_nil in Hk.
  - exists g. split; [exact Hg|]. apply (Hval g _ Hg). by_compute.
Defined.

(** X13. A transmission line is covered under the greenhouse-gas target
    exactly when one of its two ends, and only one, lies in a zone under the
    target: lines inside the target area and lines outside of it are left
    out.  The lines are kept in the order of TRANSMISSION_LINES. *)
Theorem ghg_target_lines_cross_border (model : Transmission) :
  (∀ line, line ∈ transmission_lines_ghg_target_init model ↔
           line ∈ TRANSMISSION_LINES model ∧
           (transmission_to model line ∈ GHG_TARGET_ZONES model ↔
            transmission_from model line ∉ GHG_TARGET_ZONES model)) ∧
  transmission_lines_ghg_target_init model `sublist_of` TRANSMISSION_LINES model.
Proof.
  unfold transmission_lines_ghg_target_init. split.
  - intros line. rewrite list_elem_of_bind. split.
    + intros (l & Hin & Hl).
      destruct (decide (transmission_to model l ∈ GHG_TARGET_ZONES model)) as [Ht|Ht];
        destruct (decide (transmission_from model l ∈ GHG_TARGET_ZONES model)) as [Hf|Hf];
        rewrite ?(bool_decide_eq_true_2 _ Ht), ?(bool_decide_eq_false_2 _ Ht),
          ?(bool_decide_eq_true_2 _ Hf), ?(bool_decide_eq_false_2 _ Hf) in Hin;
        simpl in Hin; try (by apply elem_of_nil in Hin);
        apply list_elem_of_singleton in Hin as ->; tauto.
    + intros [Hl Hx]. exists line. split; [|done].
      destruct (decide (transmission_to model line ∈ GHG_TARGET_ZONES model)) as [Ht|Ht];
        destruct (decide (transmission_from model line ∈ GHG_TARGET_ZONES model)) as [Hf|Hf];
        rewrite ?(bool_decide_eq_true_2 _ Ht), ?(bool_decide_eq_false_2 _ Ht),
          ?(bool_decide_eq_true_2 _ Hf), ?(bool_decide_eq_false_2 _ Hf);
        simpl; try (by left); tauto.
  - induction (TRANSMISSION_LINES model) as [|l ls IH]; simpl; [constructor|].
    destruct (negb _); [destruct (_ || _)|]; simpl.
    + by constructor.
    + by constructor.
    + by constructor.
Qed.

(** ** Banking of renewable credits *)

(** X14. When the starting bank and the planned spending of the bank pass
    their validation, both are non-negative and at most one of them is in
    use: without optimised banking the starting bank is zero, with optimised
    banking every planned spend is zero. *)
Theorem rps_bank_inputs_exclusive (periods : list Z) (model : RpsBanking)
    (bank : gmap () Q) (spend : gmap Z Q) :
  starting_rps_bank_mwh model = Some bank →
  rps_bank_planned_spend_mwh periods model = Some spend →
  ∀ b p x, bank !! () = Some b → spend !! p = Some x →
    (0 <= b)%Q ∧ (0 <= x)%Q ∧ p ∈ periods ∧
    (optimize_rps_banking model = false → (b == 0)%Q) ∧
    (optimize_rps_banking model = true → (x == 0)%Q) ∧
    ((b == 0)%Q ∨ (x == 0)%Q).
Proof.
  intros Hbank Hspend b p x Hb Hx.
  apply pyomo_Param_data_inv in Hbank as [-> Hvb].
  apply pyomo_Param_data_inv in Hspend as [-> Hvs].
  destruct (Hvb _ _ Hb) as (_ & Hb0 & Hbok). destruct (Hvs _ _ Hx) as (Hp & Hx0 & Hxok).
  apply Qle_bool_iff in Hb0, Hx0. injection Hbok as Hbok. injection Hxok as Hxok.
  unfold rps_starting_input_validate in Hbok. unfold rps_planned_spend_input_validate in Hxok.
  destruct (optimize_rps_banking model); simpl in Hbok, Hxok.
  - apply Qeq_bool_iff in Hxok. repeat split; try done. by right.
  - apply Qeq_bool_iff in Hbok. repeat split; try done. by left.
Qed.

Lemma rps_bank_inputs_exclusive_witness :
  starting_rps_bank_mwh example_banking = Some (starting_rps_bank_mwh_data example_banking) ∧
  rps_bank_planned_spend_mwh [2030; 2040] example_banking
    = Some (rps_bank_planned_spend_mwh_data example_banking) ∧
  (0 == 0)%Q.
Proof.
  assert (Hbank : starting_rps_bank_mwh example_banking
                  = Some (starting_rps_bank_mwh_data example_banking)).
  { unfold starting_rps_bank_mwh, pyomo_Param_data.
    match goal with
    | |- (if ?b then _ else _) = _ => assert (b = true) as -> by (vm_compute; reflexivity)
    end. reflexivity. }
  assert (Hspend : rps_bank_planned_spend_mwh [2030; 2040] example_banking
                   = Some (rps_bank_planned_spend_mwh_data example_banking)).
  { unfold rps_bank_planned_spend_mwh, pyomo_Param_data.
    match goal with
    | |- (if ?b then _ else _) = _ => assert (b = true) as -> by (vm_compute; reflexivity)
    end. reflexivity. }
  split; [exact Hbank|]. split; [exact Hspend|].
  assert (Hb : starting_rps_bank_mwh_data example_banking !! () = Some 1000%Q)
    by (vm_compute; reflexivity).
  assert (Hx : rps_bank_planned_spend_mwh_data example_banking !! 2040 = Some 0%Q)
    by (vm_compute; reflexivity).
  destruct (rps_bank_inputs_exclusive [2030; 2040] example_banking _ _ Hbank Hspend
              1000%Q 2040 0%Q Hb Hx) as (_ & _ & _ & _ & Hopt & _).
  apply Hopt. reflexivity.
Defined.

(** ** New capacity *)

Lemma cumulative_variable_fold (component : Z → option expr) (name : string) (r : Resource)
    (period : Z) (l : list Z) (acc : expr) :
  (∀ q, q ∈ l → component q = Some (EVar (name, r, q))) →
  ∃ e, foldl (λ acc p,
                cumulative ← acc;
                if bool_decide (p ≤ period) then
                  x ← component p; Some (cumulative + x)%E
                else Some cumulative)
             (Some acc) l = Some e ∧
       ∀ v, (eval v e == eval v acc
                         + Qsum (λ q, v (name, r, q))
                                (List.filter (λ q, bool_decide (q ≤ period)) l))%Q.
Proof.
  revert acc. induction l as [|q l IH]; intros acc Hl; simpl.
  - exists acc. split; [done|]. intros v. ring.
  - assert (Hl' : ∀ q', q' ∈ l → component q' = Some (EVar (name, r, q')))
      by (intros q' Hq'; apply Hl; by right).
    destruct (bool_decide (q ≤ period)).
    + rewrite (Hl q) by left. simpl.
      destruct (IH (acc + EVar (name, r, q))%E Hl') as (e & He & Hv).
      exists e. split; [done|]. intros v. rewrite Hv. simpl. ring.
    + destruct (IH acc Hl') as (e & He & Hv). exists e. done.
Qed.

Lemma filter_le_split (l : list Z) (p : Z) :
  StronglySorted Z.lt l → p ∈ l →
  List.filter (λ q, bool_decide (q ≤ p)) l
  = List.filter (λ q, bool_decide (q < p)) l ++ [p].
Proof.
  induction 1 as [|x l Hs IH Hall]; intros Hp; [by apply elem_of_nil in Hp|].
  rewrite Forall_forall in Hall. simpl.
  apply elem_of_cons in Hp as [->|Hp].
  - rewrite bool_decide_eq_true_2 by lia. rewrite bool_decide_eq_false_2 by lia.
    rewrite !filter_none; [done|..]; intros y Hy; apply bool_decide_eq_false_2;
      specialize (Hall y Hy); lia.
  - specialize (Hall p Hp). rewrite !bool_decide_eq_true_2 by lia. simpl.
    by rewrite IH.
Qed.

Lemma filter_lt_previous (l : list Z) (p q : Z) :
  q ∈ l → q < p → (∀ q', q' ∈ l → q' < p → q' ≤ q) →
  List.filter (λ x, bool_decide (x < p)) l = List.filter (λ x, bool_decide (x ≤ q)) l.
Proof.
  intros Hq Hlt Hmax. apply filter_ext_in. intros x Hx. apply list_elem_of_In in Hx.
  destruct (decide (x < p)) as [Hxp|Hxp].
  - rewrite !bool_decide_eq_true_2; [done| |done]. by apply Hmax.
  - rewrite !bool_decide_eq_false_2; [done| |done]. lia.
Qed.

Lemma Qsum_filter_le_mono (f : Z → Q) (l : list Z) (p' p : Z) :
  p' ≤ p → (∀ q, q ∈ l → (0 <= f q)%Q) →
  (Qsum f (List.filter (λ q, bool_decide (q ≤ p')) l)
   <= Qsum f (List.filter (λ q, bool_decide (q ≤ p)) l))%Q.
Proof.
  intros Hle. induction l as [|x l IH]; intros Hf; simpl; [lra|].
  assert (Hx : (0 <= f x)%Q) by (apply Hf; left).
  assert (IH' : (Qsum f (List.filter (λ q, bool_decide (q ≤ p')) l)
                 <= Qsum f (List.filter (λ q, bool_decide (q ≤ p)) l))%Q)
    by (apply IH; intros q Hq; apply Hf; by right).
  destruct (decide (x ≤ p')) as [H1|H1].
  - rewrite !bool_decide_eq_true_2 by lia. simpl. lra.
  - rewrite (bool_decide_eq_false_2 (x ≤ p')) by done.
    destruct (bool_decide (x ≤ p)); simpl; lra.
Qed.

Lemma VINTAGES_PERIODS (m : Model) (model : Instance) :
  create_instance m = Some model → VINTAGES model = PERIODS model.
Proof.
  intros Hc. apply create_instance_inv in Hc as (Hi & Hb & _).
  apply build_temporal_index_inv in Hb as (-> & _). unfold VINTAGES. by rewrite Hi.
Qed.

Lemma cumulative_expression_accumulates (m : Model) (model : Instance)
    (index : list Resource) (name : string) (rule : Resource → Z → option expr)
    (r : Resource) (p : Z) :
  create_instance m = Some model →
  (∀ r p, rule r p =
          foldl (λ acc vintage,
                   cumulative ← acc;
                   if bool_decide (vintage ≤ p) then
                     x ← Var index (VINTAGES model) name r vintage;
                     Some (cumulative + x)%E
                   else Some cumulative)
                (Some (EConst 0)) (VINTAGES model)) →
  r ∈ index → p ∈ PERIODS model →
  accumulates model (Expression index (PERIODS model) rule) name r p.
Proof.
  intros Hc Hrule Hr Hp.
  pose proof (VINTAGES_PERIODS m model Hc) as Hvp.
  pose proof (periods_sorted m model Hc) as Hsorted.
  assert (Hexpr : ∀ p0, p0 ∈ PERIODS model →
            ∃ e, Expression index (PERIODS model) rule r p0 = Some e ∧
                 ∀ v, (eval v e == Qsum (λ q, v (name, r, q))
                                        (List.filter (λ q, bool_decide (q ≤ p0))
                                                     (PERIODS model)))%Q).
  { intros p0 Hp0. rewrite (Expression_Some _ _ _ r p0 Hr Hp0), Hrule, Hvp.
    destruct (cumulative_variable_fold (Var index (PERIODS model) name r) name r p0
                (PERIODS model) (EConst 0)) as (e & He & Hv).
    { intros q Hq. by apply Var_Some. }
    exists e. split; [exact He|]. intros v. rewrite Hv. simpl. ring. }
  destruct (Hexpr p Hp) as (e & He & Hv). exists e. split; [exact He|].
  split; [exact Hv|]. split; [|split].
  - intros -> v. rewrite Hv. destruct (first_period_least m model Hc) as [_ Hle].
    rewrite (filter_le_split _ _ Hsorted Hp).
    rewrite filter_none; [simpl; ring|].
    intros q Hq. apply bool_decide_eq_false_2. specialize (Hle q Hq). lia.
  - intros Hne. destruct (find_prev_period_Some m model p Hc Hp Hne)
      as (q & Hq & Hqin & Hlt & Hmax).
    destruct (Hexpr q Hqin) as (e' & He' & Hv').
    exists q, e'. split; [exact Hq|]. split; [exact He'|]. intros v.
    rewrite Hv, Hv', (filter_le_split _ _ Hsorted Hp),
      (filter_lt_previous _ p q Hqin Hlt Hmax), Qsum_app. simpl. ring.
  - intros p' Hp' Hle. destruct (Hexpr p' Hp') as (e' & He' & Hv').
    exists e'. split; [exact He'|]. intros v Hnn. rewrite Hv, Hv'.
    apply Qsum_filter_le_mono; [done|]. intros q _. apply Hnn.
Qed.

(** X23. The cumulative new installed capacity of a new-build resource in a
    period is the sum of the capacity built in the vintages up to that
    period: it is the capacity built in the first period, it grows from the
    previous period by the capacity built in the period, and it never
    decreases over the periods when the build variables are non-negative.
    The cumulative new energy capacity of a new-build storage resource
    accumulates the storage energy capacity built in the same way. *)
Theorem new_capacity_accumulates (m : Model) (model : Instance) (r : Resource) (p : Z) :
  create_instance m = Some model → p ∈ PERIODS model →
  (r ∈ NEW_BUILD_RESOURCES model →
   accumulates model (Cumulative_New_Installed_Capacity_MW model) "Build_Capacity_MW" r p) ∧
  (r ∈ NEW_BUILD_STORAGE_RESOURCES model →
   accumulates model (Cumulative_New_Storage_Energy_Capacity_MWh model)
               "Build_Storage_Energy_Capacity_MWh" r p).
Proof.
  intros Hc Hp. split; intros Hr.
  - by apply (cumulative_expression_accumulates m model (NEW_BUILD_RESOURCES model)
                "Build_Capacity_MW" (new_installed_capacity_tracking_rule model) r p Hc).
  - by apply (cumulative_expression_accumulates m model (NEW_BUILD_STORAGE_RESOURCES model)
                "Build_Storage_Energy_Capacity_MWh"
                (new_storage_installed_energy_capacity_tracking_rule model) r p Hc).
Qed.

Lemma new_capacity_accumulates_witness :
  ∃ model, create_instance example_model = Some model ∧
    accumulates model (Cumulative_New_Installed_Capacity_MW model) "Build_Capacity_MW"
                "solar_new" 2040.
Proof.
  destruct example_instance_is_Some as [model Hc].
  exists model. split; [exact Hc|].
  apply (new_capacity_accumulates example_model model "solar_new"%string 2040 Hc).
  - example_side Hc.
  - example_side Hc.
Defined.

(** ** Operational capacity *)

(** X15. The operational planned capacity of a resource that can retire is,
    under every valuation, the cumulative planned additions of the period
    less the planned capacity retired in the periods up to it; the planned
    subtractions are not read for it.  For a resource that cannot retire it
    is the constant obtained by subtracting the cumulative planned
    subtractions from the cumulative planned additions as floats.  The
    operational capacity adds the operational new capacity of a resource
    that can be built, and nothing for any other resource. *)
Theorem operational_planned_capacity_meaning (m : Model) (model : Instance)
    (cadd csub : gmap (Resource * Z) float) (r : Resource) (p : Z) (ca : float) :
  create_instance m = Some model →
  r ∈ RESOURCES_WITH_MW_CAPACITY model → p ∈ PERIODS model →
  cadd !! (r, p) = Some ca →
  (r ∈ CAN_RETIRE_RESOURCES model →
   ∃ e, (∀ csub', Operational_Planned_Capacity_MW model cadd csub' r p = Some e) ∧
     ∀ v, (eval v e ==
           float_value ca
           - Qsum (λ q, v ("Retire_Planned_Capacity_MW", r, q)%string)
                  (List.filter (λ q, bool_decide (q ≤ p)) (PERIODS model)))%Q) ∧
  (r ∉ CAN_RETIRE_RESOURCES model →
   Operational_Planned_Capacity_MW model cadd csub r p =
     (cs ← csub !! (r, p); Some (EConst (float_value (ca - cs)%float)))) ∧
  (∀ e, Operational_Planned_Capacity_MW model cadd csub r p = Some e →
     Operational_Capacity_MW model cadd csub r p =
       Some (e + (if bool_decide (r ∈ NEW_BUILD_RESOURCES model)
                  then EVar ("Operational_New_Capacity_MW", r, p)%string
                  else EConst 0))%E).
Proof.
  intros Hc Hr Hp Hca. split; [|split].
  - intros Hcr.
    destruct (cumulative_variable_fold (Retire_Planned_Capacity_MW model r)
                "Retire_Planned_Capacity_MW" r p (PERIODS model) (EConst 0))
      as (e & He & Hv).
    { intros q Hq. by apply Var_Some. }
    exists (EConst (float_value ca) - e)%E. split.
    + intros csub'. unfold Operational_Planned_Capacity_MW.
      rewrite (Expression_Some _ _ _ r p Hr Hp).
      unfold operational_planned_capacity_in_period_rule.
      rewrite (bool_decide_eq_true_2 _ Hcr).
      unfold Retire_Planned_Capacity_Cumulative_MW.
      rewrite (Expression_Some _ _ _ r p Hcr Hp).
      unfold cumulative_retired_planned_capacity_rule. rewrite He. simpl.
      rewrite Hca. reflexivity.
    + intros v. simpl. rewrite Hv. simpl. ring.
  - intros Hcr. unfold Operational_Planned_Capacity_MW.
    rewrite (Expression_Some _ _ _ r p Hr Hp).
    unfold operational_planned_capacity_in_period_rule.
    rewrite (bool_decide_eq_false_2 _ Hcr).
    destruct (csub !! (r, p)) as [cs|]; simpl; [|reflexivity]. by rewrite Hca.
  - intros e He. unfold Operational_Capacity_MW.
    rewrite (Expression_Some _ _ _ r p Hr Hp).
    unfold operational_capacity_tracking_rule. rewrite He.
    destruct (decide (r ∈ NEW_BUILD_RESOURCES model)) as [Hnb|Hnb].
    + rewrite !(bool_decide_eq_true_2 _ Hnb). unfold Operational_New_Capacity_MW.
      by rewrite (Var_Some _ _ _ r p Hnb Hp).
    + by rewrite !(bool_decide_eq_false_2 _ Hnb).
Qed.

Lemma operational_planned_capacity_meaning_witness :
  ∃ model e,
    create_instance example_model = Some model ∧
    Operational_Planned_Capacity_MW model {[ ("gas_ccgt"%string, 2040) := 500%float ]} ∅
      "gas_ccgt" 2040 = Some e ∧
    ∀ v, (eval v e ==
          500 - (v ("Retire_Planned_Capacity_MW", "gas_ccgt", 2030%Z)%string
                 + (v ("Retire_Planned_Capacity_MW", "gas_ccgt", 2040%Z)%string + 0)))%Q.
Proof.
  destruct example_instance_is_Some as [model Hc].
  destruct (operational_planned_capacity_meaning example_model model
              {[ ("gas_ccgt"%string, 2040) := 500%float ]} ∅ "gas_ccgt" 2040 500%float Hc)
    as (Hretire & _).
  - example_side Hc.
  - example_side Hc.
  - reflexivity.
  - destruct Hretire as (e & He & Hv).
    + rewrite (example_can_retire model Hc). by_compute.
    + exists model, e. split; [exact Hc|]. split; [exact (He ∅)|].
      intros v. rewrite (Hv v).
      destruct (example_instance_facts _ Hc) as (_ & _ & -> & _).
      assert (Hf : (float_value 500 == 500)%Q) by (vm_compute; reflexivity).
      rewrite Hf. reflexivity.
Defined.

(** ** Minimum generation of dispatchable resources *)

(** X24. The minimum-generation rule of a dispatchable resource that
    carries a [Provide_Power_MW] variable never skips.  It reads
    [Fully_Operational_Units] for ramp-limited resources only; it fails for
    such a resource when the next timepoint is no timepoint, and otherwise
    it builds a constraint that holds exactly when the power provided less
    the downward reserves is at least the committed capacity times the
    minimum stable level, relaxed, for a ramp-limited resource, by
    [ramp_relax] times the units started at the timepoint and the units shut
    down at the next one. *)
Theorem min_gen_relaxed_for_starts_and_stops (m : Model) (model : Instance)
    (r : Resource) (t : Z) :
  create_instance m = Some model →
  r ∈ DISPATCHABLE_RESOURCES model → t ∈ TIMEPOINTS model →
  r ∈ Provide_Power_MW_index model →
  ∃ n, next_timepoint model !! t = Some n ∧
    dispatchable_min_gen_and_down_reserves_rule model r t ≠ Some Skip ∧
    (r ∈ DISPATCHABLE_RAMP_LIMITED_RESOURCES model → n ∉ TIMEPOINTS model →
     dispatchable_min_gen_and_down_reserves_rule model r t = None) ∧
    ((r ∉ DISPATCHABLE_RAMP_LIMITED_RESOURCES model) ∨ n ∈ TIMEPOINTS model →
     ∃ c, dispatchable_min_gen_and_down_reserves_rule model r t = Some (Emit c) ∧
       ∀ v, sat v c ↔
         (v ("Commit_Units", r, t)%string * unit_size_mw model (technology model r)
            * float_value (min_stable_level_fraction model (technology model r))
          - (if bool_decide (r ∈ DISPATCHABLE_RAMP_LIMITED_RESOURCES model)
             then ramp_relax * (v ("Start_Units", r, t)%string
                                + v ("Shut_Down_Units", r, n)%string)
             else 0)
          <= v ("Provide_Power_MW", r, t)%string
             - (if bool_decide (r ∈ REGULATION_RESERVE_RESOURCES model)
                then v ("Provide_Downward_Reg_MW", r, t)%string else 0)
             - (if bool_decide (r ∈ LOAD_FOLLOWING_RESERVE_RESOURCES model)
                then v ("Provide_LF_Downward_Reserve_MW", r, t)%string else 0))%Q).
Proof.
  intros Hc Hr Ht Hpp.
  destruct (instance_neighbours m model t Hc Ht) as (f & l & _ & _ & _ & _ & _ & _ & Hn).
  set (n := if bool_decide (t = l) then f else t + 1) in *.
  exists n. split; [exact Hn|].
  unfold dispatchable_min_gen_and_down_reserves_rule, Provide_Downward_Reg_MW,
    Provide_LF_Downward_Reserve_MW, Provide_Power_MW, Commit_Capacity_MW,
    Fully_Operational_Units, Commit_Units.
  rewrite (Var_Some _ _ "Provide_Power_MW" r t Hpp Ht).
  rewrite (Expression_Some _ _ _ r t Hr Ht).
  unfold define_commit_capacity, Commit_Units.
  rewrite (Var_Some _ _ "Commit_Units" r t Hr Ht).
  assert (Hreg : ∀ name, (if bool_decide (r ∈ REGULATION_RESERVE_RESOURCES model)
                 then Var (REGULATION_RESERVE_RESOURCES model) (TIMEPOINTS model) name r t
                 else Some (EConst 0))
                = Some (if bool_decide (r ∈ REGULATION_RESERVE_RESOURCES model)
                        then EVar (name, r, t) else EConst 0)).
  { intros name. destruct (decide (r ∈ REGULATION_RESERVE_RESOURCES model)) as [Hin|Hin];
      [rewrite !(bool_decide_eq_true_2 _ Hin); by apply Var_Some
      |by rewrite !(bool_decide_eq_false_2 _ Hin)]. }
  assert (Hlf : ∀ name, (if bool_decide (r ∈ LOAD_FOLLOWING_RESERVE_RESOURCES model)
                 then Var (LOAD_FOLLOWING_RESERVE_RESOURCES model) (TIMEPOINTS model) name r t
                 else Some (EConst 0))
                = Some (if bool_decide (r ∈ LOAD_FOLLOWING_RESERVE_RESOURCES model)
                        then EVar (name, r, t) else EConst 0)).
  { intros name.
    destruct (decide (r ∈ LOAD_FOLLOWING_RESERVE_RESOURCES model)) as [Hin|Hin];
      [rewrite !(bool_decide_eq_true_2 _ Hin); by apply Var_Some
      |by rewrite !(bool_decide_eq_false_2 _ Hin)]. }
  rewrite Hreg, Hlf. simpl.
  destruct (decide (r ∈ DISPATCHABLE_RAMP_LIMITED_RESOURCES model)) as [Hrl|Hrl].
  - rewrite (bool_decide_eq_true_2 _ Hrl). rewrite (Expression_Some _ _ _ r t Hrl Ht).
    unfold fully_operational_units_def_rule, Commit_Units, Start_Units, Shut_Down_Units.
    rewrite !(Var_Some _ _ _ r t Hr Ht). simpl. rewrite Hn. simpl.
    rewrite (Var_resource _ _ _ r n Hr).
    destruct (decide (n ∈ TIMEPOINTS model)) as [Hnt|Hnt].
    + rewrite (bool_decide_eq_true_2 _ Hnt). simpl.
      split; [discriminate|]. split; [done|]. intros _. eexists. split; [reflexivity|].
      intros v. simpl. unfold ramp_relax.
      destruct (bool_decide (r ∈ REGULATION_RESERVE_RESOURCES model)),
        (bool_decide (r ∈ LOAD_FOLLOWING_RESERVE_RESOURCES model)); simpl;
        split; intros H; lra.
    + rewrite (bool_decide_eq_false_2 _ Hnt). simpl.
      split; [discriminate|]. split; [done|]. intros [?|?]; done.
  - rewrite (bool_decide_eq_false_2 _ Hrl). simpl.
    split; [discriminate|]. split; [done|]. intros _. eexists. split; [reflexivity|].
    intros v. simpl.
    destruct (bool_decide (r ∈ REGULATION_RESERVE_RESOURCES model)),
      (bool_decide (r ∈ LOAD_FOLLOWING_RESERVE_RESOURCES model)); simpl;
      split; intros H; lra.
Qed.

Lemma min_gen_relaxed_for_starts_and_stops_witness :
  ∃ model n, create_instance example_model = Some model ∧
    next_timepoint model !! 24 = Some n ∧
    ∃ c, dispatchable_min_gen_and_down_reserves_rule model "gas_ccgt" 24 = Some (Emit c).
Proof.
  destruct example_instance_is_Some as [model Hc].
  destruct (min_gen_relaxed_for_starts_and_stops example_model model "gas_ccgt"%string 24 Hc)
    as (n & Hn & _ & _ & Hemit).
  - example_side Hc.
  - example_side Hc.
  - example_side Hc.
  - exists model, n. split; [exact Hc|]. split; [exact Hn|].
    destruct Hemit as (c & Hrule & _).
    + right.
      destruct (instance_neighbours example_model model 24 Hc)
        as (f & l & _ & _ & Hf & _ & _ & _ & Hn').
      { exact (proj2 (example_timepoints model 24 Hc) ltac:(lia)). }
      rewrite Hn in Hn'. injection Hn' as ->.
      case_bool_decide.
      * apply elem_of_timepoints_on_day in Hf as [Hf _]. exact Hf.
      * exact (proj2 (example_timepoints model 25 Hc) ltac:(lia)).
    + exists c. exact Hrule.
Defined.

(** ** Periods and vintages *)

Lemma period_vintage_pairs_snoc (l1 l2 : list Z) (z : Z) :
  (∀ p, p ∈ l1 → p < z) →
  (p ← l1; v ← l2 ++ [z]; if bool_decide (v ≤ p) then [(p, v)] else [])
  = (p ← l1; v ← l2; if bool_decide (v ≤ p) then [(p, v)] else []).
Proof.
  induction l1 as [|x l1 IH]; intros Hlt; [done|].
  rewrite !bind_cons. rewrite IH by (intros p Hp; apply Hlt; by right).
  f_equal. rewrite bind_app. simpl.
  rewrite bool_decide_eq_false_2 by (specialize (Hlt x ltac:(left)); lia).
  by rewrite !app_nil_r.
Qed.

Lemma period_vintage_pairs_last (l : list Z) (z : Z) :
  (∀ v, v ∈ l → v ≤ z) →
  length (v ← l; if bool_decide (v ≤ z) then [(z, v)] else []) = length l.
Proof.
  induction l as [|x l IH]; intros Hle; [done|].
  rewrite bind_cons, length_app, IH by (intros v Hv; apply Hle; by right).
  rewrite bool_decide_eq_true_2 by (apply Hle; left). done.
Qed.

Lemma period_vintage_pairs_length (l : list Z) :
  StronglySorted Z.lt l →
  Nat.mul 2 (length (p ← l; v ← l; if bool_decide (v ≤ p) then [(p, v)] else []))
  = Nat.mul (length l) (S (length l)).
Proof.
  induction l as [|z l IH] using rev_ind; intros Hs; [done|].
  assert (Hs0 : StronglySorted Z.lt l) by (by apply StronglySorted_app_1_l in Hs).
  assert (Hlt : ∀ y, y ∈ l → y < z).
  { intros y Hy. apply (StronglySorted_app_1_elem_of Z.lt l [z] y z Hs Hy). left. }
  rewrite bind_app, length_app, (period_vintage_pairs_snoc l l z Hlt).
  simpl. rewrite app_nil_r, period_vintage_pairs_last.
  - specialize (IH Hs0). rewrite !length_app. simpl. lia.
  - intros v Hv. apply elem_of_app in Hv as [Hv|Hv]; [specialize (Hlt v Hv); lia|].
    apply list_elem_of_singleton in Hv as ->. lia.
Qed.

(** X25. In a constructed instance PERIOD_VINTAGES is built (all its pairs
    lie in PERIODS x VINTAGES) and holds exactly the pairs of a period and a
    vintage of PERIODS that is not later than the period; every period is
    paired with itself, the first period with no other vintage, and with [n]
    periods there are [n (n + 1) / 2] pairs. *)
Theorem period_vintages_triangle (m : Model) (model : Instance) :
  create_instance m = Some model →
  PERIOD_VINTAGES model = Some (period_vintage_init model) ∧
  (∀ p v, (p, v) ∈ period_vintage_init model ↔
          p ∈ PERIODS model ∧ v ∈ PERIODS model ∧ v ≤ p) ∧
  (∀ v, (first_period model, v) ∈ period_vintage_init model ↔ v = first_period model) ∧
  Nat.mul 2 (length (period_vintage_init model))
  = Nat.mul (length (PERIODS model)) (S (length (PERIODS model))).
Proof.
  intros Hc. pose proof (VINTAGES_PERIODS m model Hc) as Hvp.
  assert (Hmem : ∀ p v, (p, v) ∈ period_vintage_init model ↔
                        p ∈ PERIODS model ∧ v ∈ PERIODS model ∧ v ≤ p).
  { intros p v. unfold period_vintage_init. rewrite Hvp, list_elem_of_bind. split.
    - intros (p' & Hin & Hp'). apply list_elem_of_bind in Hin as (v' & Hin & Hv').
      case_bool_decide as Hle; [|by apply elem_of_nil in Hin].
      apply list_elem_of_singleton in Hin. by simplify_eq.
    - intros (Hp & Hv & Hle). exists p. split; [|done]. apply list_elem_of_bind.
      exists v. split; [|done]. rewrite bool_decide_eq_true_2 by done. left. }
  split; [|split; [exact Hmem|split]].
  - unfold PERIOD_VINTAGES, pyomo_Set_within.
    rewrite (proj2 (forallb_forall _ _)); [done|].
    intros [p v] Hin. apply list_elem_of_In, Hmem in Hin as (Hp & Hv & _). simpl.
    rewrite Hvp, !bool_decide_eq_true_2; done.
  - intros v. rewrite Hmem. destruct (first_period_least m model Hc) as [Hfin Hfle]. split.
    + intros (_ & Hv & Hle). specialize (Hfle v Hv). lia.
    + intros ->. split; [done|]. split; [done|lia].
  - unfold period_vintage_init. rewrite Hvp.
    apply period_vintage_pairs_length, (periods_sorted m model Hc).
Qed.

Lemma period_vintages_triangle_witness :
  ∃ model, create_instance example_model = Some model ∧
    PERIOD_VINTAGES model = Some (period_vintage_init model) ∧
    Nat.mul 2 (length (period_vintage_init model)) = 6%nat.
Proof.
  destruct example_instance_is_Some as [model Hc].
  exists model. split; [exact Hc|].
  destruct (period_vintages_triangle example_model model Hc) as (Hset & _ & _ & Hlen).
  split; [exact Hset|].
  destruct (example_instance_facts _ Hc) as (_ & _ & Hp & _).
  rewrite Hp in Hlen. exact Hlen.
Defined.

(** ** Start and stop sequences around the day *)

Lemma py_range_shift (a b : Z) : py_range (a + 1) (b + 1) = (λ x, x + 1) <$> py_range a b.
Proof.
  unfold py_range. replace (b + 1 - (a + 1)) with (b - a) by lia.
  rewrite <- list_fmap_compose. apply list_fmap_ext. intros _ i _. simpl. lia.
Qed.

Lemma Qsum_fmap (f : Z → Q) (g : Z → Z) (l : list Z) :
  Qsum f (g <$> l) = Qsum (λ x, f (g x)) l.
Proof.
  induction l as [|x l IH]; [done|].
  change (Qsum f (g <$> x :: l)) with (f (g x) + Qsum f (g <$> l))%Q. by rewrite IH.
Qed.

(** A sum over [1 .. n - 1] read backwards. *)
Lemma Qsum_reflect (g : Z → Q) (k : nat) :
  (Qsum (λ pt, g (Z.of_nat k + 1 - pt)%Z) (py_range 1 (Z.of_nat k + 1))
   == Qsum g (py_range 1 (Z.of_nat k + 1)))%Q.
Proof.
  revert g. induction k as [|k IH]; intros g.
  - rewrite py_range_nil by lia. reflexivity.
  - replace (Z.of_nat (S k)) with (Z.of_nat k + 1) by lia.
    rewrite (py_range_cons 1 (Z.of_nat k + 1 + 1)) at 1 by lia.
    rewrite (py_range_snoc 1 (Z.of_nat k + 1 + 1)) by lia.
    replace (Z.of_nat k + 1 + 1 - 1) with (Z.of_nat k + 1) by lia.
    rewrite Qsum_app. simpl Qsum.
    rewrite (py_range_shift 1 (Z.of_nat k + 1)), Qsum_fmap.
    rewrite (Qsum_ext _ (λ pt, g (Z.of_nat k + 1 - pt)%Z)).
    + rewrite IH. replace (Z.of_nat k + 1 + 1 - 1) with (Z.of_nat k + 1) by lia. ring.
    + intros pt _. replace (Z.of_nat k + 1 + 1 - (pt + 1)) with (Z.of_nat k + 1 - pt) by lia.
      reflexivity.
Qed.

Lemma sum_over_variables (component : Resource → Z → option expr) (name : string)
    (r : Resource) (g : Z → Z) (ts : list Z) :
  (∀ x, x ∈ ts → component r x = Some (EVar (name, r, g x))) →
  ∃ e, sum_over component r ts = Some e ∧
       ∀ v, (eval v e == Qsum (λ x, v (name, r, g x)) ts)%Q.
Proof.
  unfold sum_over. intros Hall.
  assert (Hgen : ∀ acc, ∃ e,
            foldl (λ acc t, a ← acc; e ← component r t; Some (a + e)%E) (Some acc) ts = Some e ∧
            ∀ v, (eval v e == eval v acc + Qsum (λ x, v (name, r, g x)) ts)%Q).
  { induction ts as [|x ts IH]; intros acc; simpl.
    - exists acc. split; [done|]. intros v. ring.
    - rewrite (Hall x) by left. simpl.
      destruct (IH (λ y Hy, Hall y (list_elem_of_further _ _ _ Hy)) (acc + EVar (name, r, g x))%E)
        as (e & He & Hv).
      exists e. split; [done|]. intros v. rewrite Hv. simpl. ring. }
  destruct (Hgen (EConst 0)) as (e & He & Hv). exists e. split; [done|].
  intros v. rewrite Hv. simpl. ring.
Qed.

(** On a day of [timepoints_per_day] consecutive timepoints starting at [a],
    the look-back sum over a component that looks [h] hours ahead collects
    the variables of the next [h - 1] hours around the day. *)
Lemma lookback_sum_on_full_day (component : Resource → Z → option expr) (name : string)
    (r : Resource) (a t h : Z) :
  (∀ t', a ≤ t' < a + timepoints_per_day →
         component r t' = Some (EVar (name, r, wrap_on_day a (t' + h)))) →
  1 ≤ h ≤ timepoints_per_day → a ≤ t < a + timepoints_per_day →
  ∃ e, sum_over component r
         (if bool_decide (t - h < a) then previous_timepoints t a h
          else (λ pt, t - pt) <$> py_range 1 h) = Some e ∧
       ∀ v, (eval v e == Qsum (λ k, v (name, r, wrap_on_day a (t + k))) (py_range 1 h))%Q.
Proof.
  intros Hcomp Hh Ht.
  set (back := λ pt, if bool_decide (t - pt >= a) then t - pt else t + timepoints_per_day - pt).
  assert (Hlist : (if bool_decide (t - h < a) then previous_timepoints t a h
                   else (λ pt, t - pt) <$> py_range 1 h) = back <$> py_range 1 h).
  { case_bool_decide as Hwrap; [done|]. apply list_fmap_ext. intros i pt Hpt.
    apply list_elem_of_lookup_2, elem_of_py_range in Hpt. unfold back.
    rewrite bool_decide_eq_true_2; [done|lia]. }
  rewrite Hlist.
  destruct (sum_over_variables component name r (λ x, wrap_on_day a (x + h))
              (back <$> py_range 1 h)) as (e & He & Hv).
  { intros x Hx. apply list_elem_of_fmap in Hx as (pt & -> & Hpt).
    apply elem_of_py_range in Hpt. apply Hcomp. unfold back. cbv beta.
    unfold timepoints_per_day in *. clear Hlist. case_bool_decide; lia. }
  exists e. split; [exact He|]. intros v. rewrite Hv, Qsum_fmap.
  rewrite (Qsum_ext _ (λ pt, (λ k, v (name, r, wrap_on_day a (t + k))) (h - pt))).
  - pose proof (Qsum_reflect (λ k, v (name, r, wrap_on_day a (t + k))) (Z.to_nat (h - 1)))
      as Hrefl.
    replace (Z.of_nat (Z.to_nat (h - 1)) + 1) with h in Hrefl by lia. exact Hrefl.
  - intros pt Hpt. apply elem_of_py_range in Hpt. simpl.
    replace (wrap_on_day a (back pt + h)) with (wrap_on_day a (t + (h - pt))); [reflexivity|].
    unfold wrap_on_day, back. cbv beta. unfold timepoints_per_day in *.
    repeat case_bool_decide; lia.
Qed.

(** The look-ahead of a component from a timepoint of a full day. *)
Lemma lookahead_variable_on_full_day (model : Instance) (name : string) (r : Resource)
    (p d a t h : Z) :
  r ∈ DISPATCHABLE_RESOURCES model →
  (∀ u, u ∈ timepoints_on_day model p d ↔ a ≤ u < a + timepoints_per_day) →
  0 ≤ h ≤ timepoints_per_day → a ≤ t < a + timepoints_per_day →
  Var (DISPATCHABLE_RESOURCES model) (TIMEPOINTS model) name r
      (t + h - (if bool_decide (t + h > a + timepoints_per_day - 1)
                then timepoints_per_day else 0))
  = Some (EVar (name, r, wrap_on_day a (t + h))).
Proof.
  intros Hr Hday Hh Ht. unfold wrap_on_day. apply Var_Some; [done|].
  assert (Hin : a ≤ t + h - (if bool_decide (t + h > a + timepoints_per_day - 1)
                             then timepoints_per_day else 0) < a + timepoints_per_day)
    by (unfold timepoints_per_day in *; case_bool_decide; lia).
  apply Hday, elem_of_timepoints_on_day in Hin as (Hin & _). exact Hin.
Qed.

(** X26. On a day of [timepoints_per_day] consecutive timepoints, with
    minimum down and up times between 1 and [timepoints_per_day]:
    [Starting_Units] at a timepoint is the number of units started in the
    next [min_down_time - 1] hours and [Shutting_Down_Units] the number of
    units shut down in the next [min_up_time - 1] hours, counted around the
    day; and the shut-down rule builds a constraint that holds exactly when
    the units shut down in the next [min_up_time] hours are not more than
    the units committed at the timepoint. *)
Theorem start_stop_sequences_meaning (m : Model) (model : Instance) (r : Resource) (t a : Z) :
  create_instance m = Some model →
  r ∈ DISPATCHABLE_RESOURCES model → t ∈ TIMEPOINTS model →
  (∀ u, u ∈ timepoints_on_day model (period model t) (day model t) ↔
        a ≤ u < a + timepoints_per_day) →
  (1 ≤ min_down_time_hours model (technology model r) ≤ timepoints_per_day →
   ∃ e, Starting_Units model r t = Some e ∧
        ∀ v, (eval v e == Qsum (λ k, v ("Start_Units", r, wrap_on_day a (t + k))%string)
                               (py_range 1 (min_down_time_hours model (technology model r))))%Q) ∧
  (1 ≤ min_up_time_hours model (technology model r) ≤ timepoints_per_day →
   (∃ e, Shutting_Down_Units model r t = Some e ∧
         ∀ v, (eval v e == Qsum (λ k, v ("Shut_Down_Units", r, wrap_on_day a (t + k))%string)
                                (py_range 1 (min_up_time_hours model (technology model r))))%Q) ∧
   ∃ c, dispatchable_units_shut_down_rule model r t = Some (Emit c) ∧
        ∀ v, sat v c ↔
             (Qsum (λ k, v ("Shut_Down_Units", r, wrap_on_day a (t + k))%string)
                   (py_range 1 (min_up_time_hours model (technology model r) + 1))
              <= v ("Commit_Units", r, t)%string)%Q).
Proof.
  intros Hc Hr Ht Hday.
  destruct (full_day_bounds m model t a Hc Ht Hday) as [Hf Hl].
  assert (Hta : a ≤ t < a + timepoints_per_day)
    by (apply Hday, elem_of_timepoints_on_day; done).
  assert (Hin : ∀ t', a ≤ t' < a + timepoints_per_day →
            t' ∈ TIMEPOINTS model ∧ period model t' = period model t ∧
            day model t' = day model t).
  { intros t' Ht'. by apply elem_of_timepoints_on_day, Hday. }
  assert (Hif : ∀ (b : bool) component (l1 l2 : list Z),
            (if b then sum_over component r l1 else sum_over component r l2)
            = sum_over component r (if b then l1 else l2)) by (by intros []).
  split.
  - intros Hd.
    assert (Hpre : ∀ t', a ≤ t' < a + timepoints_per_day →
              PreStart_Units model r t'
              = Some (EVar ("Start_Units"%string, r,
                            wrap_on_day a
                              (t' + min_down_time_hours model (technology model r))))).
    { intros t' Ht'. destruct (Hin t' Ht') as (Htp & Hp' & Hd').
      unfold PreStart_Units. rewrite (Expression_Some _ _ _ r t' Hr Htp).
      unfold prestart_to_start_definition, Start_Units. rewrite Hp', Hd', Hl. simpl.
      apply (lookahead_variable_on_full_day model _ r (period model t) (day model t) a _ _ Hr Hday);
        [lia|done]. }
    unfold Starting_Units. rewrite (Expression_Some _ _ _ r t Hr Ht).
    unfold define_starting_units. rewrite Hf. simpl. rewrite Hif.
    by apply lookback_sum_on_full_day.
  - intros Hu.
    assert (Hpre : ∀ t', a ≤ t' < a + timepoints_per_day →
              PreShut_Down_Units model r t'
              = Some (EVar ("Shut_Down_Units"%string, r,
                            wrap_on_day a
                              (t' + min_up_time_hours model (technology model r))))).
    { intros t' Ht'. destruct (Hin t' Ht') as (Htp & Hp' & Hd').
      unfold PreShut_Down_Units. rewrite (Expression_Some _ _ _ r t' Hr Htp).
      unfold preshut_down_to_shut_down_definition, Shut_Down_Units. rewrite Hp', Hd', Hl. simpl.
      apply (lookahead_variable_on_full_day model _ r (period model t) (day model t) a _ _ Hr Hday);
        [lia|done]. }
    assert (Hsd : ∃ e, Shutting_Down_Units model r t = Some e ∧
              ∀ v, (eval v e
                    == Qsum (λ k, v ("Shut_Down_Units", r, wrap_on_day a (t + k))%string)
                            (py_range 1 (min_up_time_hours model (technology model r))))%Q).
    { unfold Shutting_Down_Units. rewrite (Expression_Some _ _ _ r t Hr Ht).
      unfold define_shutting_down_units. rewrite Hf. simpl. rewrite Hif.
      by apply lookback_sum_on_full_day. }
    split; [exact Hsd|]. destruct Hsd as (e & He & Hv).
    unfold dispatchable_units_shut_down_rule, Commit_Units.
    rewrite (Hpre t Hta), He, (Var_Some _ _ _ r t Hr Ht). simpl.
    eexists. split; [reflexivity|]. intros v. simpl. rewrite Hv.
    rewrite (py_range_snoc 1 (min_up_time_hours model (technology model r) + 1)) by lia.
    replace (min_up_time_hours model (technology model r) + 1 - 1)
      with (min_up_time_hours model (technology model r)) by lia.
    rewrite Qsum_app. simpl. split; intros H; lra.
Qed.

Lemma start_stop_sequences_meaning_witness :
  ∃ model c, create_instance example_model = Some model ∧
    dispatchable_units_shut_down_rule model "gas_ccgt" 48 = Some (Emit c) ∧
    ∀ v, sat v c ↔
         (Qsum (λ k, v ("Shut_Down_Units", "gas_ccgt", wrap_on_day 25 (48 + k))%string)
               (py_range 1 (2 + 1))
          <= v ("Commit_Units", "gas_ccgt", 48%Z)%string)%Q.
Proof.
  destruct example_instance_is_Some as [model Hc].
  destruct (example_instance_facts _ Hc) as (Hi & _).
  destruct (start_stop_sequences_meaning example_model model "gas_ccgt"%string 48 25 Hc)
    as [_ Hup].
  - example_side Hc.
  - example_side Hc.
  - intros u. assert (Hp : period model 48 = period model 25) by (rewrite Hi; reflexivity).
    assert (Hd : day model 48 = day model 25) by (rewrite Hi; reflexivity).
    rewrite Hp, Hd. exact (example_model_second_day model u Hi).
  - assert (Hmu : min_up_time_hours model (technology model "gas_ccgt"%string) = 2)
      by (rewrite Hi; reflexivity).
    rewrite Hmu in Hup. destruct Hup as (_ & c & Hrule & Hsat).
    + unfold timepoints_per_day. lia.
    + exists model, c. split; [exact Hc|]. split; [exact Hrule|exact Hsat].
Defined.

(** ** Binding of the flexible parameters *)

Module LoadDataFrame.
Import LoadData LoadDataRows.

Lemma changes_only_refl (name : string) (data : DataPortal) : changes_only name data data.
Proof. split; [done|]. split; [done|]. intros [t Ht]. by exists t. Qed.

Lemma changes_only_trans (name : string) (d1 d2 d3 : DataPortal) :
  changes_only name d1 d2 → changes_only name d2 d3 → changes_only name d1 d3.
Proof.
  intros (Hd1 & Hk1 & Ht1) (Hd2 & Hk2 & Ht2). split; [congruence|]. split.
  - intros k Hk. rewrite Hk2, Hk1; done.
  - intros Ht. by apply Ht2, Ht1.
Qed.

Lemma for_each_invariant {S A} (R : S → S → Prop) (body : S → A → result S) (l : list A) :
  (∀ s, R s s) → (∀ s1 s2 s3, R s1 s2 → R s2 s3 → R s1 s3) →
  (∀ s x s', x ∈ l → body s x = Ok s' → R s s') →
  ∀ s s', for_each body s l = Ok s' → R s s'.
Proof.
  intros Hrefl Htrans. induction l as [|x l IH]; intros Hbody s s' Hfor; simpl in Hfor.
  - injection Hfor as <-. apply Hrefl.
  - destruct (body s x) as [s1|e] eqn:Hx; [|done]. simpl in Hfor.
    apply (Htrans s s1 s').
    + apply (Hbody s x s1); [left|done].
    + apply IH; [|done]. intros s0 y s0' Hy. apply Hbody. by right.
Qed.

Lemma set_param_Ok (data data' : DataPortal) (name : string) (key : pkey) (v : pyval) :
  set_param data name key v = Ok data' →
  ∃ t, data !! name = Some (ParamTable t) ∧
       data' = <[name := ParamTable (<[key := v]> t)]> data.
Proof.
  unfold set_param. destruct (data !! name) as [[t|t]|]; try done.
  intros [= <-]. by exists t.
Qed.

Lemma set_param_changes_only (data data' : DataPortal) (name : string) (key : pkey)
    (v : pyval) :
  set_param data name key v = Ok data' → changes_only name data data'.
Proof.
  intros Hset. apply set_param_Ok in Hset as (t & Ht & ->). split; [|split].
  - apply dom_insert_lookup_L. by eexists.
  - intros k Hk. by rewrite lookup_insert_ne.
  - intros _. rewrite lookup_insert_eq. by eexists.
Qed.

Lemma parse_timepoint_param_changes_only (data data' : DataPortal) (tm : timepoint_mapping)
    (name : string) (o p d hf ht : cell) (v : pyval) :
  parse_timepoint_param data tm name o p d hf ht v = Ok data' → changes_only name data data'.
Proof.
  unfold parse_timepoint_param.
  destruct (py_int hf) as [hf'|]; [|done]. destruct (py_int ht) as [ht'|]; [|done].
  destruct (py_int d) as [d'|]; [|done]. destruct (py_int p) as [p'|]; [|done]. simpl.
  apply for_each_invariant; [apply changes_only_refl|apply changes_only_trans|].
  intros s h s' _. cbv zeta. rewrite LoadDataFacts.timepoint_assignment.
  destruct (timepoint_to_use tm p' d' h) as [|t [|? ?]]; try done.
  - unfold param_dict. by destruct (s !! name) as [[]|].
  - apply set_param_changes_only.
Qed.

Lemma parse_period_param_changes_only (data data' : DataPortal) (name : string)
    (o p : cell) (v : pyval) :
  parse_period_param data name o p v = Ok data' → changes_only name data data'.
Proof.
  unfold parse_period_param. destruct (py_int p) as [p'|]; [|done]. simpl.
  apply set_param_changes_only.
Qed.

Lemma parse_row_changes_only (tm : timepoint_mapping) (sets : unique_sets)
    (data data' : DataPortal) (r : row) :
  parse_row tm sets data r = Ok data' → changes_only (param r) data data'.
Proof.
  unfold parse_row.
  destruct (_ && _ && _ && _); [apply set_param_changes_only|].
  destruct (_ && _).
  { destruct (is_All (period r)); [|apply parse_period_param_changes_only].
    apply for_each_invariant; [apply changes_only_refl|apply changes_only_trans|].
    intros s x s' _. apply parse_period_param_changes_only. }
  destruct (py_int (hour_of_day_from r)) as [h_from|]; [|done].
  destruct (py_int (hour_of_day_to r)) as [h_to|]; [|done]. simpl.
  destruct (_ || _); [done|].
  destruct (_ && _).
  { apply for_each_invariant; [apply changes_only_refl|apply changes_only_trans|].
    intros s x s' _.
    apply for_each_invariant; [apply changes_only_refl|apply changes_only_trans|].
    intros s0 y s0' _. apply parse_timepoint_param_changes_only. }
  destruct (_ && _).
  { apply for_each_invariant; [apply changes_only_refl|apply changes_only_trans|].
    intros s x s' _. destruct (py_int (period r)) as [p'|]; [|done]. simpl.
    apply parse_timepoint_param_changes_only. }
  destruct (_ && _).
  { apply for_each_invariant; [apply changes_only_refl|apply changes_only_trans|].
    intros s x s' _. destruct (py_int (day r)) as [d'|]; [|done]. simpl.
    apply parse_timepoint_param_changes_only. }
  apply parse_timepoint_param_changes_only.
Qed.

Lemma create_params_Ok (names : list string) (data data' : DataPortal) :
  for_each create_param data names = Ok data' →
  (∀ n, n ∈ names → n ∉ dom data) ∧
  dom data' = dom data ∪ list_to_set names ∧
  (∀ k, k ∈ dom data → data' !! k = data !! k) ∧
  (∀ n, n ∈ names → data' !! n = Some (ParamTable ∅)).
Proof.
  revert data. induction names as [|x names IH]; intros data Hfor; simpl in Hfor.
  - injection Hfor as <-. split; [intros n Hn; by apply elem_of_nil in Hn|].
    split; [simpl; by rewrite (right_id_L ∅ (∪))|]. split; [done|].
    intros n Hn. by apply elem_of_nil in Hn.
  - destruct (create_param data x) as [data1|] eqn:Hcx; [|done]. simpl in Hfor.
    unfold create_param in Hcx.
    destruct (decide (x ∈ dom data)) as [Hx|Hx];
      [by rewrite (bool_decide_eq_true_2 _ Hx) in Hcx|].
    rewrite (bool_decide_eq_false_2 _ Hx) in Hcx. injection Hcx as <-.
    destruct (IH _ Hfor) as (Hfresh & Hdom & Hkeep & Hnew).
    assert (Hin1 : ∀ k, k ∈ dom data → k ∈ dom (<[x := ParamTable ∅]> data)).
    { intros k Hk. rewrite dom_insert_L, elem_of_union. by right. }
    assert (Hinx : x ∈ dom (<[x := ParamTable ∅]> data)).
    { rewrite dom_insert_L, elem_of_union, elem_of_singleton. by left. }
    split; [|split; [|split]].
    + intros n Hn. apply elem_of_cons in Hn as [->|Hn]; [done|].
      intros Hd. by apply (Hfresh n Hn), Hin1.
    + rewrite Hdom, dom_insert_L. simpl. apply set_eq. intros n.
      rewrite !elem_of_union, elem_of_singleton. tauto.
    + intros k Hk. rewrite (Hkeep k (Hin1 k Hk)).
      rewrite lookup_insert_ne; [done|]. intros ->. done.
    + intros n Hn. apply elem_of_cons in Hn as [->|Hn]; [|by apply Hnew].
      rewrite (Hkeep x Hinx). by rewrite lookup_insert_eq.
Qed.

(** The rows are bound without touching what was loaded before. *)
Lemma parse_rows_frame (tm : timepoint_mapping) (sets : unique_sets) (rows : list row)
    (data data' : DataPortal) :
  for_each (parse_row tm sets) data rows = Ok data' →
  dom data' = dom data ∧
  (∀ k, (∀ r, r ∈ rows → param r ≠ k) → data' !! k = data !! k) ∧
  (∀ k, (∃ t, data !! k = Some (ParamTable t)) → ∃ t', data' !! k = Some (ParamTable t')).
Proof.
  revert data. induction rows as [|r rows IH]; intros data Hfor; simpl in Hfor.
  - injection Hfor as <-. split; [done|]. split; [done|]. intros k [t Ht]. by exists t.
  - destruct (parse_row tm sets data r) as [data1|] eqn:Hr; [|done]. simpl in Hfor.
    apply parse_row_changes_only in Hr as (Hd1 & Hk1 & Ht1).
    destruct (IH _ Hfor) as (Hd & Hk & Ht). split; [congruence|]. split.
    + intros k Hne. rewrite Hk by (intros r' Hr'; apply Hne; by right).
      apply Hk1. intros ->. by apply (Hne r); [left|].
    + intros k Hkt. apply Ht. destruct (decide (k = param r)) as [->|Hne]; [by apply Ht1|].
      by rewrite Hk1.
Qed.

(** X16. When the flexible parameters are bound, everything that was
    loaded before is kept as it was: no parameter named by a row was loaded,
    the keys of the data grow by exactly the parameter names of the rows, and
    each of those names is bound to a dict of parameter values. *)
Theorem parse_flexible_params_frame (data data' : DataPortal) (flexible_params : list row) :
  parse_flexible_params data flexible_params = Ok data' →
  dom data' = dom data ∪ list_to_set (param <$> flexible_params) ∧
  (∀ k, k ∈ dom data → data' !! k = data !! k) ∧
  (∀ r, r ∈ flexible_params →
        (param r ∉ dom data) ∧ ∃ t, data' !! param r = Some (ParamTable t)).
Proof.
  unfold parse_flexible_params. intros Hp.
  destruct (create_timepoint_mapping data) as [[tm sets]|]; [|done]. simpl in Hp.
  destruct (for_each create_param data _) as [data1|] eqn:Hcreate; [|done]. simpl in Hp.
  apply create_params_Ok in Hcreate as (Hfresh & Hdom1 & Hkeep1 & Hnew).
  apply parse_rows_frame in Hp as (Hdom & Hkeep & Htab).
  assert (Hnames : ∀ r, r ∈ flexible_params → param r ∈ params_to_create flexible_params).
  { intros r Hr. apply LoadDataFacts.elem_of_params_to_create. eauto. }
  split; [|split].
  - rewrite Hdom, Hdom1. f_equal. apply set_eq. intros n.
    rewrite !elem_of_list_to_set, LoadDataFacts.elem_of_params_to_create, list_elem_of_fmap.
    split; intros (r & H1 & H2); exists r; done.
  - intros k Hk. rewrite Hkeep; [by apply Hkeep1|].
    intros r Hr <-. by apply (Hfresh (param r)); [apply Hnames|].
  - intros r Hr. split; [by apply Hfresh, Hnames|].
    apply Htab. exists ∅. by apply Hnew, Hnames.
Qed.

Lemma parse_flexible_params_frame_witness :
  ∃ data', parse_flexible_params example_data
             [example_row "max_charge" (CInt 2030) (CInt 1) (CInt 1) (CInt 2)] = Ok data' ∧
           data' !! "input_load_mw"%string = example_data !! "input_load_mw"%string.
Proof.
  assert (Hok : match parse_flexible_params example_data
                        [example_row "max_charge" (CInt 2030) (CInt 1) (CInt 1) (CInt 2)] with
                | Ok _ => true
                | Err _ => false
                end = true) by (vm_compute; reflexivity).
  destruct (parse_flexible_params example_data
              [example_row "max_charge" (CInt 2030) (CInt 1) (CInt 1) (CInt 2)])
    as [data'|e] eqn:Hp; [|discriminate Hok].
  exists data'. split; [reflexivity|].
  destruct (parse_flexible_params_frame example_data data' _ Hp) as (_ & Hkeep & _).
  apply Hkeep. by_compute.
Defined.

Lemma time_column_result (data : DataPortal) (name : string) :
  (∃ t, time_column data name = Ok t) ∨ time_column data name = Err KeyError.
Proof.
  unfold time_column. destruct (data !! name) as [[t|t]|]; [left; by exists t|by right..].
Qed.

(** X17. Binding the flexible parameters reads the four columns of the
    timepoint table first: with one of them missing it raises KeyError
    whatever the rows are, and with all of them loaded an empty table of
    rows returns the data unchanged. *)
Theorem parse_flexible_params_time_columns (data : DataPortal) :
  (∀ name, name ∈ ["period"; "month"; "day"; "hour_of_day"]%string →
     data !! name = None →
     ∀ flexible_params, parse_flexible_params data flexible_params = Err KeyError) ∧
  ((∀ name, name ∈ ["period"; "month"; "day"; "hour_of_day"]%string →
      ∃ t, data !! name = Some (TimeTable t)) →
   parse_flexible_params data [] = Ok data).
Proof.
  split.
  - intros name Hname Hmiss rows. unfold parse_flexible_params, create_timepoint_mapping.
    assert (Herr : time_column data name = Err KeyError).
    { unfold time_column. by rewrite Hmiss. }
    repeat (apply elem_of_cons in Hname as [->|Hname]);
      [| | | |by apply elem_of_nil in Hname].
    + rewrite Herr. reflexivity.
    + rewrite Herr. destruct (time_column_result data "period") as [[? ->]| ->]; reflexivity.
    + rewrite Herr. destruct (time_column_result data "period") as [[? ->]| ->];
        destruct (time_column_result data "month") as [[? ->]| ->]; reflexivity.
    + rewrite Herr. destruct (time_column_result data "period") as [[? ->]| ->];
        destruct (time_column_result data "month") as [[? ->]| ->];
        destruct (time_column_result data "day") as [[? ->]| ->]; reflexivity.
  - intros Hall. unfold parse_flexible_params, create_timepoint_mapping, time_column.
    destruct (Hall "period"%string) as [p ->]; [by_compute|].
    destruct (Hall "month"%string) as [mo ->]; [by_compute|].
    destruct (Hall "day"%string) as [d ->]; [by_compute|].
    destruct (Hall "hour_of_day"%string) as [h ->]; [by_compute|]. reflexivity.
Qed.

Lemma parse_flexible_params_time_columns_witness :
  parse_flexible_params (delete "month"%string example_data)
    [example_row "max_charge" CNone CNone CNone CNone] = Err KeyError ∧
  parse_flexible_params example_data [] = Ok example_data.
Proof.
  split.
  - apply (proj1 (parse_flexible_params_time_columns (delete "month"%string example_data))
                 "month"%string).
    + by_compute.
    + apply lookup_delete_eq.
  - apply (proj2 (parse_flexible_params_time_columns example_data)).
    intros name Hname.
    repeat (apply elem_of_cons in Hname as [->|Hname]);
      [| | | |by apply elem_of_nil in Hname]; eexists; vm_compute; reflexivity.
Defined.

Lemma params_to_create_ext (f : row → row) (rows : list row) :
  (∀ r, param (f r) = param r) → params_to_create (f <$> rows) = params_to_create rows.
Proof.
  intros Hf. unfold params_to_create.
  assert (Hgen : ∀ acc,
    foldl (λ acc r, if bool_decide (param r ∈ acc) then acc else acc ++ [param r])
          acc (f <$> rows)
    = foldl (λ acc r, if bool_decide (param r ∈ acc) then acc else acc ++ [param r])
            acc rows); [|apply Hgen].
  induction rows as [|r rows IH]; intros acc; simpl; [done|]. by rewrite Hf, IH.
Qed.

Lemma for_each_fmap_ext {S A} (body : S → A → result S) (f : A → A) (l : list A) (s : S) :
  (∀ s x, body s (f x) = body s x) → for_each body s (f <$> l) = for_each body s l.
Proof.
  intros Hf. revert s. induction l as [|x l IH]; intros s; simpl; [done|].
  rewrite Hf. destruct (body s x); simpl; [apply IH|done].
Qed.

(** X18. The strings ['True'] and ['False'] in the value column are read
    alike: whichever of the two a row carries, the same data is bound, and a
    row indexed by the object only binds the Python value [True]. *)
Theorem parse_flexible_params_flag_text (data : DataPortal) (flexible_params : list row)
    (b : bool) :
  parse_flexible_params data (with_flag_text b <$> flexible_params)
  = parse_flexible_params data flexible_params ∧
  ∀ name o b' t,
    data !! name = Some (ParamTable t) →
    parse_model_object_param data name o (convert_value (RBoolStr b'))
    = Ok (<[name := ParamTable (<[K1 o := VBool true]> t)]> data).
Proof.
  split.
  - assert (Hparam : ∀ r, param (with_flag_text b r) = param r).
    { intros r. unfold with_flag_text. by destruct (value r). }
    assert (Hrow : ∀ tm sets s r, parse_row tm sets s (with_flag_text b r) = parse_row tm sets s r).
    { intros tm sets s r. unfold with_flag_text. destruct r as [n o p d hf ht v].
      by destruct v. }
    unfold parse_flexible_params.
    destruct (create_timepoint_mapping data) as [[tm sets]|]; [|done]. simpl.
    rewrite (params_to_create_ext _ _ Hparam).
    destruct (for_each create_param data _) as [data1|]; [|done]. simpl.
    apply for_each_fmap_ext. intros s r. apply Hrow.
  - intros name o b' t Ht. unfold parse_model_object_param, set_param. by rewrite Ht.
Qed.

Lemma parse_flexible_params_flag_text_witness :
  parse_model_object_param example_data "input_load_mw" (COther "battery")
    (convert_value (RBoolStr false))
  = Ok (<["input_load_mw"%string := ParamTable (<[K1 (COther "battery") := VBool true]> ∅)]>
          example_data).
Proof.
  apply (proj2 (parse_flexible_params_flag_text example_data [] true)).
  vm_compute. reflexivity.
Defined.

(** Binding one value under a list of keys of one parameter. *)
Lemma for_each_set_param {A} (name : string) (key : A → pkey) (v : pyval) (l : list A)
    (data : DataPortal) (t : gmap pkey pyval) :
  data !! name = Some (ParamTable t) →
  ∃ t', for_each (λ data x, set_param data name (key x) v) data l
        = Ok (<[name := ParamTable t']> data) ∧
        (∀ x, x ∈ l → t' !! key x = Some v) ∧
        (∀ k, (∀ x, x ∈ l → k ≠ key x) → t' !! k = t !! k).
Proof.
  revert data t. induction l as [|x l IH]; intros data t Ht.
  - exists t. split; [simpl; by rewrite insert_id|]. split; [|done].
    intros x Hx. by apply elem_of_nil in Hx.
  - assert (Hs : set_param data name (key x) v
                 = Ok (<[name := ParamTable (<[key x := v]> t)]> data))
      by (unfold set_param; by rewrite Ht).
    simpl. rewrite Hs. simpl.
    destruct (IH (<[name := ParamTable (<[key x := v]> t)]> data) (<[key x := v]> t))
      as (t' & Hfor & Hin & Hout); [by rewrite lookup_insert_eq|].
    exists t'. split; [|split].
    + rewrite Hfor. by rewrite insert_insert_eq.
    + intros y Hy. destruct (decide (key y ∈ key <$> l)) as [Hyl|Hyl].
      * apply list_elem_of_fmap in Hyl as (z & -> & Hz). by apply Hin.
      * apply elem_of_cons in Hy as [->|Hy];
          [|destruct Hyl; apply list_elem_of_fmap; by exists y].
        rewrite Hout; [by rewrite lookup_insert_eq|].
        intros z Hz Heq. apply Hyl, list_elem_of_fmap. by exists z.
    + intros k Hk. rewrite Hout by (intros y Hy; apply Hk; by right).
      rewrite lookup_insert_ne; [done|]. intros Heq. by apply (Hk x); [left|].
Qed.

Lemma elem_of_timepoint_to_use (tm : timepoint_mapping) (p d h t : Z) :
  t ∈ timepoint_to_use tm p d h ↔
  tm_PERIODS tm !! t = Some p ∧ tm_DAYS tm !! t = Some d ∧ tm_HOURS_OF_DAY tm !! t = Some h.
Proof.
  unfold timepoint_to_use. rewrite list_elem_of_fmap. split.
  - intros ([t' p'] & -> & Hin). apply elem_of_filter_list in Hin as [Hin Hf].
    apply elem_of_map_to_list in Hin. simpl in Hf.
    apply andb_true_iff in Hf as [Hf Hh]. apply andb_true_iff in Hf as [Hp Hd].
    apply bool_decide_eq_true in Hp, Hd, Hh. simpl in *. by subst.
  - intros (Hp & Hd & Hh). exists (t, p). split; [done|]. apply elem_of_filter_list.
    split; [by apply elem_of_map_to_list|]. simpl.
    by rewrite !bool_decide_eq_true_2.
Qed.

Lemma for_each_ext {S A} (f g : S → A → result S) (l : list A) (s : S) :
  (∀ s x, x ∈ l → f s x = g s x) → for_each f s l = for_each g s l.
Proof.
  revert s. induction l as [|x l IH]; intros s Hfg; simpl; [done|].
  rewrite (Hfg s x) by left. destruct (g s x); simpl; [|done].
  apply IH. intros s' y Hy. apply Hfg. by right.
Qed.

(** X19. A row for a period, a day and a range of hours, each hour of which
    is the hour of exactly one timepoint of that period and day, binds the
    value under the object and each of these timepoints and changes no other
    entry; a range whose first hour lies after its last hour binds
    nothing. *)
Theorem parse_timepoint_param_binds (data : DataPortal) (tm : timepoint_mapping)
    (name : string) (o : cell) (p d hf ht : Z) (v : pyval) (t : gmap pkey pyval)
    (tp : Z → Z) :
  data !! name = Some (ParamTable t) →
  (∀ h, hf ≤ h ≤ ht → timepoint_to_use tm p d h = [tp h]) →
  ∃ t', parse_timepoint_param data tm name o (CInt p) (CInt d) (CInt hf) (CInt ht) v
        = Ok (<[name := ParamTable t']> data) ∧
        (∀ h, hf ≤ h ≤ ht → t' !! K2 o (tp h) = Some v) ∧
        (∀ k, (∀ h, hf ≤ h ≤ ht → k ≠ K2 o (tp h)) → t' !! k = t !! k) ∧
        (ht < hf → t' = t).
Proof.
  intros Ht Htp. unfold parse_timepoint_param. simpl.
  destruct (for_each_set_param name (λ h, K2 o (tp h)) v (py_range hf (ht + 1)) data t Ht)
    as (t' & Hfor & Hin & Hout).
  exists t'. split; [|split; [|split]].
  - rewrite <- Hfor. apply for_each_ext. intros s h Hh. apply elem_of_py_range in Hh.
    cbv zeta. rewrite LoadDataFacts.timepoint_assignment. by rewrite Htp by lia.
  - intros h Hh. apply Hin, elem_of_py_range. lia.
  - intros k Hk. apply Hout. intros h Hh. apply elem_of_py_range in Hh. apply Hk. lia.
  - intros Hlt. apply map_eq. intros k. apply Hout. intros h Hh.
    apply elem_of_py_range in Hh. lia.
Qed.

Lemma parse_timepoint_param_binds_witness :
  ∃ t', parse_timepoint_param example_data example_mapping "input_load_mw" (COther "battery")
          (CInt 2040) (CInt 1) (CInt 1) (CInt 2) (VFloat (1 # 2))
        = Ok (<["input_load_mw"%string := ParamTable t']> example_data) ∧
        t' !! K2 (COther "battery") 3 = Some (VFloat (1 # 2)) ∧
        t' !! K2 (COther "battery") 4 = Some (VFloat (1 # 2)).
Proof.
  destruct (parse_timepoint_param_binds example_data example_mapping "input_load_mw"
              (COther "battery") 2040 1 1 2 (VFloat (1 # 2)) ∅ (λ h, h + 2))
    as (t' & Hp & Hin & _).
  - vm_compute. reflexivity.
  - intros h Hh. assert (h = 1 ∨ h = 2) as [-> | ->] by lia; vm_compute; reflexivity.
  - exists t'. split; [exact Hp|]. split; [apply (Hin 1); lia|apply (Hin 2); lia].
Defined.

(** X20. A row for a period, a day and a range of hours is rejected when an
    hour of the range is the hour of no timepoint of that period and day, or
    of more than one: binding raises an exception.  When the first hour of
    the range has several timepoints it is ValueError, whatever the data;
    when it has none it is IndexError if the parameter has its dict, and
    KeyError if the parameter has none, since the dict is looked up before
    the timepoint. *)
Theorem parse_timepoint_param_not_unique (data : DataPortal) (tm : timepoint_mapping)
    (name : string) (o : cell) (p d hf ht h : Z) (v : pyval) :
  hf ≤ h ≤ ht →
  (length (timepoint_to_use tm p d h) ≠ 1)%nat →
  is_Err (parse_timepoint_param data tm name o (CInt p) (CInt d) (CInt hf) (CInt ht) v) ∧
  (h = hf → (∀ t, ¬ (tm_PERIODS tm !! t = Some p ∧ tm_DAYS tm !! t = Some d ∧
                     tm_HOURS_OF_DAY tm !! t = Some h)) →
   ((∃ t, data !! name = Some (ParamTable t)) →
    parse_timepoint_param data tm name o (CInt p) (CInt d) (CInt hf) (CInt ht) v
    = Err IndexError) ∧
   (data !! name = None →
    parse_timepoint_param data tm name o (CInt p) (CInt d) (CInt hf) (CInt ht) v
    = Err KeyError)) ∧
  (h = hf → (length (timepoint_to_use tm p d h) > 1)%nat →
   parse_timepoint_param data tm name o (CInt p) (CInt d) (CInt hf) (CInt ht) v
   = Err ValueError).
Proof.
  intros Hh Hlen. unfold parse_timepoint_param. simpl. split; [|split].
  - apply (LoadDataFacts.for_each_Err _ _ h); [apply elem_of_py_range; lia|].
    intros s. cbv zeta. rewrite LoadDataFacts.timepoint_assignment.
    destruct (timepoint_to_use tm p d h) as [|t [|t' l]]; [|done|by eexists].
    unfold param_dict. destruct (s !! name) as [[]|]; by eexists.
  - intros -> Hnone.
    assert (Htp : timepoint_to_use tm p d hf = []).
    { destruct (timepoint_to_use tm p d hf) as [|t l] eqn:Htp; [done|].
      destruct (Hnone t). apply elem_of_timepoint_to_use. rewrite Htp. left. }
    rewrite py_range_cons by lia. cbn [for_each]. cbv zeta.
    rewrite LoadDataFacts.timepoint_assignment, Htp. unfold param_dict. split.
    + intros [t ->]. reflexivity.
    + intros ->. reflexivity.
  - intros -> Hmany. rewrite py_range_cons by lia. cbn [for_each]. cbv zeta.
    rewrite LoadDataFacts.timepoint_assignment.
    destruct (timepoint_to_use tm p d hf) as [|t [|t' l]]; simpl in Hmany; [lia|lia|done].
Qed.

Lemma parse_timepoint_param_not_unique_witness :
  parse_timepoint_param example_data example_mapping "input_load_mw" (COther "battery")
    (CInt 2050) (CInt 1) (CInt 1) (CInt 2) (VFloat (1 # 2)) = Err IndexError ∧
  parse_timepoint_param example_data example_mapping "fuel_price" (COther "battery")
    (CInt 2050) (CInt 1) (CInt 1) (CInt 2) (VFloat (1 # 2)) = Err KeyError ∧
  parse_timepoint_param example_data repeated_mapping "input_load_mw" (COther "battery")
    (CInt 2030) (CInt 1) (CInt 1) (CInt 1) (VFloat (1 # 2)) = Err ValueError.
Proof.
  assert (Hnone : ∀ t, ¬ (tm_PERIODS example_mapping !! t = Some 2050 ∧
                          tm_DAYS example_mapping !! t = Some 1 ∧
                          tm_HOURS_OF_DAY example_mapping !! t = Some 1)).
  { intros t (Hp & _).
    assert (Hin : 2050 ∈ column_values (tm_PERIODS example_mapping))
      by (apply LoadDataFacts.elem_of_column_values; eauto).
    revert Hin. by_compute. }
  split; [|split].
  - destruct (parse_timepoint_param_not_unique example_data example_mapping "input_load_mw"
                (COther "battery") 2050 1 1 2 1 (VFloat (1 # 2))) as (_ & Hindex & _).
    + lia.
    + vm_compute. discriminate.
    + apply Hindex; [reflexivity|exact Hnone|]. exists ∅. vm_compute. reflexivity.
  - destruct (parse_timepoint_param_not_unique example_data example_mapping "fuel_price"
                (COther "battery") 2050 1 1 2 1 (VFloat (1 # 2))) as (_ & Hkey & _).
    + lia.
    + vm_compute. discriminate.
    + apply Hkey; [reflexivity|exact Hnone|]. vm_compute. reflexivity.
  - destruct (parse_timepoint_param_not_unique example_data repeated_mapping "input_load_mw"
                (COther "battery") 2030 1 1 1 1 (VFloat (1 # 2))) as (_ & _ & Hvalue).
    + lia.
    + vm_compute. discriminate.
    + apply Hvalue; [reflexivity|]. vm_compute. lia.
Defined.

(** X21. A row that gives a day or an hour bound, but whose two hour bounds
    are not both integers, is rejected with ValueError whatever has been
    bound before: the hours of a row for timepoints cannot be left out. *)
Theorem parse_row_hours_required (tm : timepoint_mapping) (sets : unique_sets)
    (data : DataPortal) (r : row) :
  day r ≠ CNone ∨ hour_of_day_from r ≠ CNone ∨ hour_of_day_to r ≠ CNone →
  (∀ h, hour_of_day_from r ≠ CInt h) ∨ (∀ h, hour_of_day_to r ≠ CInt h) →
  parse_row tm sets data r = Err ValueError.
Proof.
  intros Hsome Hbad. destruct r as [n o p d hf ht v]. simpl in Hsome, Hbad.
  unfold parse_row, is_None, is_All. simpl.
  destruct d, hf, ht;
    try (exfalso; destruct Hsome as [H|[H|H]]; by apply H);
    try (exfalso; destruct Hbad as [H|H]; eapply H; reflexivity);
    destruct p; reflexivity.
Qed.

Lemma parse_row_hours_required_witness :
  parse_row example_mapping
    {| sets_PERIODS := [2030; 2040]; sets_MONTHS := [1]; sets_DAYS := [1];
       sets_HOURS := [1; 2] |}
    example_data (example_row "max_charge" (CInt 2030) (CInt 1) CNone CNone)
  = Err ValueError.
Proof.
  apply parse_row_hours_required.
  - left. discriminate.
  - left. intros h. discriminate.
Defined.

(** X22. A row with the period ['All'] and no day and hours binds the value
    under the object and every period of the timepoint table, and changes no
    other entry; with no day, hours and period the value is bound under the
    object alone. *)
Theorem parse_row_all_periods (tm : timepoint_mapping) (sets : unique_sets)
    (data : DataPortal) (r : row) (t : gmap pkey pyval) :
  data !! param r = Some (ParamTable t) →
  day r = CNone → hour_of_day_from r = CNone → hour_of_day_to r = CNone →
  (period r = CAll →
   ∃ t', parse_row tm sets data r = Ok (<[param r := ParamTable t']> data) ∧
         (∀ p, p ∈ sets_PERIODS sets →
               t' !! K2 (model_object r) p = Some (convert_value (value r))) ∧
         (∀ k, (∀ p, p ∈ sets_PERIODS sets → k ≠ K2 (model_object r) p) →
               t' !! k = t !! k)) ∧
  (period r = CNone →
   parse_row tm sets data r
   = Ok (<[param r := ParamTable (<[K1 (model_object r) := convert_value (value r)]> t)]>
           data)).
Proof.
  intros Ht Hd Hf Hto. unfold parse_row, is_None, is_All. rewrite Hd, Hf, Hto. split.
  - intros Hp. rewrite Hp. simpl.
    destruct (for_each_set_param (param r) (λ p, K2 (model_object r) p)
                (convert_value (value r)) (sets_PERIODS sets) data t Ht)
      as (t' & Hfor & Hin & Hout).
    exists t'. split; [|split; [exact Hin|exact Hout]].
    rewrite <- Hfor. apply for_each_ext. intros s p _. reflexivity.
  - intros Hp. rewrite Hp. simpl. unfold parse_model_object_param, set_param.
    by rewrite Ht.
Qed.

Lemma parse_row_all_periods_witness :
  ∃ t', parse_row example_mapping
          {| sets_PERIODS := [2030; 2040]; sets_MONTHS := [1]; sets_DAYS := [1];
             sets_HOURS := [1; 2] |}
          example_data (example_row "input_load_mw" CAll CNone CNone CNone)
        = Ok (<["input_load_mw"%string := ParamTable t']> example_data) ∧
        t' !! K2 (COther "battery") 2040 = Some (VFloat (1 # 2)).
Proof.
  assert (Ht : example_data !! "input_load_mw"%string = Some (ParamTable ∅))
    by (vm_compute; reflexivity).
  destruct (parse_row_all_periods example_mapping
              {| sets_PERIODS := [2030; 2040]; sets_MONTHS := [1]; sets_DAYS := [1];
                 sets_HOURS := [1; 2] |}
              example_data (example_row "input_load_mw" CAll CNone CNone CNone) ∅
              Ht eq_refl eq_refl eq_refl) as [Hall _].
  destruct (Hall eq_refl) as (t' & Hp & Hin & _). exists t'. split; [exact Hp|].
  apply (Hin 2040). by_compute.
Defined.

End LoadDataFrame.

(** End of the development. *)
